(** * Compras-Medicamentos-SUS: the modelling and enrichment engine

    A shallow embedding of [src/modelagem_dim.py] and [src/dimensoes.py].

    A pandas DataFrame is a list of column names and a list of rows; a row
    maps column names to cells.  Numeric cells are exact rationals (the
    arithmetic of float64 without its rounding error), NaN, None and NaT
    are one missing value.  The functions of the source mutate the frame
    they receive and return it; here they take the frame and return its
    final state. *)

From Stdlib Require Import QArith Qround Qabs Lia Lqa Ascii String DecimalString DecimalNat DecimalN.
From stdpp Require Import gmap strings list fin_maps sorting.

Local Open Scope Q_scope.

(** ** Cells *)

Inductive cell : Type :=
  | NaN                     (* NaN, None or NaT *)
  | Num (q : Q)             (* an int64 or float64 value *)
  | Str (s : string)        (* a str *)
  | Date (y m d : Z).       (* a Timestamp, to the day *)

Global Instance cell_inhabited : Inhabited cell := populate NaN.

Definition isna (c : cell) : bool :=
  match c with NaN => true | _ => false end.

Definition notna (c : cell) : bool := negb (isna c).

(** Equality of two cells as [drop_duplicates], [groupby] and [merge] see
    it: by value, and a missing value equals a missing value. *)
Definition cell_eqb (a b : cell) : bool :=
  match a, b with
  | NaN, NaN => true
  | Num x, Num y => Qeq_bool x y
  | Str s, Str t => String.eqb s t
  | Date y m d, Date y' m' d' => Z.eqb y y' && Z.eqb m m' && Z.eqb d d'
  | _, _ => false
  end.

Definition Qltb (x y : Q) : bool := negb (Qle_bool y x).

(** [series > 0]: a comparison with a missing value is False. *)
Definition gt0 (c : cell) : bool :=
  match c with Num x => Qltb 0 x | _ => false end.

(** Elementwise arithmetic of two Series; a missing operand gives NaN. *)
Definition lift2 (f : Q -> Q -> Q) (a b : cell) : cell :=
  match a, b with
  | Num x, Num y => Num (f x y)
  | _, _ => NaN
  end.

Definition csub : cell -> cell -> cell := lift2 Qminus.
Definition cmul : cell -> cell -> cell := lift2 Qmult.
Definition cadd : cell -> cell -> cell := lift2 Qplus.

(** Division.  Every division of the module stands under a [> 0] test of
    its denominator; the quotient by zero (inf or nan in numpy) is never
    selected and is given as missing. *)
Definition cdiv (a b : cell) : cell :=
  match a, b with
  | Num x, Num y => if Qeq_bool y 0 then NaN else Num (x / y)
  | _, _ => NaN
  end.

(** [np.where(cond, a, b)] at one row. *)
Definition np_where (cond : bool) (a b : cell) : cell :=
  if cond then a else b.

(** [fillna(0)] at one row. *)
Definition fillna0 (c : cell) : cell :=
  match c with NaN => Num 0 | _ => c end.

(** [.dt.year] at one row of a datetime64 column. *)
Definition dt_year (c : cell) : cell :=
  match c with Date y _ _ => Num (inject_Z y) | _ => NaN end.

(** ** Rounding: [round(d)], half to even on the scaled value *)

Definition rint (y : Q) : Z :=
  let f := Qfloor y in
  let r := y - inject_Z f in
  if Qltb r (1#2) then f
  else if Qltb (1#2) r then (f + 1)%Z
  else if Z.even f then f else (f + 1)%Z.

Definition pow10 (d : nat) : positive := Pos.pow 10 (Pos.of_nat d).

Definition scale (d : nat) : positive :=
  match d with O => 1%positive | _ => pow10 d end.

Definition round_dec (d : nat) (q : Q) : Q :=
  rint (q * inject_Z (Zpos (scale d))) # scale d.

Definition cround (d : nat) (c : cell) : cell :=
  match c with Num q => Num (round_dec d q) | _ => c end.

(** [Series.round] by a rounding [f] of the numbers; missing values stay. *)
Definition cround_by (f : Q -> Q) (c : cell) : cell :=
  match c with Num q => Num (f q) | _ => c end.

(** ** Frames *)

Abbreviation Row := (gmap string cell).

Record DataFrame : Type := mkDF {
  columns : list string;
  rows : list Row
}.

(** [row[c]]. *)
Definition get (c : string) (r : Row) : cell := default NaN (r !! c).

(** [c in df.columns]. *)
Definition has_col (c : string) (df : DataFrame) : bool :=
  bool_decide (c ∈ columns df).

(** [all(col in df.columns for col in cs)]. *)
Definition has_cols (cs : list string) (df : DataFrame) : bool :=
  forallb (fun c => has_col c df) cs.

(** [df[c] = f(row)]: an existing column is overwritten where it stands,
    a new one is appended as the last column. *)
Definition set_col (c : string) (f : Row -> cell) (df : DataFrame) : DataFrame :=
  {| columns := if has_col c df then columns df else columns df ++ [c];
     rows := (fun r => <[c := f r]> r) <$> rows df |}.

(** [df.drop(columns=[c])] of a column that is present. *)
Definition drop_col (c : string) (df : DataFrame) : DataFrame :=
  {| columns := filter (fun x => x ≠ c) (columns df);
     rows := delete c <$> rows df |}.

(** [df.rename(columns={c: c'})]. *)
Definition rename_in_row (c c' : string) (r : Row) : Row :=
  match r !! c with
  | Some v => <[c' := v]> (delete c r)
  | None => r
  end.

Definition rename_col (c c' : string) (df : DataFrame) : DataFrame :=
  {| columns := (fun x => if String.eqb x c then c' else x) <$> columns df;
     rows := rename_in_row c c' <$> rows df |}.

(** [df[cs]]: the columns [cs], in that order. *)
Definition select_row (cs : list string) (r : Row) : Row :=
  foldr (fun c acc => <[c := get c r]> acc) ∅ cs.

Definition select_cols (cs : list string) (df : DataFrame) : DataFrame :=
  {| columns := cs; rows := select_row cs <$> rows df |}.

(** [pd.DataFrame()]. *)
Definition empty_frame : DataFrame := {| columns := []; rows := [] |}.

(** [df.empty]: an axis of length 0. *)
Definition df_empty (df : DataFrame) : bool :=
  match columns df, rows df with
  | [], _ | _, [] => true
  | _, _ => false
  end.

(** ** What a function returns or raises *)

Inductive exn : Type :=
  | KeyError (c : string)
  | IndexError.

Inductive result (A : Type) : Type :=
  | Ok (a : A)
  | Raise (e : exn).

Arguments Ok {A} a.
Arguments Raise {A} e.

Global Instance result_ret : MRet result := fun A a => Ok a.

Global Instance result_bind : MBind result := fun A B f m =>
  match m with
  | Ok a => f a
  | Raise e => Raise e
  end.

(** The first of the columns [cs] that [df] lacks, if any: the one the
    lookup of a missing column names in its KeyError. *)
Definition missing_col (cs : list string) (df : DataFrame) : option string :=
  head (filter (fun c => has_col c df = false) cs).

Definition require (cs : list string) (df : DataFrame) : result unit :=
  match missing_col cs df with
  | Some c => Raise (KeyError c)
  | None => Ok tt
  end.

(** ** Order of cells, sorting, duplicates *)

Definition rank (c : cell) : nat :=
  match c with Num _ => 0 | Str _ => 1 | Date _ _ _ => 2 | NaN => 3 end%nat.

Definition date_leb (y m d y' m' d' : Z) : bool :=
  (y <? y')%Z || ((y =? y')%Z && ((m <? m')%Z || ((m =? m')%Z && (d <=? d')%Z))).

(** Ascending order inside a column; a missing value comes last
    ([na_position='last']). *)
Definition cell_leb (a b : cell) : bool :=
  match a, b with
  | Num x, Num y => Qle_bool x y
  | Str s, Str t => String.leb s t
  | Date y m d, Date y' m' d' => date_leb y m d y' m' d'
  | _, _ => (rank a <=? rank b)%nat
  end.

(** Lexicographic order of two keys of the same length. *)
Fixpoint key_leb (k1 k2 : list cell) : bool :=
  match k1, k2 with
  | a :: k1, b :: k2 =>
      if cell_eqb a b then key_leb k1 k2 else cell_leb a b
  | _, _ => true
  end.

(** A stable insertion sort: an element goes before the first one it is
    not greater than, so before its equals that came later in the input. *)
Fixpoint insert_by {A} (leb : A -> A -> bool) (x : A) (l : list A) : list A :=
  match l with
  | [] => [x]
  | y :: l' => if leb x y then x :: l else y :: insert_by leb x l'
  end.

Definition sort_by {A} (leb : A -> A -> bool) (l : list A) : list A :=
  foldr (insert_by leb) [] l.

(** [drop_duplicates] ([keep='first']). *)
Fixpoint dedup_by {A} (eqb : A -> A -> bool) (l : list A) : list A :=
  match l with
  | [] => []
  | x :: l' => x :: filter (fun y => eqb x y = false) (dedup_by eqb l')
  end.

(** ** Groups *)

Definition key_of (ks : list string) (r : Row) : list cell :=
  (fun c => get c r) <$> ks.

Fixpoint key_eqb (k1 k2 : list cell) : bool :=
  match k1, k2 with
  | [], [] => true
  | a :: k1, b :: k2 => cell_eqb a b && key_eqb k1 k2
  | _, _ => false
  end.

Definition notna_key (k : list cell) : bool := forallb notna k.

(** The rows of the group of key [k]. *)
Definition group (ks : list string) (k : list cell) (rs : list Row) : list Row :=
  filter (fun r => key_eqb (key_of ks r) k = true) rs.

(** The keys of [groupby(ks)]: distinct, without the keys that have a
    missing component ([dropna=True]), in ascending order ([sort=True]). *)
Definition groupby_keys (ks : list string) (rs : list Row) : list (list cell) :=
  sort_by key_leb (dedup_by key_eqb (filter (fun k => notna_key k = true) (key_of ks <$> rs))).

(** The numbers of a column, missing values skipped ([skipna]). *)
Definition num (c : cell) : option Q :=
  match c with Num q => Some q | _ => None end.

Definition nums (c : string) (rs : list Row) : list Q :=
  omap (fun r => num (get c r)) rs.

Definition Qsum (xs : list Q) : Q := foldr Qplus 0 xs.

Definition Qlen {A} (xs : list A) : Q := inject_Z (Z.of_nat (length xs)).

(** [sum]: 0 for a group without numbers. *)
Definition agg_sum (xs : list Q) : cell := Num (Qsum xs).

(** [mean]: missing for a group without numbers. *)
Definition mean (xs : list Q) : cell :=
  match xs with
  | [] => NaN
  | _ => Num (Qsum xs / Qlen xs)
  end.

(** The sum of squared deviations from the mean. *)
Definition sqdev (xs : list Q) : Q :=
  let m := Qsum xs / Qlen xs in
  Qsum ((fun x => (x - m) * (x - m)) <$> xs).

(** [median]: the middle of the sorted numbers, the mean of the two
    middle ones when their count is even. *)
Definition median (xs : list Q) : cell :=
  let s := sort_by Qle_bool xs in
  let n := length s in
  match n with
  | O => NaN
  | _ =>
      if Nat.even n
      then Num ((nth (n / 2 - 1) s 0 + nth (n / 2) s 0) / 2)
      else Num (nth (n / 2) s 0)
  end.

(** [max] and [min] of a column, missing values skipped. *)
Definition col_max (cs : list cell) : cell :=
  foldr (fun c acc => if isna acc then c else if isna c then acc
                      else if cell_leb acc c then c else acc) NaN cs.

Definition col_min (cs : list cell) : cell :=
  foldr (fun c acc => if isna acc then c else if isna c then acc
                      else if cell_leb c acc then c else acc) NaN cs.

(** [nunique]: the number of distinct values, missing ones not counted. *)
Definition nunique (cs : list cell) : nat :=
  length (dedup_by cell_eqb (filter (fun c => notna c = true) cs)).

(** The row of [groupby(ks).agg(...).reset_index()] for the key [k]. *)
Definition row_of_key (ks : list string) (k : list cell) : Row :=
  list_to_map (zip ks k).

Definition agg_row (ks : list string) (aggs : list (string * (list Row -> cell)))
    (rs : list Row) (k : list cell) : Row :=
  foldr (fun a acc => <[a.1 := a.2 (group ks k rs)]> acc) (row_of_key ks k) aggs.

(** [df.groupby(ks).agg(c1=..., c2=...).reset_index()]. *)
Definition groupby_agg (ks : list string)
    (aggs : list (string * (list Row -> cell))) (df : DataFrame) : DataFrame :=
  {| columns := ks ++ aggs.*1;
     rows := agg_row ks aggs (rows df) <$> groupby_keys ks (rows df) |}.

(** ** [pd.merge(left, right, on=ks, how='left')] *)

(** A column of both frames that is not a key gets the suffixes [_x]
    (left) and [_y] (right). *)
Definition overlap (ks : list string) (left right : DataFrame) : list string :=
  filter (fun c => c ∈ columns left ∧ c ∉ ks) (columns right).

Definition sfx (ov : list string) (s : string) (c : string) : string :=
  if bool_decide (c ∈ ov) then c +:+ s else c.

Definition merge_row (ks ov rcols : list string) (r : Row) (s : option Row) : Row :=
  foldr (fun c acc => <[sfx ov "_y" c := from_option (get c) NaN s]> acc)
        (foldr (fun c acc => rename_in_row c (c +:+ "_x") acc) r ov)
        (filter (fun c => c ∉ ks) rcols).

(** Every left row, in order, once for each right row of the same key (in
    the order of the right frame), or once with missing values when there
    is none. *)
Definition merge_left (ks : list string) (left right : DataFrame) : DataFrame :=
  let ov := overlap ks left right in
  {| columns := (sfx ov "_x" <$> columns left)
                ++ (sfx ov "_y" <$> filter (fun c => c ∉ ks) (columns right));
     rows := r ← rows left;
             match filter (fun s => key_eqb (key_of ks r) (key_of ks s) = true) (rows right) with
             | [] => [merge_row ks ov (columns right) r None]
             | ms => (fun s => merge_row ks ov (columns right) r (Some s)) <$> ms
             end |}.

(** [first_max c rs]: the row [idxmax] selects, the first one that holds
    the greatest value of column [c]. *)
Fixpoint first_max (c : string) (rs : list Row) : option Row :=
  match rs with
  | [] => None
  | r :: rs' =>
      match first_max c rs' with
      | None => Some r
      | Some m => if cell_leb (get c m) (get c r) then Some r else Some m
      end
  end.

(** ** Strings *)

(** The characters [str.strip()] removes, as far as ASCII goes. *)
Definition is_space (a : ascii) : bool :=
  let n := N_of_ascii a in
  ((9 <=? n) && (n <=? 13) || (28 <=? n) && (n <=? 32))%N.

(** The characters [\d] matches, as far as ASCII goes. *)
Definition is_digit (a : ascii) : bool :=
  let n := N_of_ascii a in
  ((48 <=? n) && (n <=? 57))%N.

Fixpoint lstrip (l : list ascii) : list ascii :=
  match l with
  | a :: l' => if is_space a then lstrip l' else l
  | [] => []
  end.

(** [s.strip()]. *)
Definition strip (s : string) : string :=
  string_of_list_ascii (reverse (lstrip (reverse (lstrip (list_ascii_of_string s))))).

(** [re.sub(r'\D', '', s)[:8]]. *)
Definition raiz (s : string) : string :=
  string_of_list_ascii (take 8 (filter (fun a => is_digit a = true) (list_ascii_of_string s))).

(** [sep.join(l)]. *)
Fixpoint join (sep : string) (l : list string) : string :=
  match l with
  | [] => ""
  | [x] => x
  | x :: l' => x +:+ sep +:+ join sep l'
  end.

(** [str(n)] of a natural number. *)
Definition decimal (n : N) : string :=
  DecimalString.NilEmpty.string_of_uint (N.to_uint n).

(** The format [{x:05d}]: at least [w] digits, zeros on the left. *)
Definition zfill (w : nat) (s : string) : string :=
  string_of_list_ascii (replicate (w - String.length s) "0"%char) +:+ s.

(** ** MD5 (RFC 1321), as [hashlib.md5] computes it *)

Module MD5.

Local Open Scope Z_scope.

Definition w32 (x : Z) : Z := x mod 4294967296.

Definition rotl (x c : Z) : Z :=
  w32 (Z.lor (Z.shiftl x c) (Z.shiftr x (32 - c))).

Definition lnot32 (x : Z) : Z := Z.lxor x 4294967295.

Definition S : list Z :=
  [7; 12; 17; 22; 7; 12; 17; 22; 7; 12; 17; 22; 7; 12; 17; 22;
   5; 9; 14; 20; 5; 9; 14; 20; 5; 9; 14; 20; 5; 9; 14; 20;
   4; 11; 16; 23; 4; 11; 16; 23; 4; 11; 16; 23; 4; 11; 16; 23;
   6; 10; 15; 21; 6; 10; 15; 21; 6; 10; 15; 21; 6; 10; 15; 21].

Definition K : list Z :=
  [3614090360; 3905402710; 606105819; 3250441966; 4118548399; 1200080426; 2821735955; 4249261313; 1770035416; 2336552879; 4294925233; 2304563134; 1804603682; 4254626195; 2792965006; 1236535329; 4129170786; 3225465664; 643717713; 3921069994; 3593408605; 38016083; 3634488961; 3889429448; 568446438; 3275163606; 4107603335; 1163531501; 2850285829; 4243563512; 1735328473; 2368359562; 4294588738; 2272392833; 1839030562; 4259657740; 2763975236; 1272893353; 4139469664; 3200236656; 681279174; 3936430074; 3572445317; 76029189; 3654602809; 3873151461; 530742520; 3299628645; 4096336452; 1126891415; 2878612391; 4237533241; 1700485571; 2399980690; 4293915773; 2240044497; 1873313359; 4264355552; 2734768916; 1309151649; 4149444226; 3174756917; 718787259; 3951481745].

Record state := mk { sa : Z; sb : Z; sc : Z; sd : Z }.

Definition init : state := mk 1732584193 4023233417 2562383102 271733878.

Definition step (M : list Z) (st : state) (i : Z) : state :=
  let '(mk a b c d) := st in
  let '(f, g) :=
    if i <? 16 then (Z.lor (Z.land b c) (Z.land (lnot32 b) d), i)
    else if i <? 32 then (Z.lor (Z.land d b) (Z.land (lnot32 d) c), (5 * i + 1) mod 16)
    else if i <? 48 then (Z.lxor b (Z.lxor c d), (3 * i + 5) mod 16)
    else (Z.lxor c (Z.lor b (lnot32 d)), (7 * i) mod 16) in
  let f' := w32 (f + a + nth (Z.to_nat i) K 0 + nth (Z.to_nat g) M 0) in
  mk d (w32 (b + rotl f' (nth (Z.to_nat i) S 0))) b c.

Definition rounds : list Z := Z.of_nat <$> seq 0 64.

Definition block (st : state) (M : list Z) : state :=
  let '(mk a b c d) := fold_left (step M) rounds st in
  mk (w32 (sa st + a)) (w32 (sb st + b)) (w32 (sc st + c)) (w32 (sd st + d)).

(** The [n] low bytes of [x], least significant first. *)
Fixpoint le_bytes (n : nat) (x : Z) : list Z :=
  match n with
  | O => []
  | Datatypes.S n' => x mod 256 :: le_bytes n' (x / 256)
  end.

Definition pad (msg : list Z) : list Z :=
  let len := Z.of_nat (length msg) in
  let zeros := Z.to_nat ((55 - len) mod 64) in
  msg ++ [128] ++ repeat 0 zeros ++ le_bytes 8 (8 * len).

Fixpoint words (fuel : nat) (bs : list Z) : list Z :=
  match fuel, bs with
  | Datatypes.S fuel', b0 :: b1 :: b2 :: b3 :: bs' =>
      (b0 + 256 * b1 + 65536 * b2 + 16777216 * b3) :: words fuel' bs'
  | _, _ => []
  end.

Fixpoint chunks (fuel : nat) (ws : list Z) : list (list Z) :=
  match fuel, ws with
  | Datatypes.S fuel', _ :: _ => firstn 16 ws :: chunks fuel' (skipn 16 ws)
  | _, _ => []
  end.

Definition digest (msg : list Z) : list Z :=
  let bs := pad msg in
  let ws := words (length bs) bs in
  let '(mk a b c d) := fold_left block (chunks (length ws) ws) init in
  le_bytes 4 a ++ le_bytes 4 b ++ le_bytes 4 c ++ le_bytes 4 d.

Definition hex_digit (x : Z) : ascii :=
  nth (Z.to_nat x) (list_ascii_of_string "0123456789abcdef") "0"%char.

Definition hex (bs : list Z) : string :=
  string_of_list_ascii (flat_map (fun b => [hex_digit (b / 16); hex_digit (b mod 16)]) bs).

Definition bytes_of (s : string) : list Z :=
  (fun a => Z.of_N (N_of_ascii a)) <$> list_ascii_of_string s.

(** [hashlib.md5(s.encode('utf-8')).hexdigest()]. *)
Definition hexdigest (s : string) : string := hex (digest (bytes_of s)).

End MD5.

(** ** The engine *)

Section Engine.

(** The square root of float64 (numpy's [sqrt]). *)
Variable Qsqrt : Q -> Q.

(** What [pd.to_datetime(errors='coerce')] makes of a str or a number. *)
Variable parse_date : cell -> cell.

(** Python's [str] of the value of a cell. *)
Variable py_str : cell -> string.

(** [Series.round(4)] of float64 values.  The code rounds the float that
    stands for the value, so a value that lies exactly between two
    neighbours of four decimals in exact arithmetic may go to either. *)
Variable round4 : Q -> Q.

(** [std]: the sample standard deviation (ddof = 1), missing for a group
    of fewer than two numbers. *)
Definition std (xs : list Q) : cell :=
  match xs with
  | [] | [_] => NaN
  | _ => Num (Qsqrt (sqdev xs / (Qlen xs - 1)))
  end.

(** [df.groupby(ks)[c].transform(agg)] at row [r]: the aggregate of the
    group of [r], broadcast to [r]; a row with a missing key is in no
    group and gets a missing value. *)
Definition transform (ks : list string) (c : string) (agg : list Q -> cell)
    (rs : list Row) (r : Row) : cell :=
  if notna_key (key_of ks r)
  then agg (nums c (group ks (key_of ks r) rs))
  else NaN.

(** *** modelagem_dim.py, function 1: [calcular_zscore_risco] *)

Definition zscore_cols : list string :=
  ["compra"; "codigo_br"; "preco_total"; "qtd_itens_comprados"]%string.

Definition colunas_agrupamento : list string := ["codigo_br"; "ano_compra"]%string.

Definition calcular_zscore_risco (df : DataFrame) : DataFrame :=
  if negb (has_cols zscore_cols df) then df
  else
    let df1 := set_col "ano_compra" (fun r => dt_year (get "compra" r)) df in
    let df2 := set_col "pmp_individual"
                 (fun r => np_where (gt0 (get "qtd_itens_comprados" r))
                             (cdiv (get "preco_total" r) (get "qtd_itens_comprados" r))
                             (Num 0)) df1 in
    let df3 := set_col "pmp_medio"
                 (transform colunas_agrupamento "pmp_individual" mean (rows df2)) df2 in
    let df4 := set_col "pmp_desvio_padrao"
                 (transform colunas_agrupamento "pmp_individual" std (rows df3)) df3 in
    let df5 := set_col "pmp_desvio_padrao"
                 (fun r => fillna0 (get "pmp_desvio_padrao" r)) df4 in
    let df6 := set_col "score_z_risco"
                 (fun r => np_where (gt0 (get "pmp_desvio_padrao" r))
                             (cdiv (csub (get "pmp_individual" r) (get "pmp_medio" r))
                                   (get "pmp_desvio_padrao" r))
                             (Num 0)) df5 in
    set_col "score_z_risco" (fun r => cround 2 (get "score_z_risco" r)) df6.

(** *** modelagem_dim.py, function 2: [calcular_risco_intermitencia] *)

Definition is_datetime (c : cell) : bool :=
  match c with Date _ _ _ | NaN => true | _ => false end.

(** [pd.to_datetime(errors='coerce')] at one value. *)
Definition to_datetime (c : cell) : cell :=
  if is_datetime c then c
  else match parse_date c with
       | Date y m d => Date y m d
       | _ => NaN
       end.

(** [.dt.to_period('M')] at one value: the month, held as its first day. *)
Definition to_period_M (c : cell) : cell :=
  match c with Date y m _ => Date y m 1 | _ => NaN end.

Definition period_year (c : cell) : Z :=
  match c with Date y _ _ => y | _ => 0%Z end.

Definition period_month (c : cell) : Z :=
  match c with Date _ m _ => m | _ => 0%Z end.

Definition periodo_total_meses (mes_min mes_max : cell) : Z :=
  ((period_year mes_max - period_year mes_min) * 12
   + period_month mes_max - period_month mes_min + 1)%Z.

Definition calcular_risco_intermitencia (df : DataFrame) : result DataFrame :=
  if negb (has_col "data_compra" df) then Ok df
  else
    let df1 :=
      if forallb (fun r => is_datetime (get "data_compra" r)) (rows df) then df
      else set_col "data_compra" (fun r => to_datetime (get "data_compra" r)) df in
    let df2 := set_col "mes_compra" (fun r => to_period_M (get "data_compra" r)) df1 in
    _ ← require ["id_produto"]%string df2;
    let intermitencia :=
      groupby_agg ["id_produto"]%string
        [("Meses_Comprados_Historico"%string,
          fun g => Num (inject_Z (Z.of_nat (nunique (get "mes_compra" <$> g)))))] df2 in
    let mes_min := col_min (get "mes_compra" <$> rows df2) in
    let mes_max := col_max (get "mes_compra" <$> rows df2) in
    if isna mes_min || isna mes_max then Ok df2
    else
      let periodo := periodo_total_meses mes_min mes_max in
      let intermitencia :=
        set_col "Risco_Intermitencia"
          (fun r => np_where (0 <? periodo)%Z
                      (csub (Num 1)
                         (cdiv (get "Meses_Comprados_Historico" r) (Num (inject_Z periodo))))
                      (Num 0)) intermitencia in
      let df3 :=
        merge_left ["id_produto"]%string df2
          (select_cols ["id_produto"; "Risco_Intermitencia"; "Meses_Comprados_Historico"]%string
             intermitencia) in
      Ok (drop_col "mes_compra" df3).

(** *** modelagem_dim.py, function 3: [calcular_concentracao_fornecedor] *)

Definition gasto_col : string := "preco_total".

Definition gasto_total_produto (df : DataFrame) : DataFrame :=
  groupby_agg ["id_produto"]%string
    [("Gasto_Total_Produto_Global"%string, fun g => agg_sum (nums gasto_col g))] df.

Definition gasto_por_fornecedor (df : DataFrame) : DataFrame :=
  groupby_agg ["id_produto"; "id_fornecedor"]%string
    [(gasto_col, fun g => agg_sum (nums gasto_col g))] df.

(** [gasto_por_fornecedor.loc[idx_max_gasto]]: for every product, the
    first row of its greatest spend. *)
Definition loc_idxmax (gpf : DataFrame) : DataFrame :=
  {| columns := columns gpf;
     rows := omap (fun k => first_max gasto_col (group ["id_produto"]%string k (rows gpf)))
               (groupby_keys ["id_produto"]%string (rows gpf)) |}.

Definition fornecedor_principal (df : DataFrame) : DataFrame :=
  rename_col gasto_col "Gasto_Forn_Principal" (loc_idxmax (gasto_por_fornecedor df)).

Definition df_concentracao (df : DataFrame) : DataFrame :=
  let m := merge_left ["id_produto"]%string (gasto_total_produto df)
             (select_cols ["id_produto"; "Gasto_Forn_Principal"]%string
                (fornecedor_principal df)) in
  set_col "%_Gasto_Unico_Forn"
    (fun r => np_where (gt0 (get "Gasto_Total_Produto_Global" r))
                (cdiv (get "Gasto_Forn_Principal" r) (get "Gasto_Total_Produto_Global" r))
                (Num 0)) m.

Definition calcular_concentracao_fornecedor (df : DataFrame) : result DataFrame :=
  _ ← require ["id_produto"; gasto_col; "id_fornecedor"]%string df;
  Ok (merge_left ["id_produto"]%string df
        (select_cols ["id_produto"; "%_Gasto_Unico_Forn"]%string (df_concentracao df))).

(** *** modelagem_dim.py, function 4: [calcular_indice_priorizacao] *)

Definition prior_cols : list string :=
  ["id_produto"; "preco_total"; "score_z_risco"]%string.

(** Step 1: the mean absolute z-score and the spend of every product. *)
Definition prior_agg (df : DataFrame) : DataFrame :=
  groupby_agg ["id_produto"]%string
    [("risco_medio"%string, fun g => mean (Qabs <$> nums "score_z_risco" g));
     ("demanda_valor"%string, fun g => agg_sum (nums "preco_total" g))] df.

(** Step 2: min-max scaling of column [c] into column [c']. *)
Definition min_max (c c' : string) (df : DataFrame) : DataFrame :=
  let vmax := col_max (get c <$> rows df) in
  let vmin := col_min (get c <$> rows df) in
  if gt0 (csub vmax vmin)
  then set_col c' (fun r => cdiv (csub (get c r) vmin) (csub vmax vmin)) df
  else set_col c' (fun _ => Num 0) df.

(** Step 2 on both indicators. *)
Definition prior_normalizado (df : DataFrame) : DataFrame :=
  min_max "demanda_valor" "demanda_normalizada"
    (min_max "risco_medio" "risco_normalizado" (prior_agg df)).

(** Steps 3 and 4: the frame [df_prioridade] that is merged back. *)
Definition df_prioridade (df : DataFrame) : DataFrame :=
  let p3 := set_col "indice_priorizacao"
              (fun r => cround_by round4
                          (cadd (cmul (get "risco_normalizado" r) (Num (1#2)))
                                (cmul (get "demanda_normalizada" r) (Num (1#2)))))
              (prior_normalizado df) in
  select_cols ["id_produto"; "indice_priorizacao"; "demanda_valor"]%string p3.

Definition calcular_indice_priorizacao (df : DataFrame) : result DataFrame :=
  if negb (has_cols prior_cols df) then Ok df
  else
    let m := merge_left ["id_produto"]%string df (df_prioridade df) in
    _ ← require ["indice_priorizacao"]%string m;
    let m1 := set_col "indice_priorizacao" (fun r => fillna0 (get "indice_priorizacao" r)) m in
    _ ← require ["demanda_valor"]%string m1;
    Ok (set_col "demanda_valor" (fun r => fillna0 (get "demanda_valor" r)) m1).

(** *** modelagem_dim.py, function 6: [gerar_mini_fato_radar_enriquecida] *)

Definition contexto_benchmark : list string :=
  ["id_produto"; "id_instituicao"; "id_tempo"]%string.

Definition required_cols : list string :=
  contexto_benchmark ++
  ["id_pedido"; "id_fornecedor"; "id_fabricante"; "preco_unitario"; "preco_total";
   "qtd_itens_comprados"]%string.

Definition linha_valida (r : Row) : bool :=
  gt0 (get "preco_total" r) && gt0 (get "qtd_itens_comprados" r).

Definition df_limpo (df : DataFrame) : DataFrame :=
  {| columns := columns df; rows := filter (fun r => linha_valida r = true) (rows df) |}.

Definition df_benchmark (limpo : DataFrame) : DataFrame :=
  groupby_agg contexto_benchmark
    [("PMP_Mediano_Dinamico"%string, fun g => median (nums "preco_unitario" g))] limpo.

Definition radar_cols : list string :=
  ["id_pedido"; "id_produto"; "id_instituicao"; "id_fabricante"; "id_fornecedor";
   "id_tempo"; "preco_unitario"; "PMP_Mediano_Dinamico"; "Desvio_%_Oportunidade";
   "Economia_por_Linha"]%string.

Definition gerar_mini_fato_radar_enriquecida (df_fato : DataFrame) : result DataFrame :=
  if negb (has_cols required_cols df_fato) then Ok empty_frame
  else
    let limpo := df_limpo df_fato in
    if df_empty limpo then Ok empty_frame
    else
      let m := merge_left contexto_benchmark limpo (df_benchmark limpo) in
      _ ← require ["PMP_Mediano_Dinamico"]%string m;
      let m1 := set_col "Economia_por_Linha"
                  (fun r => cmul (csub (get "preco_unitario" r) (get "PMP_Mediano_Dinamico" r))
                                 (get "qtd_itens_comprados" r)) m in
      let m2 := set_col "Desvio_%_Oportunidade"
                  (fun r => np_where (gt0 (get "PMP_Mediano_Dinamico" r))
                              (cdiv (csub (get "preco_unitario" r) (get "PMP_Mediano_Dinamico" r))
                                    (get "PMP_Mediano_Dinamico" r))
                              (Num 0)) m1 in
      let radar_final := select_cols radar_cols m2 in
      Ok (rename_col "PMP_Mediano_Dinamico" "PMP_Benchmark_Referencia"
            (rename_col "preco_unitario" "PMP_Pago_Linha" radar_final)).

(** *** modelagem_dim.py, function 5: [gerar_id_pedido] *)

Definition colunas_hash : list string :=
  ["cnpj_instituicao"; "compra"; "codigo_br"; "cnpj_fornecedor"; "qtd_itens_comprados";
   "preco_unitario"; "cnpj_fabricante"; "insercao"; "unidade_fornecimento_capacidade";
   "capacidade"; "unidade_medida"]%string.

Definition chave_concatenada (row : Row) : string :=
  let campo c := strip (py_str (get c row)) in
  let cnpj_raiz := raiz (campo "cnpj_instituicao") in
  let data_compra := campo "compra" in
  let codigo_br := campo "codigo_br" in
  let cnpj_fornecedor_raiz := raiz (campo "cnpj_fornecedor") in
  let qtd_itens_comprados := campo "qtd_itens_comprados" in
  let preco_unitario := campo "preco_unitario" in
  let cnpj_fabricante_raiz := raiz (campo "cnpj_fabricante") in
  let data_insercao := campo "insercao" in
  let unidade_fornecimento_capacidade := campo "unidade_fornecimento_capacidade" in
  let capacidade := campo "capacidade" in
  let unidade_medida := campo "unidade_medida" in
  join "_" [cnpj_raiz; data_compra; codigo_br; cnpj_fornecedor_raiz; qtd_itens_comprados;
            preco_unitario; cnpj_fabricante_raiz; data_insercao;
            unidade_fornecimento_capacidade; capacidade; unidade_medida].

Definition calcular_hash_pedido (row : Row) : string :=
  MD5.hexdigest (chave_concatenada row).

Definition colunas_para_dropar : list string :=
  ["unidade_fornecimento_capacidade"; "capacidade"; "unidade_medida"]%string.

(** [df.sort_values(by=ks, ascending=True).reset_index(drop=True)] for
    several keys: a stable sort, missing values last. *)
Definition sort_values (ks : list string) (df : DataFrame) : DataFrame :=
  {| columns := columns df;
     rows := sort_by (fun r s => key_leb (key_of ks r) (key_of ks s)) (rows df) |}.

(** [df[[c] + [col for col in df.columns if col != c]]]. *)
Definition leading_col (c : string) (df : DataFrame) : DataFrame :=
  {| columns := c :: filter (fun x => x ≠ c) (columns df); rows := rows df |}.

(** The frame when the hash is assigned and the residual columns are
    dropped, before the z-score. *)
Definition id_pedido_hashed (df : DataFrame) : DataFrame :=
  let df1 :=
    if has_cols colunas_hash df
    then set_col "id_pedido" (fun r => Str (calcular_hash_pedido r)) df
    else df in
  foldl (fun d c => if has_col c d then drop_col c d else d) df1 colunas_para_dropar.

(** With [compra] alone the sort has one key; pandas then sorts with
    quicksort, which fixes no order among equal dates; the stable order
    is taken here. *)
Definition gerar_id_pedido (df : DataFrame) : DataFrame :=
  if df_empty df then df
  else
    let df3 := calcular_zscore_risco (id_pedido_hashed df) in
    let df4 :=
      if has_col "compra" df3 && has_col "codigo_br" df3
      then sort_values ["compra"; "codigo_br"]%string df3
      else if has_col "compra" df3 then sort_values ["compra"]%string df3
      else df3 in
    if has_col "id_pedido" df4 then leading_col "id_pedido" df4 else df4.

(** *** dimensoes.py: [criar_e_integrar_dimensoes] *)

(** The surrogate key [f"{prefixo}{x:05d}"]. *)
Definition sk_format (prefixo : string) (x : N) : string :=
  prefixo +:+ zfill 5 (decimal x).

(** Two rows have the same values in the columns [cs]. *)
Definition same_on (cs : list string) (r s : Row) : bool :=
  key_eqb (key_of cs r) (key_of cs s).

(** Steps 1 to 3 of [_criar_dimensao]: the dimension that is exported. *)
Definition df_dim (df_base : DataFrame) (colunas_atributos : list string)
    (chave_primaria prefixo : string) : DataFrame :=
  {| columns := chave_primaria :: colunas_atributos;
     rows := imap (fun i r => <[chave_primaria := Str (sk_format prefixo (N.of_nat (S i)))]>
                                (select_row colunas_atributos r))
               (dedup_by (same_on colunas_atributos) (rows df_base)) |}.

(** [_criar_dimensao]: the exported dimension and the integrated fact.
    The merge gives the suffixes [_x] and [_y] to a key that the base has
    already; pandas refuses the merge (MergeError) when a suffixed name
    repeats a column of the base.  Such a base is outside the model: a
    statement that depends on whether the function returns is about
    tables without the suffixed names. *)
Definition _criar_dimensao (df_base : DataFrame) (colunas_atributos : list string)
    (chave_primaria prefixo : string) : result (DataFrame * DataFrame) :=
  _ ← require colunas_atributos df_base;
  let dim := df_dim df_base colunas_atributos chave_primaria prefixo in
  if bool_decide (rows dim = []) then Raise IndexError
  else
    let df_fato_integrada := merge_left colunas_atributos df_base dim in
    Ok (dim, foldl (fun d c => drop_col c d) df_fato_integrada colunas_atributos).

Definition col_inst : list string :=
  ["cnpj_instituicao"; "nome_instituicao"; "municipio_instituicao"; "uf"]%string.
Definition col_prod : list string :=
  ["codigo_br"; "descricao_catmat"; "generico"; "unidade_fornecimento"]%string.
Definition col_forn : list string := ["cnpj_fornecedor"; "fornecedor"]%string.
Definition col_fabr : list string := ["cnpj_fabricante"; "fabricante"]%string.

(** The state of the function: the dimensions exported so far, the list
    [chaves_dimensao] and the fact. *)
Record dims_state : Type := mkDims {
  exported : list (string * DataFrame);
  chaves_dimensao : list string;
  fato : DataFrame
}.

Definition add_dimensao (nome : string) (cols : list string) (chave prefixo : string)
    (st : dims_state) : result dims_state :=
  '(dim, f) ← _criar_dimensao (fato st) cols chave prefixo;
  Ok {| exported := exported st ++ [(nome, dim)];
        chaves_dimensao := chaves_dimensao st ++ [chave];
        fato := f |}.

Definition id_tempo_of (c : cell) : cell :=
  match c with
  | Date y m d => Num (inject_Z (y * 10000 + m * 100 + d))
  | _ => NaN
  end.

(** The candidate rows of the time dimension: the distinct values of
    [compra], parsed, the unparseable ones dropped. *)
Definition dim_tempo_natural (f : DataFrame) : DataFrame :=
  let d0 := {| columns := ["compra"]%string;
               rows := dedup_by (same_on ["compra"]%string)
                         (select_row ["compra"]%string <$> rows f) |} in
  let d1 := set_col "data_completa" (fun r => to_datetime (get "compra" r)) d0 in
  let d2 := {| columns := columns d1;
               rows := filter (fun r => notna (get "data_completa" r) = true) (rows d1) |} in
  let d3 := set_col "id_tempo" (fun r => id_tempo_of (get "data_completa" r)) d2 in
  let d4 := set_col "ano" (fun r => dt_year (get "data_completa" r)) d3 in
  let d5 := set_col "mes" (fun r => Num (inject_Z (period_month (get "data_completa" r)))) d4 in
  let d6 := set_col "dia"
              (fun r => match get "data_completa" r with
                        | Date _ _ d => Num (inject_Z d) | _ => NaN end) d5 in
  set_col "trimestre"
    (fun r => Num (inject_Z ((period_month (get "data_completa" r) - 1) / 3 + 1))) d6.

(** The time dimension.  The [try] block fails when [compra] is missing
    (KeyError) or when no date is valid (IndexError at [iloc[0]] of the
    empty dimension, after the merge and the renaming); its handler then
    renames [data_compra] back to [compra]. *)
Definition add_tempo (st : dims_state) : dims_state :=
  if negb (has_col "compra" (fato st))
  then {| exported := exported st;
          chaves_dimensao := chaves_dimensao st;
          fato := rename_col "data_compra" "compra" (fato st) |}
  else
    let nat_ := dim_tempo_natural (fato st) in
    let dim_tempo :=
      select_cols ["id_tempo"; "data_completa"; "ano"; "mes"; "dia"; "trimestre"]%string nat_ in
    let f1 := merge_left ["compra"]%string (fato st)
                (select_cols ["compra"; "id_tempo"]%string nat_) in
    let f2 := rename_col "compra" "data_compra" f1 in
    if bool_decide (rows dim_tempo = [])
    then {| exported := exported st;
            chaves_dimensao := chaves_dimensao st ++ ["id_tempo"]%string;
            fato := rename_col "data_compra" "compra" f2 |}
    else {| exported := exported st ++ [("tempo"%string, dim_tempo)];
            chaves_dimensao := chaves_dimensao st ++ ["id_tempo"]%string;
            fato := f2 |}.

Definition colunas_contexto : list string := ["modalidade_compra"; "tipo_compra"]%string.

(** Step 6: keys first, then the context columns, then the rest. *)
Definition ordenar_colunas (chaves : list string) (f : DataFrame) : DataFrame :=
  let chaves_finais := filter (fun c => c ∈ columns f) chaves in
  let contexto := filter (fun c => c ∈ columns f) colunas_contexto in
  select_cols
    (chaves_finais ++ contexto
     ++ filter (fun c => c ∉ chaves_finais ++ contexto ++ colunas_contexto) (columns f)) f.

(** The dimensions exported, in the order of their creation, and the fact. *)
Definition criar_e_integrar_dimensoes (df_fato : DataFrame)
    : result (list (string * DataFrame) * DataFrame) :=
  let st0 := {| exported := []; chaves_dimensao := ["id_pedido"]%string; fato := df_fato |} in
  st1 ← add_dimensao "instituicao" col_inst "id_instituicao" "Ins" st0;
  st2 ← add_dimensao "produto" col_prod "id_produto" "Pro" st1;
  st3 ← (if has_cols col_forn (fato st2)
         then add_dimensao "fornecedor" col_forn "id_fornecedor" "For" st2
         else Ok st2);
  st4 ← (if has_cols col_fabr (fato st3)
         then add_dimensao "fabricante" col_fabr "id_fabricante" "Fab" st3
         else Ok st3);
  let st5 := add_tempo st4 in
  Ok (exported st5, ordenar_colunas (chaves_dimensao st5) (fato st5)).

End Engine.

(** ** A square root to evaluate the engine with

    The root of [n/d] is that of [n*d] over [d]; taken on integers, scaled
    by [10^12], and 0 at 0. *)
Definition Qsqrt12 (x : Q) : Q :=
  let y := Qred x in
  if Qle_bool y 0 then 0
  else (Z.sqrt (Qnum y * Zpos (Qden y) * 10 ^ 24) # (Qden y * 10 ^ 12)).

(** [str] of the cells that the examples hash: a str is itself, a whole
    number prints its digits, a date prints as a Timestamp at midnight. *)
Definition str_exemplo (c : cell) : string :=
  match c with
  | Str s => s
  | Num q => decimal (Z.to_N (Qfloor q))
  | Date y m d =>
      zfill 4 (decimal (Z.to_N y)) +:+ "-" +:+ zfill 2 (decimal (Z.to_N m)) +:+ "-"
      +:+ zfill 2 (decimal (Z.to_N d)) +:+ " 00:00:00"
  | NaN => "nan"
  end.

(** A frame from its column names and the cells of its rows. *)
Definition mk_row (cs : list string) (vs : list cell) : Row := list_to_map (zip cs vs).

Definition frame (cs : list string) (vss : list (list cell)) : DataFrame :=
  {| columns := cs; rows := mk_row cs <$> vss |}.

(** The cells of a column. *)
Definition col (c : string) (df : DataFrame) : list cell := get c <$> rows df.

(** ** The z-score as the specification words it

    On the rows of the input: the weighted unit price of a row, the rows
    of its group (same [codigo_br], same year of [compra]), the mean and
    the standard deviation of the group, broadcast to the row. *)
Definition pmp_individual (r : Row) : cell :=
  if gt0 (get "qtd_itens_comprados" r)
  then cdiv (get "preco_total" r) (get "qtd_itens_comprados" r)
  else Num 0.

Definition zkey (r : Row) : list cell := [get "codigo_br" r; dt_year (get "compra" r)].

Definition zgroup (rs : list Row) (r : Row) : list Row :=
  filter (fun s => key_eqb (zkey s) (zkey r) = true) rs.

Definition zgroup_pmp (rs : list Row) (r : Row) : list Q :=
  omap (fun s => num (pmp_individual s)) (zgroup rs r).

Definition group_mean (rs : list Row) (r : Row) : cell :=
  if notna_key (zkey r) then mean (zgroup_pmp rs r) else NaN.

Definition group_std (Qsqrt : Q -> Q) (rs : list Row) (r : Row) : cell :=
  if notna_key (zkey r) then std Qsqrt (zgroup_pmp rs r) else NaN.

Definition score_z_spec (Qsqrt : Q -> Q) (rs : list Row) (r : Row) : cell :=
  cround 2
    (if gt0 (group_std Qsqrt rs r)
     then cdiv (csub (pmp_individual r) (group_mean rs r)) (group_std Qsqrt rs r)
     else Num 0).

(** The columns [calcular_zscore_risco] writes. *)
Definition zscore_written : list string :=
  ["ano_compra"; "pmp_individual"; "pmp_medio"; "pmp_desvio_padrao"; "score_z_risco"]%string.


(** The row that [calcular_zscore_risco] makes of [r], in a frame of rows [rs]. *)
Definition zscore_row (Qsqrt : Q -> Q) (rs : list Row) (r : Row) : Row :=
  let r1 := <["ano_compra" := dt_year (get "compra" r)]> r in
  let r2 := <["pmp_individual" := pmp_individual r]> r1 in
  let r3 := <["pmp_medio" := group_mean rs r]> r2 in
  let r4 := <["pmp_desvio_padrao" := group_std Qsqrt rs r]> r3 in
  let r5 := <["pmp_desvio_padrao" := fillna0 (group_std Qsqrt rs r)]> r4 in
  let r6 := <["score_z_risco" :=
               np_where (gt0 (group_std Qsqrt rs r))
                 (cdiv (csub (pmp_individual r) (group_mean rs r)) (group_std Qsqrt rs r))
                 (Num 0)]> r5 in
  <["score_z_risco" := score_z_spec Qsqrt rs r]> r6.

(** ** Frames of the examples *)

(** A consolidated table whose [ano_compra] (the year of the file) differs
    from the year of [compra]. *)
Definition fato_ano_divergente : DataFrame :=
  frame ["compra"; "codigo_br"; "preco_total"; "qtd_itens_comprados"; "ano_compra"]%string
    [[Date 2022 12 30; Str "267502"; Num 10; Num 2; Num 2023]].

(** Two purchases of one product in one year, unit prices 10 and 30. *)
Definition fato_dois_precos : DataFrame :=
  frame ["compra"; "codigo_br"; "preco_total"; "qtd_itens_comprados"]%string
    [[Date 2024 1 5; Str "123"; Num 10; Num 1];
     [Date 2024 3 7; Str "123"; Num 30; Num 1]].

(** No str parses as a date. *)
Definition parse_none (c : cell) : cell := NaN.

(** A consolidated table of source files that have no supplier columns
    ([cnpj_fornecedor], [fornecedor]). *)
Definition consolidado_sem_fornecedor : DataFrame :=
  frame ["cnpj_instituicao"; "nome_instituicao"; "municipio_instituicao"; "uf";
         "codigo_br"; "descricao_catmat"; "generico"; "unidade_fornecimento";
         "compra"; "qtd_itens_comprados"; "preco_unitario"; "preco_total"]%string
    [[Str "00394544000185"; Str "HOSPITAL A"; Str "BRASILIA"; Str "DF";
      Str "267502"; Str "DIPIRONA"; Str "SIM"; Str "COMPRIMIDO";
      Date 2023 1 5; Num 10; Num 2; Num 20];
     [Str "46374500000194"; Str "HOSPITAL B"; Str "SAO PAULO"; Str "SP";
      Str "267502"; Str "DIPIRONA"; Str "SIM"; Str "COMPRIMIDO";
      Date 2023 2 7; Num 5; Num 3; Num 15]].

(** A fact table in which no purchase date is valid. *)
Definition fato_sem_datas : DataFrame :=
  frame ["id_produto"; "data_compra"; "preco_total"]%string
    [[Str "Pro00001"; NaN; Num 20];
     [Str "Pro00002"; NaN; Num 15]].

(** A fact table without [id_produto]. *)
Definition fato_sem_produto : DataFrame :=
  frame ["data_compra"; "preco_total"]%string [[Date 2023 1 5; Num 20]].

(** One purchase line with the eleven fields of the hash. *)
Definition consolidado_uma_linha : DataFrame :=
  frame (colunas_hash ++ ["preco_total"]%string)
    [[Str "00.394.544/0001-85"; Date 2023 1 5; Str "267502"; Str " 46374500000194 ";
      Num 10; Num 2; Str "11223344000155"; Date 2023 2 1; Str "COMPRIMIDO"; Num 500;
      Str "MG"; Num 20]].

(** ** The order of [gerar_id_pedido] as the specification words it *)



(** Five purchase lines out of order; [b] and [d] share both keys, [e] has
    no date. *)
Definition consolidado_fora_de_ordem : DataFrame :=
  frame ["compra"; "codigo_br"; "preco_total"; "qtd_itens_comprados"; "linha"]%string
    [[Date 2023 3 1; Str "200"; Num 10; Num 1; Str "a"];
     [Date 2023 1 5; Str "300"; Num 12; Num 2; Str "b"];
     [Date 2023 1 5; Str "100"; Num 9; Num 3; Str "c"];
     [Date 2023 1 5; Str "300"; Num 30; Num 2; Str "d"];
     [NaN; Str "100"; Num 7; Num 1; Str "e"]].

(** ** The surrogate keys as the specification words them *)

(** The distinct elements in the order of their first occurrence: the
    list is read from its head, and an element is kept when none of those
    kept before equals it. *)
Definition first_occurrences {A} (eqb : A -> A -> bool) (l : list A) : list A :=
  foldl (fun acc x => if existsb (fun y => eqb y x) acc then acc else acc ++ [x]) [] l.

(** The number that a string of decimal digits denotes. *)
Definition read_decimal (s : string) : option N :=
  N.of_uint <$> DecimalString.NilEmpty.uint_of_string s.

(** A table of 100000 institutions, all different. *)
Definition instituicao (i : nat) : Row :=
  mk_row col_inst [Num (inject_Z (Z.of_nat i)); Str "HOSPITAL"; Str "BRASILIA"; Str "DF"].

Definition cem_mil_instituicoes : DataFrame :=
  {| columns := col_inst; rows := instituicao <$> seq 0 (N.to_nat 100000) |}.

(** The scenario of the specification: lines 1 and 3 of one institution,
    line 2 of another. *)
Definition fato_tres_linhas : DataFrame :=
  frame (col_inst ++ ["preco_total"]%string)
    [[Str "00394544000185"; Str "HOSPITAL A"; Str "BRASILIA"; Str "DF"; Num 20];
     [Str "46374500000194"; Str "HOSPITAL B"; Str "SAO PAULO"; Str "SP"; Num 15];
     [Str "00394544000185"; Str "HOSPITAL A"; Str "BRASILIA"; Str "DF"; Num 7]].

(** [p] holds of the [fuel] numbers from [n] on. *)
Fixpoint all_from (p : N -> bool) (n : N) (fuel : nat) : bool :=
  match fuel with
  | O => true
  | S fuel' => p n && all_from p (N.succ n) fuel'
  end.

(** ** Lists without equal elements *)

(** No two elements of [l] are equal for [eqb]. *)
Fixpoint distinct_by {A} (eqb : A -> A -> bool) (l : list A) : Prop :=
  match l with
  | [] => True
  | x :: l' => (∀ y, y ∈ l' → eqb x y = false) ∧ distinct_by eqb l'
  end.

(** The rows of a frame have different keys. *)
Definition distinct_keys (ks : list string) (rs : list Row) : Prop :=
  distinct_by (fun s t => same_on ks s t) rs.

(** The right row that [merge] joins to the left row [r], when the keys of
    the right frame are all different. *)
Definition lookup_row (ks : list string) (r : Row) (right : list Row) : option Row :=
  head (filter (fun s => key_eqb (key_of ks r) (key_of ks s) = true) right).

(** [P] holds of what [m] returns, and [m] does not raise. *)
Definition on_ok {A} (m : result A) (P : A -> Prop) : Prop :=
  match m with
  | Ok a => P a
  | Raise _ => False
  end.

(** ** The radar as the specification words it *)

(** Two lines of one product, one institution and one time period. *)
Definition mesmo_contexto (s t : Row) : bool :=
  cell_eqb (get "id_produto" s) (get "id_produto" t)
  && cell_eqb (get "id_instituicao" s) (get "id_instituicao" t)
  && cell_eqb (get "id_tempo" s) (get "id_tempo" t).

(** The benchmark of a line: the median unit price of the valid lines of
    its (product, institution, time period) group; a line with a missing
    key is in no group and has no benchmark. *)
Definition benchmark (rs : list Row) (s : Row) : cell :=
  if notna (get "id_produto" s) && notna (get "id_instituicao" s) && notna (get "id_tempo" s)
  then median (nums "preco_unitario"
                 (filter (fun t => linha_valida t = true ∧ mesmo_contexto t s = true) rs))
  else NaN.

(** The last steps of the radar on a merged row. *)
Definition radar_of (y0 : Row) : Row :=
  let y1 := <["Economia_por_Linha" :=
               cmul (csub (get "preco_unitario" y0) (get "PMP_Mediano_Dinamico" y0))
                    (get "qtd_itens_comprados" y0)]> y0 in
  let y2 := <["Desvio_%_Oportunidade" :=
               np_where (gt0 (get "PMP_Mediano_Dinamico" y1))
                 (cdiv (csub (get "preco_unitario" y1) (get "PMP_Mediano_Dinamico" y1))
                       (get "PMP_Mediano_Dinamico" y1)) (Num 0)]> y1 in
  rename_in_row "PMP_Mediano_Dinamico" "PMP_Benchmark_Referencia"
    (rename_in_row "preco_unitario" "PMP_Pago_Linha" (select_row radar_cols y2)).

(** A fact table of four lines: two valid lines of one group, a free
    line, and a valid line without time key. *)
Definition fato_radar : DataFrame :=
  frame ["id_pedido"; "id_produto"; "id_instituicao"; "id_tempo"; "id_fornecedor";
         "id_fabricante"; "preco_unitario"; "preco_total"; "qtd_itens_comprados"]%string
    [[Str "a"; Str "Pro00001"; Str "Ins00001"; Num 20230105; Str "For00001"; Str "Fab00001";
      Num 10; Num 20; Num 2];
     [Str "b"; Str "Pro00001"; Str "Ins00001"; Num 20230105; Str "For00002"; Str "Fab00001";
      Num 30; Num 30; Num 1];
     [Str "c"; Str "Pro00001"; Str "Ins00001"; Num 20230105; Str "For00002"; Str "Fab00001";
      Num 0; Num 0; Num 5];
     [Str "d"; Str "Pro00001"; Str "Ins00001"; NaN; Str "For00002"; Str "Fab00001";
      Num 8; Num 16; Num 2]].

(** ** The prioritization as the specification words it *)

(** A cell of a numeric column: a number or a missing value. *)
Definition numeric (c : cell) : Prop :=
  match c with Num _ | NaN => True | _ => False end.

(** A number between 0 and 1. *)
Definition unit_interval (c : cell) : Prop :=
  match c with Num q => 0 <= q <= 1 | _ => False end.

(** Min-max scaling of [x] between [vmin] and [vmax], 0 when the range is
    not strictly positive. *)
Definition min_max_spec (vmax vmin x : cell) : cell :=
  if gt0 (csub vmax vmin) then cdiv (csub x vmin) (csub vmax vmin) else Num 0.

(** A fact table of three products; the first has two lines. *)
Definition fato_prioridade : DataFrame :=
  frame ["id_produto"; "preco_total"; "score_z_risco"]%string
    [[Str "Pro00001"; Num 100; Num (-71 # 100)];
     [Str "Pro00002"; Num 400; Num 2];
     [Str "Pro00001"; Num 100; Num (71 # 100)];
     [Str "Pro00003"; Num 50; Num 0]].

(** The row of [prior_normalizado] for the row [a] of the aggregation [A]. *)
Definition norm_row (A : DataFrame) (a : Row) : Row :=
  <["demanda_normalizada" :=
     min_max_spec (col_max (col "demanda_valor" A)) (col_min (col "demanda_valor" A))
       (get "demanda_valor" a)]>
    (<["risco_normalizado" :=
        min_max_spec (col_max (col "risco_medio" A)) (col_min (col "risco_medio" A))
          (get "risco_medio" a)]> a).

(** The index of a row of [prior_normalizado]. *)
Definition indice_spec (round4 : Q -> Q) (p : Row) : cell :=
  cround_by round4 (cadd (cmul (get "risco_normalizado" p) (Num (1#2)))
                         (cmul (get "demanda_normalizada" p) (Num (1#2)))).

(** The row of [df_prioridade] for the row [p] of [prior_normalizado]. *)
Definition prior_row (round4 : Q -> Q) (p : Row) : Row :=
  select_row ["id_produto"; "indice_priorizacao"; "demanda_valor"]%string
    (<["indice_priorizacao" := indice_spec round4 p]> p).

(** ** The supplier concentration as the specification words it *)

Definition mesmo_produto (s t : Row) : bool :=
  cell_eqb (get "id_produto" s) (get "id_produto" t).

Definition mesmo_fornecedor (s t : Row) : bool :=
  cell_eqb (get "id_fornecedor" s) (get "id_fornecedor" t).

(** The total spend of the product of the line [r]. *)
Definition total_produto (rs : list Row) (r : Row) : Q :=
  Qsum (nums "preco_total" (filter (fun t => mesmo_produto t r = true) rs)).

(** The spend of the product of the line [s] with the supplier of [s]. *)
Definition gasto_fornecedor (rs : list Row) (s : Row) : Q :=
  Qsum (nums "preco_total"
          (filter (fun t => mesmo_produto t s = true ∧ mesmo_fornecedor t s = true) rs)).

(** The ratio of the specification. *)
Definition concentracao_spec (top total : Q) : cell :=
  if Qltb 0 total then Num (top / total) else Num 0.

(** The products of the examples: P1 with suppliers A (700) and B (300),
    P2 with one supplier and no spend, P3 with a negative line, P4 with
    one supplier, P5 with no supplier. *)
Definition fato_fornecedores : DataFrame :=
  frame ["id_produto"; "id_fornecedor"; "preco_total"]%string
    [[Str "P1"; Str "B"; Num 300];
     [Str "P1"; Str "A"; Num 400];
     [Str "P1"; Str "A"; Num 300];
     [Str "P2"; Str "A"; Num 0];
     [Str "P3"; Str "A"; Num 700];
     [Str "P3"; Str "B"; Num (-300)];
     [Str "P4"; Str "C"; Num 25];
     [Str "P4"; Str "C"; Num 50];
     [Str "P5"; NaN; Num 10]].

(** The row of [fornecedor_principal], reduced to its two columns, for the
    row [m] of [gasto_por_fornecedor]. *)
Definition principal_row (m : Row) : Row :=
  select_row ["id_produto"; "Gasto_Forn_Principal"]%string
    (rename_in_row gasto_col "Gasto_Forn_Principal" m).

(** The row of [df_concentracao] for the row [t] of [gasto_total_produto]. *)
Definition concentracao_row (principais : list Row) (t : Row) : Row :=
  let t' := merge_row ["id_produto"]%string [] ["id_produto"; "Gasto_Forn_Principal"]%string t
              (lookup_row ["id_produto"]%string t principais) in
  <["%_Gasto_Unico_Forn" :=
     np_where (gt0 (get "Gasto_Total_Produto_Global" t'))
       (cdiv (get "Gasto_Forn_Principal" t') (get "Gasto_Total_Produto_Global" t'))
       (Num 0)]> t'.

(** The row of the last merge for the row [t] of [gasto_total_produto]. *)
Definition produto_row (principais : list Row) (t : Row) : Row :=
  select_row ["id_produto"; "%_Gasto_Unico_Forn"]%string (concentracao_row principais t).

(** The columns that [calcular_concentracao_fornecedor] reads. *)
Definition concentracao_cols : list string :=
  ["id_produto"; "preco_total"; "id_fornecedor"]%string.

(** ** The intermittency as the specification words it *)

(** The purchase date of a line as the function reads it: the column as
    it is when it holds dates already, its conversion otherwise. *)
Definition data_lida (parse_date : cell -> cell) (df : DataFrame) (r : Row) : cell :=
  if forallb (fun r => is_datetime (get "data_compra" r)) (rows df)
  then get "data_compra" r
  else to_datetime parse_date (get "data_compra" r).

(** The year-month bucket of a line. *)
Definition mes_da_linha (parse_date : cell -> cell) (df : DataFrame) (r : Row) : cell :=
  to_period_M (data_lida parse_date df r).

(** The buckets of the lines of the product of [r], and of all lines. *)
Definition meses_do_produto (parse_date : cell -> cell) (df : DataFrame) (r : Row)
    : list cell :=
  mes_da_linha parse_date df <$> filter (fun t => mesmo_produto t r = true) (rows df).

Definition meses_da_tabela (parse_date : cell -> cell) (df : DataFrame) : list cell :=
  mes_da_linha parse_date df <$> rows df.

(** The months of the window, from the first bucket of the table to the
    last. *)
Definition janela (parse_date : cell -> cell) (df : DataFrame) : Z :=
  periodo_total_meses (col_min (meses_da_tabela parse_date df))
                      (col_max (meses_da_tabela parse_date df)).

(** The risk of a product bought in [n] months of a window of [W]. *)
Definition risco_spec (n : nat) (W : Z) : cell :=
  if (0 <? W)%Z then Num (1 - inject_Z (Z.of_nat n) / inject_Z W) else Num 0.

(** A date of the calendar: its month is between 1 and 12. *)
Definition mes_valido (c : cell) : Prop :=
  match c with Date _ m _ => (1 ≤ m ≤ 12)%Z | _ => True end.

(** The line [r] with its bucket, as the function holds it before the
    merge. *)
Definition linha_com_mes (parse_date : cell -> cell) (df : DataFrame) (r : Row) : Row :=
  let r1 := if forallb (fun r => is_datetime (get "data_compra" r)) (rows df) then r
            else <["data_compra" := to_datetime parse_date (get "data_compra" r)]> r in
  <["mes_compra" := to_period_M (get "data_compra" r1)]> r1.

(** Two products over the three months of a window: P1 bought in two of
    them, P2 in all three; P3 has no date. *)
Definition fato_meses : DataFrame :=
  frame ["id_produto"; "data_compra"; "preco_total"]%string
    [[Str "P1"; Date 2023 1 5; Num 20];
     [Str "P2"; Date 2023 2 1; Num 15];
     [Str "P1"; Date 2023 1 20; Num 5];
     [Str "P2"; Date 2023 3 2; Num 15];
     [Str "P1"; Date 2023 3 10; Num 7];
     [Str "P2"; Date 2023 1 9; Num 15];
     [Str "P3"; NaN; Num 1]].

(** The number of a month on the line of months. *)
Definition mes_idx (c : cell) : Z := (period_year c * 12 + period_month c)%Z.

(** A bucket of the calendar: the first day of a month between 1 and 12. *)
Definition bucket (c : cell) : Prop :=
  match c with Date _ m d => (1 ≤ m ≤ 12)%Z ∧ d = 1%Z | _ => False end.

(** ** The rows the functions build, one at a time *)

(** The row of [dim_tempo_natural] for the distinct value [r] of [compra]. *)
Definition tempo_row (parse_date : cell -> cell) (r : Row) : Row :=
  let r1 := <["data_completa" := to_datetime parse_date (get "compra" r)]> r in
  let r3 := <["id_tempo" := id_tempo_of (get "data_completa" r1)]> r1 in
  let r4 := <["ano" := dt_year (get "data_completa" r3)]> r3 in
  let r5 := <["mes" := Num (inject_Z (period_month (get "data_completa" r4)))]> r4 in
  let r6 := <["dia" := match get "data_completa" r5 with
                       | Date _ _ d => Num (inject_Z d) | _ => NaN end]> r5 in
  <["trimestre" := Num (inject_Z ((period_month (get "data_completa" r6) - 1) / 3 + 1))]> r6.

(** The distinct values of [compra] that are dates. *)
Definition datas_distintas (parse_date : cell -> cell) (f : DataFrame) : list Row :=
  filter (fun r => notna (to_datetime parse_date (get "compra" r)) = true)
    (dedup_by (same_on ["compra"]%string) (select_row ["compra"]%string <$> rows f)).

(** A frame whose rows hold a value under every column and under nothing
    else, as every DataFrame does. *)
Definition bem_formada (df : DataFrame) : Prop :=
  ∀ r, r ∈ rows df → ∀ c, is_Some (r !! c) ↔ c ∈ columns df.

(** The columns after [df.rename(columns={c: c'})]. *)
Definition renomear (c c' : string) (x : string) : string :=
  if String.eqb x c then c' else x.

(** Four lines, two of one date, one without a date. *)
Definition fato_datas : DataFrame :=
  frame ["id_pedido"; "compra"; "preco_total"]%string
    [[Str "a"; Date 2023 1 5; Num 20];
     [Str "b"; Date 2024 11 30; Num 15];
     [Str "c"; Date 2023 1 5; Num 7];
     [Str "d"; NaN; Num 1]].

Definition estado_datas : dims_state :=
  {| exported := []; chaves_dimensao := ["id_pedido"]%string; fato := fato_datas |}.

(** The columns that the radar reads. *)
Definition radar_layout : list string :=
  ["id_pedido"; "id_produto"; "id_instituicao"; "id_tempo"; "id_fornecedor";
   "id_fabricante"; "preco_unitario"; "preco_total"; "qtd_itens_comprados"]%string.

Definition linha_um_preco_a : Row :=
  mk_row radar_layout
    [Str "a"; Str "Pro00001"; Str "Ins00001"; Num 20230105; Str "For00001"; Str "Fab00001";
     Num (20 # 2); Num 20; Num 2].

Definition linha_um_preco_b : Row :=
  mk_row radar_layout
    [Str "b"; Str "Pro00001"; Str "Ins00001"; Num 20230105; Str "For00002"; Str "Fab00001";
     Num 10; Num 30; Num 3].

Definition linha_um_preco_c : Row :=
  mk_row radar_layout
    [Str "c"; Str "Pro00001"; Str "Ins00002"; Num 20230105; Str "For00002"; Str "Fab00001";
     Num 7; Num 7; Num 1].

(** A fact table of three lines: a group of two valid lines that paid
    the same unit price (written as two fractions), and a line of another
    institution. *)
Definition fato_um_preco : DataFrame :=
  {| columns := radar_layout;
     rows := [linha_um_preco_a; linha_um_preco_b; linha_um_preco_c] |}.

(** The columns of the radar, under their final names. *)
Definition radar_out_cols : list string :=
  ["id_pedido"; "id_produto"; "id_instituicao"; "id_fabricante"; "id_fornecedor";
   "id_tempo"; "PMP_Pago_Linha"; "PMP_Benchmark_Referencia"; "Desvio_%_Oportunidade";
   "Economia_por_Linha"]%string.

(** ** The pipeline of main.py *)

Section Main.
Variable Qsqrt : Q -> Q.
Variable parse_date : cell -> cell.
Variable py_str : cell -> string.
Variable round4 : Q -> Q.

(** main.py, [main], from the consolidated table [df_final] (line 111)
    to the export of the fact table (line 171): the files written under
    data/outputs, in the order of their writing.  The report that follows
    writes no file. *)
Definition main (df_final : DataFrame) : result (list (string * DataFrame)) :=
  let df_final := gerar_id_pedido Qsqrt py_str df_final in
  '(dims, df_fato) ← criar_e_integrar_dimensoes parse_date df_final;
  let df_fato := calcular_zscore_risco Qsqrt df_fato in
  df_fato ← calcular_indice_priorizacao round4 df_fato;
  df_fato ← calcular_risco_intermitencia parse_date df_fato;
  df_fato ← calcular_concentracao_fornecedor df_fato;
  df_radar ← gerar_mini_fato_radar_enriquecida df_fato;
  Ok ([("compras_consolidado_final.csv"%string, df_final)]
      ++ ((fun d : string * DataFrame => ("dim_" +:+ d.1 +:+ ".csv", d.2)) <$> dims)
      ++ (if df_empty df_radar then []
          else [("mini_fato_radar_oportunidades.csv"%string, df_radar)])
      ++ [("fato_compras_medicamentos.csv"%string, df_fato)]).

End Main.

(** The columns that [main] needs in the consolidated table for every
    step to run. *)
Definition colunas_entrada : list string :=
  colunas_hash ++ col_inst ++ col_prod ++ col_forn ++ col_fabr ++ ["preco_total"]%string.

(** The columns that [main] creates along the way by a merge or a
    renaming. *)
Definition colunas_novas : list string :=
  ["id_instituicao"; "id_produto"; "id_fornecedor"; "id_fabricante"; "id_tempo";
   "data_compra"; "indice_priorizacao"; "demanda_valor"; "Risco_Intermitencia";
   "Meses_Comprados_Historico"; "%_Gasto_Unico_Forn"; "PMP_Mediano_Dinamico"]%string.

(** The columns of the consolidated table that the fact table has lost. *)
Definition colunas_retiradas : list string :=
  colunas_para_dropar ++ col_inst ++ col_prod ++ col_forn ++ col_fabr
  ++ ["compra"; "mes_compra"]%string.

(** The columns of the fact table that [main] has written. *)
Definition colunas_escritas : list string :=
  ["id_pedido"; "ano_compra"; "pmp_individual"; "pmp_medio"; "pmp_desvio_padrao";
   "score_z_risco"; "id_instituicao"; "id_produto"; "id_fornecedor"; "id_fabricante";
   "data_compra"; "id_tempo"; "indice_priorizacao"; "demanda_valor"; "Risco_Intermitencia";
   "Meses_Comprados_Historico"; "%_Gasto_Unico_Forn"]%string.

(** [Y] has the columns of [X] without those of [R], and those of [A]. *)
Definition passo (R A : list string) (X Y : DataFrame) : Prop :=
  ∀ c, c ∈ columns Y ↔ (c ∈ columns X ∧ c ∉ R) ∨ c ∈ A.

(** A line of [X] holds a date in column [c]. *)
Definition tem_data (c : string) (X : DataFrame) : Prop :=
  ∃ r y m d, r ∈ rows X ∧ r !! c = Some (Date y m d).

(** The layout of a consolidated table of the old format: the 23 columns
    that [_reordenar_colunas] of etl_compras_antigos.py puts first, then
    unidade_fornecimento. *)
Definition layout_consolidado : list string :=
  ["ano_compra"; "nome_instituicao"; "cnpj_instituicao"; "municipio_instituicao"; "uf";
   "compra"; "insercao"; "codigo_br"; "descricao_catmat";
   "unidade_fornecimento_capacidade"; "generico"; "anvisa"; "modalidade_compra";
   "tipo_compra"; "capacidade"; "unidade_medida"; "cnpj_fornecedor"; "fornecedor";
   "cnpj_fabricante"; "fabricante"; "qtd_itens_comprados"; "preco_unitario";
   "preco_total"; "unidade_fornecimento"]%string.

(** Three purchases of two hospitals, out of date order: two of one
    product in one month, one of another product; the last one has no
    date. *)
Definition consolidado_completo : DataFrame :=
  frame layout_consolidado
    [[Num 2023; Str "HOSPITAL B"; Str "46374500000194"; Str "SAO PAULO"; Str "SP";
      Date 2023 2 7; Date 2023 3 1; Str "267502"; Str "DIPIRONA"; Str "COMPRIMIDO 500 MG";
      Str "SIM"; Str "1"; Str "PREGAO"; Str "ADMINISTRATIVA"; Num 500; Str "MG";
      Str "11111111000111"; Str "FORNECEDOR A"; Str "22222222000122"; Str "FABRICANTE A";
      Num 5; Num 3; Num 15; Str "COMPRIMIDO"];
     [Num 2023; Str "HOSPITAL A"; Str "00394544000185"; Str "BRASILIA"; Str "DF";
      Date 2023 1 5; Date 2023 2 1; Str "267502"; Str "DIPIRONA"; Str "COMPRIMIDO 500 MG";
      Str "SIM"; Str "1"; Str "PREGAO"; Str "ADMINISTRATIVA"; Num 500; Str "MG";
      Str "11111111000111"; Str "FORNECEDOR A"; Str "22222222000122"; Str "FABRICANTE A";
      Num 10; Num 2; Num 20; Str "COMPRIMIDO"];
     [Num 2023; Str "HOSPITAL A"; Str "00394544000185"; Str "BRASILIA"; Str "DF";
      NaN; Date 2023 2 1; Str "300100"; Str "PARACETAMOL"; Str "FRASCO 100 ML";
      Str "NAO"; Str "1"; Str "DISPENSA"; Str "JUDICIAL"; Num 100; Str "ML";
      Str "33333333000133"; Str "FORNECEDOR B"; Str "22222222000122"; Str "FABRICANTE A";
      Num 1; Num 8; Num 8; Str "FRASCO"]].

(** A state whose fact has no valid purchase date. *)
Definition estado_sem_datas : dims_state :=
  {| exported := []; chaves_dimensao := ["id_pedido"]%string;
     fato := frame ["id_pedido"; "compra"; "preco_total"]%string
               [[Str "a"; NaN; Num 20]; [Str "b"; Str "sem data"; Num 15]] |}.

(** No line of [X] holds a value in column [c]. *)
Definition sem_data (c : string) (X : DataFrame) : Prop :=
  ∀ r, r ∈ rows X → get c r = NaN.

(** The consolidated table of three purchases, none of them dated. *)
Definition consolidado_sem_datas : DataFrame :=
  frame layout_consolidado
    [[Num 2023; Str "HOSPITAL B"; Str "46374500000194"; Str "SAO PAULO"; Str "SP";
      NaN; Date 2023 3 1; Str "267502"; Str "DIPIRONA"; Str "COMPRIMIDO 500 MG";
      Str "SIM"; Str "1"; Str "PREGAO"; Str "ADMINISTRATIVA"; Num 500; Str "MG";
      Str "11111111000111"; Str "FORNECEDOR A"; Str "22222222000122"; Str "FABRICANTE A";
      Num 5; Num 3; Num 15; Str "COMPRIMIDO"];
     [Num 2023; Str "HOSPITAL A"; Str "00394544000185"; Str "BRASILIA"; Str "DF";
      NaN; Date 2023 2 1; Str "267502"; Str "DIPIRONA"; Str "COMPRIMIDO 500 MG";
      Str "SIM"; Str "1"; Str "PREGAO"; Str "ADMINISTRATIVA"; Num 500; Str "MG";
      Str "11111111000111"; Str "FORNECEDOR A"; Str "22222222000122"; Str "FABRICANTE A";
      Num 10; Num 2; Num 20; Str "COMPRIMIDO"];
     [Num 2023; Str "HOSPITAL A"; Str "00394544000185"; Str "BRASILIA"; Str "DF";
      NaN; Date 2023 2 1; Str "300100"; Str "PARACETAMOL"; Str "FRASCO 100 ML";
      Str "NAO"; Str "1"; Str "DISPENSA"; Str "JUDICIAL"; Num 100; Str "ML";
      Str "33333333000133"; Str "FORNECEDOR B"; Str "22222222000122"; Str "FABRICANTE A";
      Num 1; Num 8; Num 8; Str "FRASCO"]].

(** The columns of the fact table that [main] writes when no purchase is
    dated. *)
Definition colunas_escritas_sem_datas : list string :=
  ["id_pedido"; "ano_compra"; "pmp_individual"; "pmp_medio"; "pmp_desvio_padrao";
   "score_z_risco"; "id_instituicao"; "id_produto"; "id_fornecedor"; "id_fabricante";
   "id_tempo"; "indice_priorizacao"; "demanda_valor"; "%_Gasto_Unico_Forn"]%string.

(** ** The prioritization over the lines of the table *)









(** A fact table with a line that has no product. *)
Definition fato_produto_ausente : DataFrame :=
  frame ["id_produto"; "preco_total"; "score_z_risco"]%string
    [[Str "Pro00001"; Num 100; Num 1];
     [NaN; Num 900; Num 3];
     [Str "Pro00002"; Num 300; Num 0]].

(** * Properties *)

(** ** Rows and cells *)
Lemma get_insert_eq c v (r : Row) : get c (<[c := v]> r) = v.
Proof. unfold get. by rewrite lookup_insert_eq. Qed.

Lemma get_insert_ne c c' v (r : Row) : c ≠ c' → get c' (<[c := v]> r) = get c' r.
Proof. intros. unfold get. by rewrite lookup_insert_ne. Qed.

(** Membership of a given name in a given list, by evaluation. *)
Ltac elem_by_eval :=
  match goal with |- ?P => apply (bool_decide_unpack P); vm_compute; exact I end.

Ltac get_simpl :=
  repeat (rewrite get_insert_eq || rewrite get_insert_ne by (intros ?; discriminate)).

Lemma cell_eqb_refl a : cell_eqb a a = true.
Proof.
  destruct a; simpl; auto using Qeq_bool_refl, String.eqb_refl.
  rewrite !Z.eqb_refl. done.
Qed.

Lemma cell_eqb_sym a b : cell_eqb a b = cell_eqb b a.
Proof.
  destruct a, b; simpl; auto using Qeq_bool_comm, String.eqb_sym.
  by rewrite (Z.eqb_sym y), (Z.eqb_sym m), (Z.eqb_sym d).
Qed.

Lemma cell_eqb_trans a b c :
  cell_eqb a b = true → cell_eqb b c = true → cell_eqb a c = true.
Proof.
  destruct a, b, c; simpl; try done.
  - apply Qeq_bool_trans.
  - rewrite !String.eqb_eq. congruence.
  - rewrite !andb_true_iff, !Z.eqb_eq. intros [[-> ->] ->] [[-> ->] ->]. done.
Qed.

Lemma key_eqb_refl k : key_eqb k k = true.
Proof. induction k; simpl; [done|]. by rewrite cell_eqb_refl. Qed.

Lemma key_eqb_sym k1 k2 : key_eqb k1 k2 = key_eqb k2 k1.
Proof.
  revert k2. induction k1 as [|a k1 IH]; intros [|b k2]; simpl; try done.
  by rewrite cell_eqb_sym, IH.
Qed.

Lemma key_eqb_trans k1 k2 k3 :
  key_eqb k1 k2 = true → key_eqb k2 k3 = true → key_eqb k1 k3 = true.
Proof.
  revert k2 k3. induction k1 as [|a k1 IH]; intros [|b k2] [|c k3]; simpl; try done.
  rewrite !andb_true_iff. intros [??] [??]. split; [by eapply cell_eqb_trans | by eapply IH].
Qed.

(** Keys that are equal select the same group. *)
Lemma key_eqb_compat k1 k2 k :
  key_eqb k1 k2 = true → key_eqb k k1 = key_eqb k k2.
Proof.
  intros H. destruct (key_eqb k k1) eqn:E1, (key_eqb k k2) eqn:E2; try done.
  - rewrite <- E2. symmetry. by eapply key_eqb_trans.
  - rewrite <- E1. eapply key_eqb_trans; [done|]. by rewrite key_eqb_sym.
Qed.

Lemma filter_fmap {A B} (f : A → B) (P : B → Prop) `{!∀ x, Decision (P x)} (l : list A) :
  filter P (f <$> l) = f <$> filter (P ∘ f) l.
Proof.
  induction l as [|x l IH]; [done|]. rewrite fmap_cons, !filter_cons. simpl.
  destruct (decide (P (f x))); rewrite IH; done.
Qed.

Lemma omap_fmap' {A B C} (f : A → B) (g : B → option C) (l : list A) :
  omap g (f <$> l) = omap (g ∘ f) l.
Proof. induction l as [|x l IH]; [done|]. rewrite fmap_cons. simpl. destruct (g (f x)); [f_equal|]; exact IH. Qed.

Lemma omap_ext_fun {A B} (f g : A → option B) (l : list A) :
  (∀ x, f x = g x) → omap f l = omap g l.
Proof.
  intros H. induction l as [|x l IH]; [done|]. simpl. rewrite H.
  destruct (g x); [f_equal|]; exact IH.
Qed.


Lemma set_col_rows c f df : rows (set_col c f df) = (fun r => <[c := f r]> r) <$> rows df.
Proof. done. Qed.

Lemma gt0_fillna0 c : gt0 (fillna0 c) = gt0 c.
Proof. by destruct c. Qed.

Lemma gt0_fillna0_id c : gt0 c = true → fillna0 c = c.
Proof. by destruct c. Qed.

Section ZScore.
Variable Qsqrt : Q → Q.

Lemma transform_zgroup agg (f : Row → Row) rs r :
  (∀ s, key_of colunas_agrupamento (f s) = zkey s) →
  (∀ s, get "pmp_individual" (f s) = pmp_individual s) →
  transform colunas_agrupamento "pmp_individual" agg (f <$> rs) (f r)
  = if notna_key (zkey r) then agg (zgroup_pmp rs r) else NaN.
Proof.
  intros Hk Hv. unfold transform. rewrite Hk.
  destruct (notna_key (zkey r)); [|done]. f_equal.
  unfold nums, group, zgroup_pmp, zgroup. rewrite filter_fmap, omap_fmap'.
  rewrite (list_filter_iff _ (fun s => key_eqb (zkey s) (zkey r) = true))
    by (intros s; unfold compose; rewrite Hk; done).
  apply omap_ext_fun. intros s. unfold compose. by rewrite Hv.
Qed.

Lemma zscore_rows df :
  has_cols zscore_cols df = true →
  rows (calcular_zscore_risco Qsqrt df) = zscore_row Qsqrt (rows df) <$> rows df.
Proof.
  intros Hc. unfold calcular_zscore_risco. rewrite Hc. cbv zeta. simpl negb. cbv iota.
  set (df1 := set_col "ano_compra" _ df).
  set (df2 := set_col "pmp_individual" _ df1).
  set (g2 := fun r : Row => <["pmp_individual" := pmp_individual r]>
                              (<["ano_compra" := dt_year (get "compra" r)]> r)).
  assert (R2 : rows df2 = g2 <$> rows df).
  { unfold df2, df1. rewrite !set_col_rows, <- list_fmap_compose.
    apply list_fmap_ext. intros i r _. simpl. unfold g2, pmp_individual, np_where. by get_simpl. }
  assert (Hk2 : ∀ s, key_of colunas_agrupamento (g2 s) = zkey s).
  { intros s. unfold g2, key_of, colunas_agrupamento, zkey. simpl. by get_simpl. }
  assert (Hv2 : ∀ s, get "pmp_individual" (g2 s) = pmp_individual s).
  { intros s. unfold g2. by get_simpl. }
  set (df3 := set_col "pmp_medio" _ df2).
  set (g3 := fun r : Row => <["pmp_medio" := group_mean (rows df) r]> (g2 r)).
  assert (R3 : rows df3 = g3 <$> rows df).
  { unfold df3. rewrite set_col_rows, R2, <- list_fmap_compose.
    apply list_fmap_ext. intros i r _. simpl. unfold g3.
    by rewrite (transform_zgroup mean g2). }
  assert (Hk3 : ∀ s, key_of colunas_agrupamento (g3 s) = zkey s).
  { intros s. unfold g3. rewrite <- Hk2. unfold key_of, colunas_agrupamento. simpl. by get_simpl. }
  assert (Hv3 : ∀ s, get "pmp_individual" (g3 s) = pmp_individual s).
  { intros s. unfold g3. rewrite <- Hv2. by get_simpl. }
  set (df4 := set_col "pmp_desvio_padrao" _ df3).
  rewrite !set_col_rows. unfold df4. rewrite set_col_rows, R3, <- !list_fmap_compose.
  apply list_fmap_ext. intros i r _. simpl.
  rewrite (transform_zgroup (std Qsqrt) g3) by done.
  fold (group_std Qsqrt (rows df) r).
  unfold zscore_row. fold (g2 r). fold (g3 r).
  get_simpl. rewrite gt0_fillna0, Hv3.
  assert (Hm : get "pmp_medio" (g3 r) = group_mean (rows df) r) by (unfold g3; by get_simpl).
  rewrite Hm. unfold score_z_spec, np_where.
  destruct (gt0 (group_std Qsqrt (rows df) r)) eqn:E; [rewrite gt0_fillna0_id by done|]; done.
Qed.
End ZScore.

(** ** Numbers *)
Lemma Qltb_lt x y : Qltb x y = true ↔ x < y.
Proof.
  unfold Qltb. rewrite negb_true_iff. split.
  - intros H. apply Qnot_le_lt. intros Hle. apply Qle_bool_iff in Hle. congruence.
  - intros H. destruct (Qle_bool y x) eqn:E; [|done].
    apply Qle_bool_iff in E. exfalso. by apply (Qlt_not_le x y).
Qed.








Section ZScoreThm.
Variable Qsqrt : Q → Q.
Hypothesis Qsqrt_0 : ∀ x, x == 0 → Qsqrt x == 0.




End ZScoreThm.



(** The scenario of the specification: z-scores -0.71 and 0.71. *)
Example zscore_dois_precos :
  col "score_z_risco" (calcular_zscore_risco Qsqrt12 fato_dois_precos)
  = [Num (-71 # 100); Num (71 # 100)].
Proof. vm_compute. reflexivity. Qed.

(** ** The frame of [calcular_zscore_risco] *)

Lemma set_col_columns_elem c c' f df :
  c' ∈ columns (set_col c f df) ↔ c' ∈ columns df ∨ c' = c.
Proof.
  unfold set_col, has_col. simpl. case_bool_decide.
  - split; [by left|]. intros [?| ->]; done.
  - rewrite elem_of_app, list_elem_of_singleton. done.
Qed.

Lemma set_col_columns_prefix c f df : columns df `prefix_of` columns (set_col c f df).
Proof.
  unfold set_col, has_col. simpl. case_bool_decide; [done|]. by apply prefix_app_r.
Qed.

Lemma zscore_row_frame Qsqrt rs r c :
  c ∉ zscore_written → zscore_row Qsqrt rs r !! c = r !! c.
Proof.
  intros Hc. unfold zscore_row, zscore_written in *.
  rewrite !lookup_insert_ne; [done|..]; intros <-; apply Hc; elem_by_eval.
Qed.

(** C10, amended.  When its four columns are present,
    [calcular_zscore_risco] returns a table that has the four auxiliary
    columns ano_compra, pmp_individual, pmp_medio and pmp_desvio_padrao
    (and score_z_risco); it removes no column and moves none (the columns
    of the input are a prefix of those of the output), keeps the rows in
    place, and leaves unchanged the value of every column other than the
    five it writes. *)
Theorem zscore_frame Qsqrt df :
  has_cols zscore_cols df = true →
  let out := calcular_zscore_risco Qsqrt df in
  (∀ c, c ∈ zscore_written → c ∈ columns out) ∧
  columns df `prefix_of` columns out ∧
  (∀ c, c ∈ columns out → c ∈ columns df ∨ c ∈ zscore_written) ∧
  length (rows out) = length (rows df) ∧
  ∀ i r, rows df !! i = Some r →
    ∃ r', rows out !! i = Some r' ∧ ∀ c, c ∉ zscore_written → r' !! c = r !! c.
Proof.
  intros Hc out.
  assert (Hcols : ∀ c, c ∈ columns out ↔ c ∈ columns df ∨ c ∈ zscore_written).
  { intros c. unfold out, calcular_zscore_risco. rewrite Hc. cbv zeta. simpl negb. cbv iota.
    rewrite !set_col_columns_elem. unfold zscore_written.
    rewrite !elem_of_cons, elem_of_nil. tauto. }
  split; [intros c H; apply Hcols; by right|].
  split.
  { unfold out, calcular_zscore_risco. rewrite Hc. cbv zeta. simpl negb. cbv iota.
    repeat (etrans; [|apply set_col_columns_prefix]). done. }
  split; [intros c; apply Hcols|].
  unfold out. rewrite zscore_rows by done. split; [by rewrite length_fmap|].
  intros i r Hr. exists (zscore_row Qsqrt (rows df) r).
  split; [by rewrite list_lookup_fmap, Hr|]. intros c. apply zscore_row_frame.
Qed.

Lemma zscore_frame_witness :
  has_cols zscore_cols fato_dois_precos = true ∧
  length (rows (calcular_zscore_risco Qsqrt12 fato_dois_precos))
  = length (rows fato_dois_precos).
Proof.
  assert (Hc : has_cols zscore_cols fato_dois_precos = true) by (vm_compute; reflexivity).
  split; [exact Hc|].
  apply (zscore_frame Qsqrt12 fato_dois_precos Hc).
Defined.

(** C10, as stated, fails: a column [ano_compra] that the table already
    has is overwritten with the year of [compra]. *)
Lemma zscore_frame_counterexample :
  has_cols zscore_cols fato_ano_divergente = true ∧
  "ano_compra"%string ∈ columns fato_ano_divergente ∧
  col "ano_compra" fato_ano_divergente = [Num 2023] ∧
  col "ano_compra" (calcular_zscore_risco Qsqrt12 fato_ano_divergente) = [Num 2022] ∧
  col "ano_compra" (calcular_zscore_risco Qsqrt12 fato_ano_divergente)
  ≠ col "ano_compra" fato_ano_divergente.
Proof.
  split; [vm_compute; reflexivity|]. split; [elem_by_eval|].
  split; [vm_compute; reflexivity|]. split; [vm_compute; reflexivity|].
  vm_compute. discriminate.
Qed.

(** ** Missing columns *)

(** Three stages test their columns and return the table as it is, the
    radar returns an empty frame. *)
Lemma zscore_guard Qsqrt df :
  has_cols zscore_cols df = false → calcular_zscore_risco Qsqrt df = df.
Proof. intros H. unfold calcular_zscore_risco. by rewrite H. Qed.

Lemma priorizacao_guard round4 df :
  has_cols prior_cols df = false → calcular_indice_priorizacao round4 df = Ok df.
Proof. intros H. unfold calcular_indice_priorizacao. by rewrite H. Qed.

Lemma intermitencia_guard parse_date df :
  has_col "data_compra" df = false → calcular_risco_intermitencia parse_date df = Ok df.
Proof. intros H. unfold calcular_risco_intermitencia. by rewrite H. Qed.

Lemma radar_guard df :
  has_cols required_cols df = false → gerar_mini_fato_radar_enriquecida df = Ok empty_frame.
Proof. intros H. unfold gerar_mini_fato_radar_enriquecida. by rewrite H. Qed.

Lemma require_missing cs df c :
  missing_col cs df = Some c → require cs df = Raise (KeyError c).
Proof. intros H. unfold require. by rewrite H. Qed.

(** [calcular_concentracao_fornecedor] tests nothing: a missing column
    raises where it is first looked up. *)
Lemma concentracao_raises df c :
  missing_col ["id_produto"; gasto_col; "id_fornecedor"]%string df = Some c →
  calcular_concentracao_fornecedor df = Raise (KeyError c).
Proof.
  intros H. unfold calcular_concentracao_fornecedor. by rewrite (require_missing _ _ c).
Qed.

(** [calcular_risco_intermitencia] tests [data_compra] alone: without
    [id_produto] it raises. *)
Lemma intermitencia_raises parse_date df :
  has_col "data_compra" df = true → has_col "id_produto" df = false →
  calcular_risco_intermitencia parse_date df = Raise (KeyError "id_produto").
Proof.
  intros H1 H2. unfold calcular_risco_intermitencia. rewrite H1. simpl negb. cbv iota zeta.
  assert (E : missing_col ["id_produto"%string]
                (set_col "mes_compra" (λ r, to_period_M (get "data_compra" r))
                   (if forallb (λ r, is_datetime (get "data_compra" r)) (rows df) then df
                    else set_col "data_compra"
                           (λ r, to_datetime parse_date (get "data_compra" r)) df))
              = Some "id_produto"%string).
  { unfold missing_col. rewrite filter_cons_True; [done|].
    unfold has_col in *. apply bool_decide_eq_false. apply bool_decide_eq_false in H2.
    rewrite set_col_columns_elem. intros [H|H]; [|discriminate].
    destruct (forallb _ _); [done|]. apply set_col_columns_elem in H as [H|H]; [done|discriminate]. }
  by rewrite (require_missing _ _ _ E).
Qed.

(** C4, the failing input.  The supplier dimension is skipped when the
    source files have no supplier columns; the fact table then has no
    [id_fornecedor], and [calcular_concentracao_fornecedor] raises
    KeyError where the claim has it return the table unchanged. *)
Theorem concentracao_sem_fornecedor :
  on_ok (criar_e_integrar_dimensoes parse_none consolidado_sem_fornecedor) (λ '(dims, fato),
    dims.*1 = ["instituicao"; "produto"; "tempo"]%string ∧
    has_col "id_fornecedor" fato = false ∧
    calcular_concentracao_fornecedor fato = Raise (KeyError "id_fornecedor")).
Proof. vm_compute. done. Qed.

(** C7, the failing input.  With no valid date the function returns at
    its second test, after it has added the helper column [mes_compra]
    that only the last line drops: the table returned is not the table
    received. *)
Theorem intermitencia_sem_datas :
  on_ok (calcular_risco_intermitencia parse_none fato_sem_datas) (λ out,
    columns out = columns fato_sem_datas ++ ["mes_compra"]%string ∧
    out ≠ fato_sem_datas).
Proof. vm_compute. split; [reflexivity|]. intros H. discriminate H. Qed.

(** ** Sorting *)

Lemma insert_by_perm {A} (leb : A → A → bool) x l : insert_by leb x l ≡ₚ x :: l.
Proof.
  induction l as [|y l IH]; [done|]. simpl. destruct (leb x y); [done|].
  rewrite IH. apply Permutation_swap.
Qed.

Lemma sort_by_perm {A} (leb : A → A → bool) l : sort_by leb l ≡ₚ l.
Proof.
  induction l as [|x l IH]; [done|]. unfold sort_by in *. simpl.
  by rewrite insert_by_perm, IH.
Qed.

(** ** The order identifier *)

Lemma length_string_of_list (l : list ascii) :
  String.length (string_of_list_ascii l) = length l.
Proof. induction l as [|a l IH]; [done|]. simpl. by rewrite IH. Qed.





Section IdPedido.
Variable Qsqrt : Q → Q.
Variable py_str : cell → string.



End IdPedido.


(** The line of the example: its key and its identifier, the digest that
    [hashlib.md5] gives for that key. *)
Example id_pedido_uma_linha :
  chave_concatenada str_exemplo <$> rows consolidado_uma_linha
  = ["00394544_2023-01-05 00:00:00_267502_46374500_10_2_11223344_2023-02-01 00:00:00_COMPRIMIDO_500_MG"%string] ∧
  col "id_pedido" (gerar_id_pedido Qsqrt12 str_exemplo consolidado_uma_linha)
  = [Str "eacb5b9f436acb81c77ba5e75e822123"].
Proof. split; vm_compute; reflexivity. Qed.

(** ** The order of keys *)

Lemma string_leb_refl s : String.leb s s = true.
Proof.
  destruct (String.leb_total s s); done.
Qed.

Lemma string_compare_eq s t : String.compare s t = Eq ↔ s = t.
Proof.
  split; [apply String.compare_eq_iff|]. intros ->.
  induction t as [|a t IH]; [done|]. simpl.
  unfold Ascii.compare. by rewrite N.compare_refl.
Qed.

Lemma string_compare_lt_trans s t u :
  String.compare s t = Lt → String.compare t u = Lt → String.compare s u = Lt.
Proof.
  revert t u. induction s as [|a s IH]; intros [|b t] [|c u]; simpl; try done.
  unfold Ascii.compare.
  destruct (N.compare_spec (N_of_ascii a) (N_of_ascii b)) as [Eab|Lab|Gab]; try done;
    destruct (N.compare_spec (N_of_ascii b) (N_of_ascii c)) as [Ebc|Lbc|Gbc]; try done;
    intros H1 H2.
  - rewrite Eab, Ebc, N.compare_refl. by eapply IH.
  - rewrite Eab. by apply N.compare_lt_iff in Lbc as ->.
  - rewrite <- Ebc. by apply N.compare_lt_iff in Lab as ->.
  - assert (Lac : (N_of_ascii a < N_of_ascii c)%N) by lia.
    by apply N.compare_lt_iff in Lac as ->.
Qed.

Lemma string_leb_trans s t u :
  String.leb s t = true → String.leb t u = true → String.leb s u = true.
Proof.
  unfold String.leb.
  destruct (String.compare s t) eqn:E1; [| |done];
    destruct (String.compare t u) eqn:E2; try done; intros _ _.
  - apply string_compare_eq in E1 as ->. by rewrite E2.
  - apply string_compare_eq in E1 as ->. by rewrite E2.
  - apply string_compare_eq in E2 as <-. by rewrite E1.
  - by rewrite (string_compare_lt_trans s t u).
Qed.

Lemma date_leb_spec y m d y' m' d' :
  date_leb y m d y' m' d' = true ↔
  (y < y' ∨ (y = y' ∧ (m < m' ∨ (m = m' ∧ d ≤ d'))))%Z.
Proof.
  unfold date_leb.
  rewrite !orb_true_iff, !andb_true_iff, !orb_true_iff, !andb_true_iff.
  rewrite !Z.ltb_lt, !Z.eqb_eq, Z.leb_le. done.
Qed.

Lemma cell_leb_total a b : cell_leb a b = false → cell_leb b a = true.
Proof.
  destruct a, b; simpl; try done.
  - intros H. apply Qle_bool_iff. apply Qlt_le_weak, Qnot_le_lt. intros Hle.
    apply Qle_bool_iff in Hle. congruence.
  - intros H. destruct (String.leb_total s s0); congruence.
  - intros H. apply date_leb_spec. apply not_true_iff_false in H.
    rewrite date_leb_spec in H. lia.
Qed.

Lemma cell_leb_trans a b c :
  cell_leb a b = true → cell_leb b c = true → cell_leb a c = true.
Proof.
  destruct a, b, c; simpl; try done.
  - rewrite !Qle_bool_iff. apply Qle_trans.
  - apply string_leb_trans.
  - rewrite !date_leb_spec. lia.
Qed.


Lemma cell_eqb_leb a b : cell_eqb a b = true → cell_leb a b = true.
Proof.
  destruct a, b; simpl; try done.
  - rewrite Qeq_bool_iff, Qle_bool_iff. intros ->. apply Qle_refl.
  - rewrite String.eqb_eq. intros ->. apply string_leb_refl.
  - rewrite !andb_true_iff, !Z.eqb_eq, date_leb_spec. lia.
Qed.




(** ** The insertion sort *)

Section Sort.
Context {A : Type} (leb : A → A → bool).
Hypothesis leb_total : ∀ x y, leb x y = false → leb y x = true.

Let R (x y : A) : Prop := leb x y = true.





End Sort.

(** ** The order of [gerar_id_pedido] *)

Lemma has_col_elem c df : has_col c df = true ↔ c ∈ columns df.
Proof. unfold has_col. apply bool_decide_eq_true. Qed.

Lemma has_col_set_col c c' f df :
  has_col c df = true → has_col c (set_col c' f df) = true.
Proof. rewrite !has_col_elem, set_col_columns_elem. by left. Qed.


Lemma dropar_rows_frame cs : ∀ df,
  ∃ g : Row → Row,
    rows (foldl (fun d c => if has_col c d then drop_col c d else d) df cs) = g <$> rows df ∧
    ∀ r c, c ∉ cs → g r !! c = r !! c.
Proof.
  induction cs as [|c0 cs IH]; intros df.
  - exists id. split; [by rewrite list_fmap_id|done].
  - simpl. destruct (IH (if has_col c0 df then drop_col c0 df else df)) as (g & Hg & Hgc).
    destruct (has_col c0 df).
    + exists (g ∘ delete c0). split.
      * rewrite Hg. simpl. by rewrite <- list_fmap_compose.
      * intros r c Hc. apply not_elem_of_cons in Hc as [Hc0 Hc]. simpl.
        rewrite Hgc by done. by apply lookup_delete_ne.
    + exists g. split; [done|]. intros r c Hc. apply not_elem_of_cons in Hc as [Hc0 Hc].
      by apply Hgc.
Qed.

Section Ordem.
Variable Qsqrt : Q → Q.
Variable py_str : cell → string.

(** The table before the sort: the rows of the input in place, each with
    its enrichment; the columns that are neither written nor dropped
    keep their values. *)
Lemma enriched_rows df :
  ∃ Z : Row → Row,
    rows (calcular_zscore_risco Qsqrt (id_pedido_hashed py_str df)) = Z <$> rows df ∧
    (∀ r c, c ∉ ("id_pedido"%string :: colunas_para_dropar ++ zscore_written) →
            Z r !! c = r !! c) ∧
    (has_cols colunas_hash df = true →
     ∀ r, get "id_pedido" (Z r) = Str (calcular_hash_pedido py_str r)).
Proof.
  set (df1 := if has_cols colunas_hash df
              then set_col "id_pedido" (λ r, Str (calcular_hash_pedido py_str r)) df
              else df).
  assert (H1 : ∃ h : Row → Row, rows df1 = h <$> rows df ∧
            (∀ r c, c ≠ "id_pedido"%string → h r !! c = r !! c) ∧
            (has_cols colunas_hash df = true →
             ∀ r, h r !! "id_pedido"%string = Some (Str (calcular_hash_pedido py_str r)))).
  { unfold df1. destruct (has_cols colunas_hash df).
    - exists (λ r, <["id_pedido" := Str (calcular_hash_pedido py_str r)]> r).
      split; [done|]. split.
      + intros r c Hc. by rewrite lookup_insert_ne.
      + intros _ r. by rewrite lookup_insert_eq.
    - exists id. split; [by rewrite list_fmap_id|]. split; done. }
  destruct H1 as (h & Hh & Hhf & Hhid).
  destruct (dropar_rows_frame colunas_para_dropar df1) as (g & Hg & Hgf).
  set (D := id_pedido_hashed py_str df).
  assert (HgD : rows D = g <$> rows df1) by exact Hg. clear Hg.
  assert (Hid : "id_pedido"%string ∉ colunas_para_dropar).
  { intros H. apply (bool_decide_pack _) in H. vm_compute in H. done. }
  assert (Hsplit : ∀ c, c ∉ ("id_pedido"%string :: colunas_para_dropar ++ zscore_written) →
            (c ≠ "id_pedido"%string) ∧ (c ∉ colunas_para_dropar) ∧ (c ∉ zscore_written)).
  { intros c Hc. rewrite not_elem_of_cons, not_elem_of_app in Hc. tauto. }
  destruct (has_cols zscore_cols D) eqn:Ez.
  - exists (zscore_row Qsqrt (rows D) ∘ g ∘ h). split; [|split].
    + rewrite zscore_rows by done. rewrite HgD at 2. rewrite Hh.
      by rewrite <- !list_fmap_compose.
    + intros r c Hc. simpl. destruct (Hsplit c Hc) as (? & ? & ?).
      rewrite zscore_row_frame, Hgf, Hhf; done.
    + intros Hc r. unfold get. simpl. rewrite zscore_row_frame, Hgf, Hhid; [done..|].
      intros Hin. apply (bool_decide_pack _) in Hin. vm_compute in Hin. done.
  - exists (g ∘ h). rewrite zscore_guard by done. split; [|split].
    + by rewrite HgD, Hh, <- list_fmap_compose.
    + intros r c Hc. simpl. destruct (Hsplit c Hc) as (? & ? & ?).
      rewrite Hgf, Hhf; done.
    + intros Hc r. unfold get. simpl. by rewrite Hgf, Hhid.
Qed.




End Ordem.


(** The lines of the example come out by date, then by code, the two
    lines of equal keys ([b], [d]) in their order, the line without a
    date last. *)
Example ordem_das_linhas :
  col "linha" (gerar_id_pedido Qsqrt12 str_exemplo consolidado_fora_de_ordem)
  = [Str "c"; Str "b"; Str "d"; Str "a"; Str "e"].
Proof. vm_compute. reflexivity. Qed.

(** ** Duplicates *)

Lemma filter_all {A} (P : A → Prop) `{!∀ x, Decision (P x)} (l : list A) :
  (∀ x, x ∈ l → P x) → filter P l = l.
Proof.
  induction l as [|x l IH]; intros Hall; [done|].
  rewrite filter_cons_True by (apply Hall; by left). f_equal. apply IH.
  intros y Hy. apply Hall. by right.
Qed.

Section Dedup.
Context {A : Type} (eqb : A → A → bool).
Hypothesis eqb_trans : ∀ x y z, eqb x y = true → eqb y z = true → eqb x z = true.

Lemma existsb_snoc (p : A → bool) l x : existsb p (l ++ [x]) = existsb p l || p x.
Proof. rewrite existsb_app. simpl. by rewrite orb_false_r. Qed.

Lemma first_occurrences_from acc l :
  foldl (fun acc x => if existsb (fun y => eqb y x) acc then acc else acc ++ [x]) acc l
  = acc ++ filter (fun x => existsb (fun y => eqb y x) acc = false) (dedup_by eqb l).
Proof.
  revert acc. induction l as [|x l IH]; intros acc; simpl.
  - by rewrite app_nil_r.
  - rewrite IH, filter_cons. destruct (existsb (λ y, eqb y x) acc) eqn:E.
    + rewrite decide_False by done. f_equal.
      rewrite list_filter_filter. apply list_filter_iff. intros y.
      split; [|tauto]. intros Hy. split; [done|].
      destruct (eqb x y) eqn:Exy; [|done].
      apply existsb_exists in E as (a & Ha & Hax).
      assert (Hay : existsb (λ y0, eqb y0 y) acc = true).
      { apply existsb_exists. exists a. split; [done|]. by eapply eqb_trans. }
      congruence.
    + rewrite decide_True by done. rewrite <- app_assoc. simpl. do 2 f_equal.
      rewrite list_filter_filter. apply list_filter_iff. intros y.
      rewrite existsb_snoc, orb_false_iff. tauto.
Qed.

(** [drop_duplicates] keeps the first occurrences, in their order. *)
Lemma dedup_by_first_occurrences l : dedup_by eqb l = first_occurrences eqb l.
Proof.
  unfold first_occurrences. rewrite first_occurrences_from. simpl.
  symmetry. by apply filter_all.
Qed.

Lemma dedup_by_distinct {B} (f : B → A) (l : list B) :
  NoDup l → (∀ i j, i ≠ j → eqb (f i) (f j) = false) →
  dedup_by eqb (f <$> l) = f <$> l.
Proof.
  intros Hnd Hf. induction Hnd as [|x l Hx Hnd IH]; [done|].
  rewrite fmap_cons. simpl. rewrite IH. f_equal.
  apply filter_all. intros y Hy.
  apply list_elem_of_fmap in Hy as (j & -> & Hj). apply Hf. intros ->. done.
Qed.

End Dedup.

(** ** The format of the keys *)

Lemma length_append (s t : string) :
  String.length (s +:+ t) = (String.length s + String.length t)%nat.
Proof. induction s as [|a s IH]; simpl; [done|]. by rewrite IH. Qed.

Lemma length_zfill w s : String.length (zfill w s) = (w - String.length s + String.length s)%nat.
Proof.
  unfold zfill. rewrite length_append, length_string_of_list, length_replicate. done.
Qed.

Lemma read_decimal_zeros k s :
  read_decimal (string_of_list_ascii (replicate k "0"%char) +:+ s) = read_decimal s.
Proof.
  induction k as [|k IH]; [done|]. simpl. unfold read_decimal in *. simpl.
  destruct (NilEmpty.uint_of_string _) eqn:E1; destruct (NilEmpty.uint_of_string s) eqn:E2;
    simpl in *; congruence.
Qed.

Lemma read_decimal_zfill w n : read_decimal (zfill w (decimal n)) = Some n.
Proof.
  unfold zfill. rewrite read_decimal_zeros. unfold read_decimal, decimal.
  rewrite NilEmpty.usu. simpl. f_equal. apply DecimalN.Unsigned.of_to.
Qed.

Lemma append_inj_r (p a b : string) : p +:+ a = p +:+ b → a = b.
Proof. induction p as [|c p IH]; simpl; [done|]. intros [= H]. by apply IH. Qed.

Lemma sk_format_inj prefixo : Inj (=) (=) (sk_format prefixo).
Proof.
  intros n m H. unfold sk_format in H. apply append_inj_r in H.
  apply (f_equal read_decimal) in H. rewrite !read_decimal_zfill in H. congruence.
Qed.

Lemma all_from_spec p fuel : ∀ n m,
  all_from p n fuel = true → (n ≤ m)%N → (m < n + N.of_nat fuel)%N → p m = true.
Proof.
  induction fuel as [|fuel IH]; intros n m H Hle Hlt; [lia|].
  simpl in H. apply andb_true_iff in H as [Hn H].
  destruct (decide (m = n)) as [->|Hne]; [done|].
  apply (IH (N.succ n)); [done|lia..].
Qed.

(** Up to 99999 a number has at most five digits. *)
Lemma decimal_length_5 n : (n < 100000)%N → (String.length (decimal n) ≤ 5)%nat.
Proof.
  intros Hn.
  assert (H : all_from (fun i => (String.length (decimal i) <=? 5)%nat) 0 (N.to_nat 100000)
              = true) by (vm_compute; reflexivity).
  apply Nat.leb_le. apply (all_from_spec _ _ 0%N n H); lia.
Qed.

(** ** The dimensions *)

Lemma get_select_row cs r c : c ∈ cs → get c (select_row cs r) = get c r.
Proof.
  induction cs as [|c0 cs IH]; intros Hc; [by apply elem_of_nil in Hc|].
  unfold select_row in *. simpl. destruct (decide (c0 = c)) as [->|Hne].
  - apply get_insert_eq.
  - rewrite get_insert_ne by done. apply IH. apply elem_of_cons in Hc as [->|Hc]; done.
Qed.

Lemma key_of_ext cs (r s : Row) :
  (∀ c, c ∈ cs → get c r = get c s) → key_of cs r = key_of cs s.
Proof.
  intros H. unfold key_of. apply list_fmap_ext. intros i c Hc. apply H.
  by eapply list_elem_of_lookup_2.
Qed.

Lemma filter_none {A} (P : A → Prop) `{!∀ x, Decision (P x)} (l : list A) :
  (∀ x, x ∈ l → ¬ P x) → filter P l = [].
Proof.
  induction l as [|x l IH]; intros Hall; [done|].
  rewrite filter_cons_False by (apply Hall; by left). apply IH.
  intros y Hy. apply Hall. by right.
Qed.

Lemma require_ok cs df : (∀ c, c ∈ cs → c ∈ columns df) → require cs df = Ok tt.
Proof.
  intros H. unfold require, missing_col.
  rewrite filter_none; [done|].
  intros c Hc Hf. apply H in Hc. apply has_col_elem in Hc. congruence.
Qed.

Lemma criar_dimensao_ok df attrs pk prefixo :
  (∀ c, c ∈ attrs → c ∈ columns df) → rows df ≠ [] →
  ∃ fato, _criar_dimensao df attrs pk prefixo = Ok (df_dim df attrs pk prefixo, fato).
Proof.
  intros Hc Hr. unfold _criar_dimensao. rewrite require_ok by done. simpl.
  rewrite bool_decide_eq_false_2; [by eexists|].
  intros H. apply (f_equal length) in H. rewrite length_imap in H.
  destruct (rows df) as [|r l]; [done|]. simpl in H. done.
Qed.

Lemma criar_dimensao_inv df attrs pk prefixo dim fato :
  _criar_dimensao df attrs pk prefixo = Ok (dim, fato) →
  dim = df_dim df attrs pk prefixo.
Proof.
  unfold _criar_dimensao. destruct (require attrs df); simpl; [|done].
  destruct (bool_decide _); [done|]. by intros [= <- _].
Qed.

Lemma df_dim_keys df attrs pk prefixo :
  col pk (df_dim df attrs pk prefixo)
  = (λ n, Str (sk_format prefixo (N.of_nat n)))
      <$> seq 1 (length (dedup_by (same_on attrs) (rows df))).
Proof.
  unfold col, df_dim. simpl. rewrite fmap_imap.
  rewrite <- (imap_seq _ (λ n, Str (sk_format prefixo (N.of_nat n))) 1).
  apply imap_ext. intros i r _. simpl. by rewrite get_insert_eq.
Qed.

(** The keys of a dimension, as far as C2 holds.  In the dimension that
    [_criar_dimensao] builds, the keys are the prefix followed by the
    indexes 1, 2, ..., n in that order, n the number of distinct
    combinations of the attributes; no two keys are equal; the row of the
    k-th combination in the order of first occurrence in the fact table
    holds the key of index k and that combination; and the index is
    written in decimal with zeros on the left to at least 5 digits:
    exactly 5 digits up to index 99999, more from 100000 on. *)
Theorem surrogate_keys df attrs pk prefixo dim fato :
  _criar_dimensao df attrs pk prefixo = Ok (dim, fato) →
  pk ∉ attrs →
  let combos := first_occurrences (same_on attrs) (rows df) in
  col pk dim = (λ n, Str (sk_format prefixo (N.of_nat n))) <$> seq 1 (length combos) ∧
  NoDup (col pk dim) ∧
  (∀ k r, combos !! k = Some r →
     ∃ r', rows dim !! k = Some r' ∧
           get pk r' = Str (sk_format prefixo (N.of_nat (S k))) ∧
           key_of attrs r' = key_of attrs r) ∧
  (∀ n, ∃ digits,
     sk_format prefixo n = prefixo +:+ digits ∧
     read_decimal digits = Some n ∧
     (5 ≤ String.length digits)%nat ∧
     ((n < 100000)%N → String.length digits = 5%nat)).
Proof.
  intros Hok Hpk combos. apply criar_dimensao_inv in Hok as ->.
  assert (Hcombos : combos = dedup_by (same_on attrs) (rows df)).
  { unfold combos. symmetry. apply dedup_by_first_occurrences.
    intros x y z. unfold same_on. apply key_eqb_trans. }
  rewrite Hcombos. split; [apply df_dim_keys|]. split; [|split].
  - rewrite df_dim_keys. apply NoDup_fmap_2; [|apply NoDup_seq].
    intros n m [= H]. apply sk_format_inj in H. lia.
  - intros k r Hk. unfold df_dim. simpl. rewrite list_lookup_imap, Hk. simpl.
    eexists. split; [done|]. split; [apply get_insert_eq|].
    apply key_of_ext. intros c Hc. rewrite get_insert_ne by (intros ->; done).
    by apply get_select_row.
  - intros n. exists (zfill 5 (decimal n)). split; [done|].
    split; [apply read_decimal_zfill|]. rewrite length_zfill. split; [lia|].
    intros Hn. pose proof (decimal_length_5 n Hn). lia.
Qed.

Lemma surrogate_keys_tres_linhas :
  ("id_instituicao"%string ∉ col_inst) ∧
  ∃ dim fato,
    _criar_dimensao fato_tres_linhas col_inst "id_instituicao" "Ins" = Ok (dim, fato) ∧
    NoDup (col "id_instituicao" dim).
Proof.
  assert (Hpk : "id_instituicao"%string ∉ col_inst).
  { intros H. apply (bool_decide_pack _) in H. vm_compute in H. exact H. }
  assert (H : ∃ dim fato,
            _criar_dimensao fato_tres_linhas col_inst "id_instituicao" "Ins" = Ok (dim, fato))
    by (eexists _, _; vm_compute; reflexivity).
  destruct H as (dim & fato & H). split; [exact Hpk|]. exists dim, fato. split; [exact H|].
  apply (surrogate_keys fato_tres_linhas col_inst "id_instituicao" "Ins" dim fato H Hpk).
Defined.

(** The scenario of the specification: two institutions, keys [Ins00001]
    and [Ins00002]; lines 1 and 3 receive [Ins00001]. *)
Example dimensao_tres_linhas :
  on_ok (_criar_dimensao fato_tres_linhas col_inst "id_instituicao" "Ins") (λ '(dim, fato),
    col "id_instituicao" dim = [Str "Ins00001"; Str "Ins00002"] ∧
    col "id_instituicao" fato = [Str "Ins00001"; Str "Ins00002"; Str "Ins00001"] ∧
    columns fato = ["preco_total"; "id_instituicao"]%string).
Proof. vm_compute. done. Qed.

Lemma instituicao_key i :
  key_of col_inst (instituicao i)
  = [Num (inject_Z (Z.of_nat i)); Str "HOSPITAL"; Str "BRASILIA"; Str "DF"].
Proof. vm_compute. reflexivity. Qed.

Lemma instituicao_distinct i j :
  i ≠ j → same_on col_inst (instituicao i) (instituicao j) = false.
Proof.
  intros Hne. unfold same_on. rewrite !instituicao_key. simpl.
  destruct (Qeq_bool _ _) eqn:E; [|done]. apply Qeq_bool_eq in E.
  unfold Qeq in E. simpl in E. lia.
Qed.

(** C2, the failing input.  A table of 100000 institutions, all
    different: the dimension is built, and its 100000th key is Ins100000,
    the index written with six digits, where the claim has exactly five
    and the comment of the source at the format has the pattern
    guarantee five. *)
Theorem surrogate_keys_cem_mil :
  ∃ dim fato,
    _criar_dimensao cem_mil_instituicoes col_inst "id_instituicao" "Ins" = Ok (dim, fato) ∧
    col "id_instituicao" dim !! N.to_nat 99999 = Some (Str ("Ins" +:+ "100000")) ∧
    String.length "100000" ≠ 5%nat.
Proof.
  assert (Hr : rows cem_mil_instituicoes = instituicao <$> seq 0 (N.to_nat 100000)) by done.
  destruct (criar_dimensao_ok cem_mil_instituicoes col_inst "id_instituicao" "Ins")
    as [fato Hok].
  { intros c Hc. exact Hc. }
  { rewrite Hr. intros H. apply (f_equal length) in H.
    rewrite length_fmap, length_seq in H. simpl length in H. lia. }
  eexists _, fato. split; [exact Hok|]. split; [|done].
  rewrite df_dim_keys, Hr.
  rewrite (dedup_by_distinct _ instituicao) by (apply NoDup_seq || apply instituicao_distinct).
  rewrite length_fmap, length_seq, list_lookup_fmap.
  rewrite lookup_seq_lt by lia. cbn [fmap option_fmap option_map].
  replace (N.of_nat (1 + N.to_nat 99999)) with 100000%N by lia.
  vm_compute. reflexivity.
Qed.

(** ** Lists without equal elements *)

Section Distinct.
Context {A : Type} (eqb : A → A → bool).
Hypothesis eqb_sym : ∀ x y, eqb x y = eqb y x.
Hypothesis eqb_trans : ∀ x y z, eqb x y = true → eqb y z = true → eqb x z = true.

Lemma distinct_by_filter (P : A → Prop) `{!∀ x, Decision (P x)} l :
  distinct_by eqb l → distinct_by eqb (filter P l).
Proof.
  induction l as [|x l IH]; [done|]. intros [Hx Hl]. rewrite filter_cons.
  destruct (decide (P x)); [|by apply IH]. split; [|by apply IH].
  intros y Hy. apply list_elem_of_filter in Hy as [_ Hy]. by apply Hx.
Qed.

Lemma dedup_by_is_distinct l : distinct_by eqb (dedup_by eqb l).
Proof.
  induction l as [|x l IH]; [done|]. simpl. split.
  - intros y Hy. by apply list_elem_of_filter in Hy as [Hy _].
  - by apply distinct_by_filter.
Qed.

Lemma dedup_by_elem x l : x ∈ dedup_by eqb l → x ∈ l.
Proof.
  revert x. induction l as [|y l IH]; intros x; [done|]. simpl.
  rewrite !elem_of_cons, list_elem_of_filter. intros [->|[_ H]]; [by left|right; by apply IH].
Qed.

Lemma dedup_by_cover x l :
  eqb x x = true → x ∈ l → ∃ y, y ∈ dedup_by eqb l ∧ eqb y x = true.
Proof.
  intros Hrefl. induction l as [|z l IH]; intros Hx; [by apply elem_of_nil in Hx|].
  apply elem_of_cons in Hx as [->|Hx].
  - exists z. split; [by left|done].
  - destruct (IH Hx) as (y & Hy & Hyx). destruct (eqb z y) eqn:E.
    + exists z. split; [by left|]. by eapply eqb_trans.
    + exists y. split; [|done]. simpl. right. by apply list_elem_of_filter.
Qed.

Lemma insert_by_distinct leb x l :
  distinct_by eqb l → (∀ y, y ∈ l → eqb x y = false) → distinct_by eqb (insert_by leb x l).
Proof.
  induction l as [|z l IH]; intros Hl Hx; simpl; [done|].
  destruct (leb x z); [done|]. destruct Hl as [Hz Hl]. split.
  - intros y Hy. rewrite insert_by_perm in Hy. apply elem_of_cons in Hy as [->|Hy].
    + rewrite eqb_sym. apply Hx. by left.
    + by apply Hz.
  - apply IH; [done|]. intros y Hy. apply Hx. by right.
Qed.

Lemma sort_by_distinct leb l : distinct_by eqb l → distinct_by eqb (sort_by leb l).
Proof.
  induction l as [|x l IH]; [done|]. intros [Hx Hl].
  change (sort_by leb (x :: l)) with (insert_by leb x (sort_by leb l)).
  apply insert_by_distinct; [by apply IH|]. intros y Hy. rewrite sort_by_perm in Hy.
  by apply Hx.
Qed.

(** Among elements that are all different, at most one is in a class of
    equals. *)
Lemma filter_distinct (P : A → Prop) `{!∀ x, Decision (P x)} l :
  (∀ x y, P x → P y → eqb x y = true) →
  distinct_by eqb l →
  filter P l = [] ∨ ∃ x, filter P l = [x].
Proof.
  intros HP. induction l as [|x l IH]; [by left|]. intros [Hx Hl].
  rewrite filter_cons. destruct (decide (P x)) as [Hpx|Hpx]; [|by apply IH].
  right. exists x. f_equal. apply filter_none. intros y Hy Hpy.
  specialize (Hx y Hy). rewrite HP in Hx; done.
Qed.

End Distinct.

Lemma distinct_by_fmap {A B} (eqb : B → B → bool) (f : A → B) (l : list A) :
  distinct_by (fun x y => eqb (f x) (f y)) l → distinct_by eqb (f <$> l).
Proof.
  induction l as [|x l IH]; [done|]. intros [Hx Hl]. rewrite fmap_cons. split; [|by apply IH].
  intros y Hy. apply list_elem_of_fmap in Hy as (z & -> & Hz). by apply Hx.
Qed.

Lemma distinct_by_ext {A} (e1 e2 : A → A → bool) l :
  (∀ x y, e1 x y = e2 x y) → distinct_by e1 l → distinct_by e2 l.
Proof.
  intros H. induction l as [|x l IH]; [done|]. intros [Hx Hl]. split; [|by apply IH].
  intros y Hy. rewrite <- H. by apply Hx.
Qed.

(** ** The keys of a [groupby] *)

Lemma groupby_keys_elem ks rs k :
  k ∈ groupby_keys ks rs → notna_key k = true ∧ ∃ r, r ∈ rs ∧ k = key_of ks r.
Proof.
  unfold groupby_keys. rewrite sort_by_perm. intros H. apply dedup_by_elem in H.
  apply list_elem_of_filter in H as [Hn H]. split; [done|].
  apply list_elem_of_fmap in H as (r & -> & Hr). by exists r.
Qed.

Lemma groupby_keys_cover ks rs r :
  r ∈ rs → notna_key (key_of ks r) = true →
  ∃ k, k ∈ groupby_keys ks rs ∧ key_eqb k (key_of ks r) = true.
Proof.
  intros Hr Hn.
  destruct (dedup_by_cover key_eqb key_eqb_trans (key_of ks r)
              (filter (λ k, notna_key k = true) (key_of ks <$> rs))) as (k & Hk & Hkr).
  - apply key_eqb_refl.
  - apply list_elem_of_filter. split; [done|]. by apply list_elem_of_fmap_2.
  - exists k. split; [|done]. unfold groupby_keys. by rewrite sort_by_perm.
Qed.

Lemma groupby_keys_distinct ks rs : distinct_by key_eqb (groupby_keys ks rs).
Proof.
  unfold groupby_keys. apply sort_by_distinct; [apply key_eqb_sym|].
  apply dedup_by_is_distinct.
Qed.

Lemma groupby_keys_length ks rs k : k ∈ groupby_keys ks rs → length k = length ks.
Proof.
  intros H. apply groupby_keys_elem in H as (_ & r & _ & ->). unfold key_of.
  by rewrite length_fmap.
Qed.

(** Equal keys have the same group. *)
Lemma group_key_eqb ks k1 k2 rs :
  key_eqb k1 k2 = true → group ks k1 rs = group ks k2 rs.
Proof.
  intros H. unfold group. apply list_filter_iff. intros r.
  by rewrite (key_eqb_compat k1 k2).
Qed.

(** ** The rows of an aggregation *)

Lemma lookup_row_of_key ks k c :
  row_of_key ks k !! c = (list_to_map (zip ks k) : Row) !! c.
Proof. done. Qed.

Lemma key_of_row_of_key ks : ∀ k,
  NoDup ks → length k = length ks → key_of ks (row_of_key ks k) = k.
Proof.
  unfold key_of, row_of_key.
  induction ks as [|c ks IH]; intros [|a k] Hnd Hlen; try done.
  apply NoDup_cons in Hnd as [Hc Hnd]. simpl in Hlen.
  rewrite fmap_cons. simpl. rewrite get_insert_eq. f_equal.
  etrans; [|apply (IH k); [done|lia]].
  apply list_fmap_ext. intros i c' Hc'. simpl.
  apply get_insert_ne. intros ->. apply Hc. by eapply list_elem_of_lookup_2.
Qed.

Lemma agg_row_lookup_ne ks aggs rs k c :
  c ∉ aggs.*1 → agg_row ks aggs rs k !! c = row_of_key ks k !! c.
Proof.
  unfold agg_row. induction aggs as [|[c0 f] aggs IH]; intros Hc; [done|].
  rewrite fmap_cons in Hc. apply not_elem_of_cons in Hc as [Hne Hc]. simpl.
  rewrite lookup_insert_ne by done. by apply IH.
Qed.

Lemma key_of_agg_row ks aggs rs k :
  NoDup ks → length k = length ks → (∀ c, c ∈ ks → c ∉ aggs.*1) →
  key_of ks (agg_row ks aggs rs k) = k.
Proof.
  intros Hnd Hlen Hdis. etrans; [|by apply (key_of_row_of_key ks k)].
  apply key_of_ext. intros c Hc. unfold get. by rewrite agg_row_lookup_ne by by apply Hdis.
Qed.

Lemma get_agg_row_head ks c f aggs rs k :
  get c (agg_row ks ((c, f) :: aggs) rs k) = f (group ks k rs).
Proof. unfold agg_row. simpl. apply get_insert_eq. Qed.

Lemma get_agg_row_tail ks c c0 f aggs rs k :
  c ≠ c0 → get c (agg_row ks ((c0, f) :: aggs) rs k) = get c (agg_row ks aggs rs k).
Proof. intros H. unfold agg_row. simpl. by apply get_insert_ne. Qed.

Lemma groupby_agg_distinct ks aggs df :
  NoDup ks → (∀ c, c ∈ ks → c ∉ aggs.*1) →
  distinct_keys ks (rows (groupby_agg ks aggs df)).
Proof.
  intros Hnd Hdis. unfold distinct_keys, groupby_agg. simpl.
  apply distinct_by_fmap.
  assert (H : ∀ l, (∀ k, k ∈ l → length k = length ks) → distinct_by key_eqb l →
              distinct_by (λ x y, same_on ks (agg_row ks aggs (rows df) x)
                                    (agg_row ks aggs (rows df) y)) l).
  { induction l as [|k l IH]; [done|]. intros Hlen [Hk Hl]. split.
    - intros y Hy. unfold same_on. rewrite !key_of_agg_row; [by apply Hk|try done..].
      + apply Hlen. by right.
      + apply Hlen. by left.
    - apply IH; [|done]. intros k' Hk'. apply Hlen. by right. }
  apply H; [apply groupby_keys_length|apply groupby_keys_distinct].
Qed.

(** ** The left merge on a frame of different keys *)

Lemma same_on_sym ks r s : same_on ks r s = same_on ks s r.
Proof. apply key_eqb_sym. Qed.

Lemma same_on_trans ks r s t :
  same_on ks r s = true → same_on ks s t = true → same_on ks r t = true.
Proof. apply key_eqb_trans. Qed.

Lemma matches_le1 ks r right :
  distinct_keys ks right →
  filter (fun s => key_eqb (key_of ks r) (key_of ks s) = true) right
  = option_list (lookup_row ks r right).
Proof.
  intros Hd. unfold lookup_row.
  destruct (filter_distinct (λ s t, same_on ks s t)
              (fun s => key_eqb (key_of ks r) (key_of ks s) = true) right)
    as [H|[s H]]; [|done|by rewrite H..].
  intros x y Hx Hy. unfold same_on. eapply key_eqb_trans; [|done]. by rewrite key_eqb_sym.
Qed.

Lemma merge_left_rows ks left right :
  distinct_keys ks (rows right) →
  rows (merge_left ks left right)
  = (fun r => merge_row ks (overlap ks left right) (columns right) r
                (lookup_row ks r (rows right))) <$> rows left.
Proof.
  intros Hd. unfold merge_left. cbn [rows].
  induction (rows left) as [|r l IH]; [done|].
  rewrite fmap_cons, bind_cons, IH, (matches_le1 ks r (rows right) Hd).
  destruct (lookup_row ks r (rows right)); done.
Qed.

Lemma overlap_nil ks left right :
  (∀ c, c ∈ columns right → c ∈ ks ∨ c ∉ columns left) → overlap ks left right = [].
Proof.
  intros H. unfold overlap. apply filter_none. intros c Hc [Hl Hk].
  destruct (H c Hc); done.
Qed.

Lemma merge_row_nil ks rcols r s :
  merge_row ks [] rcols r s
  = foldr (fun c acc => <[c := from_option (get c) NaN s]> acc) r (filter (fun c => c ∉ ks) rcols).
Proof. done. Qed.

Lemma foldr_insert_lookup (g : string → cell) (r : Row) cs c :
  foldr (fun c acc => <[c := g c]> acc) r cs !! c
  = if decide (c ∈ cs) then Some (g c) else r !! c.
Proof.
  induction cs as [|c0 cs IH]; [done|]. simpl.
  destruct (decide (c0 = c)) as [->|Hne].
  - rewrite lookup_insert_eq. rewrite decide_True; [done|by left].
  - rewrite lookup_insert_ne by done. rewrite IH.
    destruct (decide (c ∈ cs)) as [Hc|Hc].
    + rewrite decide_True; [done|by right].
    + rewrite decide_False; [done|]. intros [->|?]%elem_of_cons; done.
Qed.

(** A column of the right frame takes its value from the joined row, or is
    missing when no row is joined; any other column keeps its value. *)
Lemma merge_row_new ks rcols r s c :
  c ∈ rcols → c ∉ ks → get c (merge_row ks [] rcols r s) = from_option (get c) NaN s.
Proof.
  intros Hc Hk. rewrite merge_row_nil. unfold get at 1. rewrite foldr_insert_lookup.
  rewrite decide_True; [done|]. by apply list_elem_of_filter.
Qed.

Lemma merge_row_old ks rcols r s c :
  c ∉ rcols ∨ c ∈ ks → merge_row ks [] rcols r s !! c = r !! c.
Proof.
  intros Hc. rewrite merge_row_nil, foldr_insert_lookup.
  rewrite decide_False; [done|]. intros [H1 H2]%list_elem_of_filter. destruct Hc; done.
Qed.

(** ** The lookup of a row in an aggregation *)

Lemma filter_ext_in {A} (P Q : A → Prop) `{!∀ x, Decision (P x)} `{!∀ x, Decision (Q x)}
    (l : list A) :
  (∀ x, x ∈ l → (P x ↔ Q x)) → filter P l = filter Q l.
Proof.
  induction l as [|x l IH]; intros Hall; [done|]. rewrite !filter_cons.
  assert (Hx : P x ↔ Q x) by (apply Hall; by left).
  rewrite IH by (intros y Hy; apply Hall; by right).
  destruct (decide (P x)), (decide (Q x)); tauto || done.
Qed.

Lemma cell_eqb_notna a b : cell_eqb a b = true → notna a = notna b.
Proof. by destruct a, b. Qed.

Lemma key_eqb_notna k1 k2 : key_eqb k1 k2 = true → notna_key k1 = notna_key k2.
Proof.
  revert k2. induction k1 as [|a k1 IH]; intros [|b k2]; simpl; try done.
  rewrite andb_true_iff. intros [H1 H2]. by rewrite (cell_eqb_notna a b), (IH k2).
Qed.

Lemma distinct_keys_post ks (post : Row → Row) l :
  (∀ s, key_of ks (post s) = key_of ks s) →
  distinct_keys ks l → distinct_keys ks (post <$> l).
Proof.
  intros Hp Hd. unfold distinct_keys in *. apply distinct_by_fmap.
  eapply distinct_by_ext; [|done]. intros x y. unfold same_on. by rewrite !Hp.
Qed.

(** The row of an aggregation that a row [r] of the frame is joined to:
    that of the group of [r]; none when [r] has a missing key. *)
Lemma lookup_row_agg ks aggs df (post : Row → Row) r :
  NoDup ks → (∀ c, c ∈ ks → c ∉ aggs.*1) →
  (∀ s, key_of ks (post s) = key_of ks s) →
  r ∈ rows df →
  if notna_key (key_of ks r)
  then ∃ k, key_eqb (key_of ks r) k = true ∧ k ∈ groupby_keys ks (rows df) ∧
            lookup_row ks r (post <$> rows (groupby_agg ks aggs df))
            = Some (post (agg_row ks aggs (rows df) k))
  else lookup_row ks r (post <$> rows (groupby_agg ks aggs df)) = None.
Proof.
  intros Hnd Hdis Hpost Hr.
  set (keys := groupby_keys ks (rows df)).
  assert (E : filter (λ s, key_eqb (key_of ks r) (key_of ks s) = true)
                (post <$> rows (groupby_agg ks aggs df))
              = (post ∘ agg_row ks aggs (rows df))
                  <$> filter (λ k, key_eqb (key_of ks r) k = true) keys).
  { unfold groupby_agg. cbn [rows]. fold keys. rewrite <- list_fmap_compose, filter_fmap.
    f_equal. apply filter_ext_in. intros k Hk. unfold compose.
    rewrite Hpost, key_of_agg_row; [done|done|by apply (groupby_keys_length ks (rows df))|done]. }
  unfold lookup_row. rewrite E.
  destruct (filter_distinct key_eqb (λ k, key_eqb (key_of ks r) k = true) keys) as [H|[k H]].
  - intros x y Hx Hy. eapply key_eqb_trans; [|done]. by rewrite key_eqb_sym.
  - apply groupby_keys_distinct.
  - rewrite H. destruct (notna_key (key_of ks r)) eqn:En; [|done].
    destruct (groupby_keys_cover ks (rows df) r Hr En) as (k & Hk & Hkr).
    exfalso. eapply (filter_nil_not_elem_of _ _ k H); [|done]. by rewrite key_eqb_sym.
  - assert (Hk : k ∈ filter (λ k, key_eqb (key_of ks r) k = true) keys)
      by (rewrite H; by left).
    apply list_elem_of_filter in Hk as [Hkr Hk]. rewrite H.
    assert (En : notna_key (key_of ks r) = true).
    { rewrite (key_eqb_notna _ _ Hkr). by apply groupby_keys_elem in Hk as [? _]. }
    rewrite En. by exists k.
Qed.

(** An aggregate, merged back, is the aggregate of the group of the row. *)
Lemma lookup_row_agg_get ks aggs df (post : Row → Row) r (val : Row → cell)
    (spec : list Row → cell) :
  NoDup ks → (∀ c, c ∈ ks → c ∉ aggs.*1) →
  (∀ s, key_of ks (post s) = key_of ks s) →
  r ∈ rows df →
  (∀ k, k ∈ groupby_keys ks (rows df) →
        val (post (agg_row ks aggs (rows df) k)) = spec (group ks k (rows df))) →
  from_option val NaN (lookup_row ks r (post <$> rows (groupby_agg ks aggs df)))
  = if notna_key (key_of ks r) then spec (group ks (key_of ks r) (rows df)) else NaN.
Proof.
  intros Hnd Hdis Hpost Hr Hval.
  pose proof (lookup_row_agg ks aggs df post r Hnd Hdis Hpost Hr) as H.
  destruct (notna_key (key_of ks r)).
  - destruct H as (k & Hkr & Hk & ->). simpl. rewrite Hval by done.
    f_equal. symmetry. by apply group_key_eqb.
  - by rewrite H.
Qed.

(** ** Columns of both frames of a merge *)

Lemma overlap_elem ks left right c :
  c ∈ overlap ks left right ↔ (c ∈ columns left ∧ c ∉ ks) ∧ c ∈ columns right.
Proof.
  unfold overlap. apply (list_elem_of_filter (λ c, c ∈ columns left ∧ c ∉ ks)).
Qed.

Lemma sfx_not_elem ov s c0 (l : list string) :
  c0 ∈ ov → (∀ c, c ∈ ov → c +:+ s ≠ c0) → c0 ∉ sfx ov s <$> l.
Proof.
  intros H0 Hne Hin. apply list_elem_of_fmap in Hin as (c & Hc & _).
  unfold sfx in Hc. case_bool_decide as Hov.
  - by apply (Hne c).
  - by subst.
Qed.

(** A column of both frames is in the merged frame under its suffixes
    alone. *)
Lemma merge_left_overlap_lost ks left right c0 :
  c0 ∈ overlap ks left right →
  (∀ c, c ∈ overlap ks left right → c +:+ "_x" ≠ c0 ∧ c +:+ "_y" ≠ c0) →
  c0 ∉ columns (merge_left ks left right).
Proof.
  intros H0 Hne. unfold merge_left. cbn [columns]. rewrite not_elem_of_app.
  split; apply sfx_not_elem; try done; intros c Hc; by apply Hne.
Qed.

(** ** The radar *)

Lemma lookup_select_row cs (r : Row) c :
  select_row cs r !! c = if decide (c ∈ cs) then Some (get c r) else None.
Proof. unfold select_row. by rewrite foldr_insert_lookup, lookup_empty. Qed.

Lemma get_rename_new c c' (X : Row) v :
  X !! c = Some v → get c' (rename_in_row c c' X) = v.
Proof. intros H. unfold rename_in_row. rewrite H. apply get_insert_eq. Qed.

Lemma get_rename_other c c' c'' (X : Row) :
  c'' ≠ c → c'' ≠ c' → get c'' (rename_in_row c c' X) = get c'' X.
Proof.
  intros H1 H2. unfold rename_in_row. destruct (X !! c); [|done].
  rewrite get_insert_ne by done. unfold get. by rewrite lookup_delete_ne.
Qed.

Lemma lookup_rename_other c c' c'' (X : Row) :
  c'' ≠ c → c'' ≠ c' → rename_in_row c c' X !! c'' = X !! c''.
Proof.
  intros H1 H2. unfold rename_in_row. destruct (X !! c); [|done].
  rewrite lookup_insert_ne by done. by rewrite lookup_delete_ne.
Qed.

(** What the last steps make of a merged row: the economy, the
    deviation, the ten columns, the two new names. *)
Lemma radar_of_gets (y0 : Row) :
  let r := radar_of y0 in
  get "PMP_Pago_Linha" r = get "preco_unitario" y0 ∧
  get "PMP_Benchmark_Referencia" r = get "PMP_Mediano_Dinamico" y0 ∧
  get "Economia_por_Linha" r
  = cmul (csub (get "preco_unitario" y0) (get "PMP_Mediano_Dinamico" y0))
         (get "qtd_itens_comprados" y0) ∧
  get "Desvio_%_Oportunidade" r
  = np_where (gt0 (get "PMP_Mediano_Dinamico" y0))
      (cdiv (csub (get "preco_unitario" y0) (get "PMP_Mediano_Dinamico" y0))
            (get "PMP_Mediano_Dinamico" y0)) (Num 0) ∧
  ∀ c, c ∈ ["id_pedido"; "id_produto"; "id_instituicao"; "id_fabricante";
            "id_fornecedor"; "id_tempo"]%string → get c r = get c y0.
Proof.
  cbv zeta. unfold radar_of.
  set (y1 := <["Economia_por_Linha" := _]> y0).
  set (y2 := <["Desvio_%_Oportunidade" := _]> y1).
  set (X := select_row radar_cols y2).
  assert (HX : ∀ c, c ∈ radar_cols → X !! c = Some (get c y2)).
  { intros c Hc. unfold X. rewrite lookup_select_row. by rewrite decide_True. }
  set (X1 := rename_in_row "preco_unitario" "PMP_Pago_Linha" X).
  assert (H1 : ∀ c, c ≠ "preco_unitario"%string → c ≠ "PMP_Pago_Linha"%string →
                 X1 !! c = X !! c).
  { intros c Hc Hc'. by apply lookup_rename_other. }
  assert (Hy1 : ∀ c, c ≠ "Economia_por_Linha"%string → c ≠ "Desvio_%_Oportunidade"%string →
                  get c y2 = get c y0).
  { intros c Hc Hc'. unfold y2, y1. by rewrite !get_insert_ne. }
  split; [|split; [|split; [|split]]].
  - rewrite get_rename_other by discriminate. unfold X1.
    rewrite (get_rename_new _ _ X (get "preco_unitario" y2)) by (apply HX; elem_by_eval).
    by apply Hy1.
  - rewrite (get_rename_new _ _ X1 (get "PMP_Mediano_Dinamico" y2)).
    + by apply Hy1.
    + rewrite H1 by discriminate. apply HX. elem_by_eval.
  - rewrite get_rename_other by discriminate. unfold get at 1.
    rewrite H1, HX by (discriminate || elem_by_eval). simpl. unfold y2, y1. by get_simpl.
  - rewrite get_rename_other by discriminate. unfold get at 1.
    rewrite H1, HX by (discriminate || elem_by_eval). simpl. unfold y2, y1. by get_simpl.
  - intros c Hc. rewrite !elem_of_cons, elem_of_nil in Hc.
    destruct Hc as [->|[->|[->|[->|[->|[->|[]]]]]]];
      rewrite get_rename_other by discriminate; unfold get at 1;
      rewrite H1, HX by (discriminate || elem_by_eval); simpl; by apply Hy1.
Qed.

Lemma benchmark_group rs s :
  (if notna_key (key_of contexto_benchmark s)
   then median (nums "preco_unitario"
                  (group contexto_benchmark (key_of contexto_benchmark s)
                     (filter (λ r, linha_valida r = true) rs)))
   else NaN)
  = benchmark rs s.
Proof.
  unfold benchmark, key_of, contexto_benchmark. simpl notna_key.
  rewrite andb_true_r, andb_assoc.
  destruct (_ && _); [|done]. f_equal. f_equal. unfold group.
  rewrite list_filter_filter. apply list_filter_iff. intros t. unfold mesmo_contexto. simpl.
  rewrite andb_true_r, andb_assoc. tauto.
Qed.

Lemma has_cols_elem cs df : has_cols cs df = true ↔ ∀ c, c ∈ cs → c ∈ columns df.
Proof.
  unfold has_cols. rewrite forallb_forall. split.
  - intros H c Hc. apply has_col_elem, H. by apply list_elem_of_In.
  - intros H c Hc. apply has_col_elem, H. by apply list_elem_of_In.
Qed.

(** C8.  Every row that [gerar_mini_fato_radar_enriquecida] emits comes,
    in order, from a line of the fact table whose total price and
    quantity are strictly positive (one row for every such line when the
    required columns are present); it carries the keys and the unit price
    of that line, as benchmark the median unit price of the valid lines
    of the line's (product, institution, time period) group, Economia_
    por_Linha = (unit price - benchmark) * quantity, and
    Desvio_%_Oportunidade = (unit price - benchmark) / benchmark when the
    benchmark is strictly positive and 0 otherwise.  A line with a
    missing key is in no group: its benchmark and economy are missing,
    its deviation is 0. *)
Theorem radar_linhas df out :
  gerar_mini_fato_radar_enriquecida df = Ok out →
  let validas := filter (λ r, linha_valida r = true) (rows df) in
  (has_cols required_cols df = true → length (rows out) = length validas) ∧
  ∀ i r, rows out !! i = Some r →
    ∃ s, validas !! i = Some s ∧
      gt0 (get "preco_total" s) = true ∧
      gt0 (get "qtd_itens_comprados" s) = true ∧
      (∀ c, c ∈ ["id_pedido"; "id_produto"; "id_instituicao"; "id_fabricante";
                 "id_fornecedor"; "id_tempo"]%string → get c r = get c s) ∧
      get "PMP_Pago_Linha" r = get "preco_unitario" s ∧
      get "PMP_Benchmark_Referencia" r = benchmark (rows df) s ∧
      get "Economia_por_Linha" r
      = cmul (csub (get "preco_unitario" s) (benchmark (rows df) s))
             (get "qtd_itens_comprados" s) ∧
      get "Desvio_%_Oportunidade" r
      = (if gt0 (benchmark (rows df) s)
         then cdiv (csub (get "preco_unitario" s) (benchmark (rows df) s))
                   (benchmark (rows df) s)
         else Num 0).
Proof.
  intros Hok validas. unfold gerar_mini_fato_radar_enriquecida in Hok.
  destruct (has_cols required_cols df) eqn:Hreq; simpl in Hok.
  2:{ injection Hok as <-. split; [done|]. intros i r Hr. change (rows empty_frame) with (@nil Row) in Hr.
    by rewrite lookup_nil in Hr. }
  destruct (df_empty (df_limpo df)) eqn:Hemp.
  { injection Hok as <-. split.
    - intros _. unfold df_empty, df_limpo in Hemp. simpl in Hemp.
      destruct (columns df) eqn:Ec.
      + apply has_cols_elem with (c := "id_produto"%string) in Hreq; [|elem_by_eval].
        rewrite Ec in Hreq. by apply elem_of_nil in Hreq.
      + fold validas in Hemp. by destruct validas.
    - intros i r Hr. change (rows empty_frame) with (@nil Row) in Hr.
    by rewrite lookup_nil in Hr. }
  set (limpo := df_limpo df) in *.
  set (B := df_benchmark limpo) in *.
  set (m := merge_left contexto_benchmark limpo B) in *.
  destruct (require ["PMP_Mediano_Dinamico"%string] m) eqn:Hrq; simpl in Hok; [|done].
  injection Hok as <-.
  assert (Hno : "PMP_Mediano_Dinamico"%string ∉ columns limpo).
  { intros Hin. unfold require, missing_col in Hrq.
    rewrite filter_cons_True in Hrq; [done|].
    apply not_true_iff_false. rewrite has_col_elem.
    apply merge_left_overlap_lost.
    - apply overlap_elem. split; [split; [done|]|]; [|elem_by_eval].
      intros H. apply (bool_decide_pack _) in H. vm_compute in H. done.
    - intros c Hc. apply overlap_elem in Hc as [[_ Hk] Hc].
      change (columns B) with (contexto_benchmark ++ ["PMP_Mediano_Dinamico"%string]) in Hc.
      apply elem_of_app in Hc as [Hc|Hc]; [done|].
      apply list_elem_of_singleton in Hc as ->. split; discriminate. }
  assert (Hov : overlap contexto_benchmark limpo B = []).
  { apply overlap_nil. intros c Hc.
    change (columns B) with (contexto_benchmark ++ ["PMP_Mediano_Dinamico"%string]) in Hc.
    apply elem_of_app in Hc as [Hc|Hc]; [by left|].
    apply list_elem_of_singleton in Hc as ->. by right. }
  assert (HB : distinct_keys contexto_benchmark (rows B)).
  { apply groupby_agg_distinct.
    - apply (bool_decide_unpack _). vm_compute. exact I.
    - intros c Hc Hin. simpl in Hin. apply list_elem_of_singleton in Hin as ->.
      apply (bool_decide_pack _) in Hc. vm_compute in Hc. done. }
  assert (Hm : rows m = (λ r, merge_row contexto_benchmark [] (columns B) r
                                (lookup_row contexto_benchmark r (rows B))) <$> validas).
  { unfold m. rewrite merge_left_rows by done. by rewrite Hov. }
  assert (Hrows : rows (rename_col "PMP_Mediano_Dinamico" "PMP_Benchmark_Referencia"
                          (rename_col "preco_unitario" "PMP_Pago_Linha"
                             (select_cols radar_cols
                                (set_col "Desvio_%_Oportunidade"
                                   (λ r, np_where (gt0 (get "PMP_Mediano_Dinamico" r))
                                           (cdiv (csub (get "preco_unitario" r)
                                                       (get "PMP_Mediano_Dinamico" r))
                                                 (get "PMP_Mediano_Dinamico" r)) (Num 0))
                                   (set_col "Economia_por_Linha"
                                      (λ r, cmul (csub (get "preco_unitario" r)
                                                       (get "PMP_Mediano_Dinamico" r))
                                                 (get "qtd_itens_comprados" r)) m)))))
                  = (λ s, radar_of (merge_row contexto_benchmark [] (columns B) s
                                      (lookup_row contexto_benchmark s (rows B))))
                      <$> validas).
  { unfold rename_col, select_cols. cbn [rows]. rewrite !set_col_rows, Hm.
    rewrite <- !list_fmap_compose. done. }
  rewrite Hrows. split; [intros _; by rewrite length_fmap|].
  intros i r Hr. rewrite list_lookup_fmap in Hr.
  apply fmap_Some in Hr as (s & Hs & ->).
  exists s. split; [done|].
  assert (Hsv : s ∈ validas) by by eapply list_elem_of_lookup_2.
  pose proof Hsv as Hsv'. apply list_elem_of_filter in Hsv' as [Hval _].
  unfold linha_valida in Hval. apply andb_true_iff in Hval as [Hv1 Hv2].
  split; [done|]. split; [done|].
  set (y0 := merge_row contexto_benchmark [] (columns B) s
               (lookup_row contexto_benchmark s (rows B))).
  assert (Hold : ∀ c, c ∉ columns B ∨ c ∈ contexto_benchmark → get c y0 = get c s).
  { intros c Hc. unfold get, y0. by rewrite merge_row_old. }
  assert (Hb : get "PMP_Mediano_Dinamico" y0 = benchmark (rows df) s).
  { unfold y0. rewrite merge_row_new; [|elem_by_eval|].
    2:{ intros H. apply (bool_decide_pack _) in H. vm_compute in H. done. }
    rewrite <- benchmark_group. fold validas.
    rewrite <- (list_fmap_id (rows B)).
    apply (lookup_row_agg_get contexto_benchmark _ limpo id s (get "PMP_Mediano_Dinamico")
             (λ g, median (nums "preco_unitario" g))); try done.
    - apply (bool_decide_unpack _). vm_compute. exact I.
    - intros c Hc Hin. simpl in Hin. apply list_elem_of_singleton in Hin as ->.
      apply (bool_decide_pack _) in Hc. vm_compute in Hc. done.
    - intros k Hk. apply get_agg_row_head. }
  assert (Hnot : ∀ c, c ∈ ["id_pedido"; "id_produto"; "id_instituicao"; "id_fabricante";
                           "id_fornecedor"; "id_tempo"; "preco_unitario";
                           "qtd_itens_comprados"]%string → get c y0 = get c s).
  { intros c Hc. apply Hold.
    change (columns B) with (contexto_benchmark ++ ["PMP_Mediano_Dinamico"%string]).
    rewrite !elem_of_cons, elem_of_nil in Hc.
    destruct Hc as [->|[->|[->|[->|[->|[->|[->|[->|[]]]]]]]]];
      first [right; elem_by_eval
            | left; intros H; apply (bool_decide_pack _) in H; vm_compute in H; done]. }
  destruct (radar_of_gets y0) as (G1 & G2 & G3 & G4 & G5). cbv zeta in G1, G2, G3, G4, G5.
  rewrite G1, G2, G3, G4. unfold np_where.
  rewrite Hb, !Hnot by elem_by_eval.
  split; [|repeat split; reflexivity].
  intros c Hc. rewrite G5 by done. apply Hnot.
  rewrite !elem_of_cons, elem_of_nil in Hc. rewrite !elem_of_cons. tauto.
Qed.

Lemma radar_linhas_witness :
  ∃ out,
    gerar_mini_fato_radar_enriquecida fato_radar = Ok out ∧
    length (rows out) = length (filter (λ r, linha_valida r = true) (rows fato_radar)).
Proof.
  assert (H : ∃ out, gerar_mini_fato_radar_enriquecida fato_radar = Ok out)
    by (eexists; vm_compute; reflexivity).
  destruct H as [out H]. exists out. split; [exact H|].
  apply (radar_linhas fato_radar out H). vm_compute. reflexivity.
Defined.

(** The lines of the example: the free line is left out; the benchmark of
    the group of prices 10 and 30 is 20; the line without time key has no
    benchmark. *)
Example radar_do_exemplo :
  on_ok (gerar_mini_fato_radar_enriquecida fato_radar) (λ out,
    col "id_pedido" out = [Str "a"; Str "b"; Str "d"] ∧
    key_eqb (col "PMP_Benchmark_Referencia" out) [Num 20; Num 20; NaN] = true ∧
    key_eqb (col "Economia_por_Linha" out) [Num (-20); Num 10; NaN] = true ∧
    key_eqb (col "Desvio_%_Oportunidade" out) [Num (-1 # 2); Num (1 # 2); Num 0] = true).
Proof. vm_compute. done. Qed.

(** ** Rounding stays between integers *)

Lemma rint_bounds y (s : Z) : 0 <= y → y <= inject_Z s → (0 ≤ rint y ≤ s)%Z.
Proof.
  intros H0 Hs. unfold rint.
  assert (Hf0 : (0 ≤ Qfloor y)%Z).
  { change 0%Z with (Qfloor 0). by apply Qfloor_resp_le. }
  assert (Hfs : (Qfloor y ≤ s)%Z).
  { rewrite <- (Qfloor_Z s). by apply Qfloor_resp_le. }
  destruct (Qltb (y - inject_Z (Qfloor y)) (1 # 2)) eqn:E1; [lia|].
  assert (Hlt : (Qfloor y < s)%Z).
  { destruct (decide (Qfloor y = s)) as [Heq|]; [|lia]. exfalso.
    assert (E : Qltb (y - inject_Z (Qfloor y)) (1 # 2) = true); [|congruence].
    apply Qltb_lt. pose proof (Qfloor_le y) as Hle. rewrite Heq in *. lra. }
  destruct (Qltb (1 # 2) (y - inject_Z (Qfloor y))); [lia|].
  destruct (Z.even (Qfloor y)); lia.
Qed.

Lemma round_dec_unit d q : 0 <= q <= 1 → 0 <= round_dec d q <= 1.
Proof.
  intros [H0 H1]. unfold round_dec.
  set (s := scale d).
  assert (Hs : 0 < inject_Z (Z.pos s)) by (by unfold Qlt).
  destruct (rint_bounds (q * inject_Z (Z.pos s)) (Z.pos s)) as [Ha Hb].
  - apply Qmult_le_0_compat; lra.
  - nra.
  - unfold Qle. simpl. lia.
Qed.

Lemma cround_unit d c : unit_interval c → unit_interval (cround d c).
Proof. destruct c; simpl; try done. apply round_dec_unit. Qed.

(** ** The greatest and the least value of a numeric column *)

Lemma col_max_spec cs :
  Forall numeric cs →
  numeric (col_max cs) ∧ ∀ q, Num q ∈ cs → ∃ M, col_max cs = Num M ∧ q <= M.
Proof.
  induction cs as [|c cs IH]; intros Hn.
  - split; [done|]. intros q Hq. by apply elem_of_nil in Hq.
  - apply Forall_cons in Hn as [Hc Hn]. destruct (IH Hn) as [IH1 IH2]. clear IH.
    unfold col_max in *. simpl. set (acc := foldr _ NaN cs) in *.
    destruct acc as [|M| |] eqn:Eacc; simpl in *; try done.
    + split; [done|]. intros q Hq. apply elem_of_cons in Hq as [<-|Hq].
      * exists q. split; [done|]. apply Qle_refl.
      * destruct (IH2 q Hq) as (M & HM & _). done.
    + destruct c as [|x| |]; simpl in *; try done.
      * split; [done|]. intros q Hq. apply elem_of_cons in Hq as [Hq|Hq]; [done|].
        by apply IH2.
      * destruct (Qle_bool M x) eqn:E.
        -- apply Qle_bool_iff in E. split; [done|]. intros q Hq.
           apply elem_of_cons in Hq as [Hq|Hq].
           ++ injection Hq as ->. exists x. split; [done|]. apply Qle_refl.
           ++ destruct (IH2 q Hq) as (M' & [= <-] & Hle). exists x. split; [done|].
              by eapply Qle_trans.
        -- assert (Hlt : x < M).
           { apply Qnot_le_lt. intros Hle. apply Qle_bool_iff in Hle. congruence. }
           split; [done|]. intros q Hq. apply elem_of_cons in Hq as [Hq|Hq].
           ++ injection Hq as ->. exists M. split; [done|]. by apply Qlt_le_weak.
           ++ by apply IH2.
Qed.

Lemma col_min_spec cs :
  Forall numeric cs →
  numeric (col_min cs) ∧ ∀ q, Num q ∈ cs → ∃ m, col_min cs = Num m ∧ m <= q.
Proof.
  induction cs as [|c cs IH]; intros Hn.
  - split; [done|]. intros q Hq. by apply elem_of_nil in Hq.
  - apply Forall_cons in Hn as [Hc Hn]. destruct (IH Hn) as [IH1 IH2]. clear IH.
    unfold col_min in *. simpl. set (acc := foldr _ NaN cs) in *.
    destruct acc as [|M| |] eqn:Eacc; simpl in *; try done.
    + split; [done|]. intros q Hq. apply elem_of_cons in Hq as [<-|Hq].
      * exists q. split; [done|]. apply Qle_refl.
      * destruct (IH2 q Hq) as (M & HM & _). done.
    + destruct c as [|x| |]; simpl in *; try done.
      * split; [done|]. intros q Hq. apply elem_of_cons in Hq as [Hq|Hq]; [done|].
        by apply IH2.
      * destruct (Qle_bool x M) eqn:E.
        -- apply Qle_bool_iff in E. split; [done|]. intros q Hq.
           apply elem_of_cons in Hq as [Hq|Hq].
           ++ injection Hq as ->. exists x. split; [done|]. apply Qle_refl.
           ++ destruct (IH2 q Hq) as (M' & [= <-] & Hle). exists x. split; [done|].
              by eapply Qle_trans.
        -- assert (Hlt : M < x).
           { apply Qnot_le_lt. intros Hle. apply Qle_bool_iff in Hle. congruence. }
           split; [done|]. intros q Hq. apply elem_of_cons in Hq as [Hq|Hq].
           ++ injection Hq as ->. exists M. split; [done|]. by apply Qlt_le_weak.
           ++ by apply IH2.
Qed.

(** ** Min-max scaling *)

Lemma min_max_rows c c' df :
  rows (min_max c c' df)
  = (λ r, <[c' := min_max_spec (col_max (col c df)) (col_min (col c df)) (get c r)]> r)
      <$> rows df.
Proof.
  unfold min_max, min_max_spec, col. destruct (gt0 _); done.
Qed.

(** A scaled value is between 0 and 1, or missing when the value is. *)
Lemma min_max_spec_unit cs x :
  Forall numeric cs → x ∈ cs →
  (x = NaN ∧ (min_max_spec (col_max cs) (col_min cs) x = NaN
              ∨ min_max_spec (col_max cs) (col_min cs) x = Num 0))
  ∨ (x ≠ NaN ∧ unit_interval (min_max_spec (col_max cs) (col_min cs) x)).
Proof.
  intros Hn Hx. destruct (col_max_spec cs Hn) as [_ Hmax].
  destruct (col_min_spec cs Hn) as [_ Hmin].
  assert (Hnx : numeric x) by (rewrite Forall_forall in Hn; by apply Hn).
  unfold min_max_spec. destruct x as [|q| |]; try done.
  - left. split; [done|]. destruct (gt0 _); [left|by right].
    by destruct (col_max cs), (col_min cs).
  - right. split; [done|].
    destruct (Hmax q Hx) as (M & -> & HM). destruct (Hmin q Hx) as (m & -> & Hm).
    simpl. destruct (Qltb 0 (M - m)) eqn:E; [|simpl; lra].
    apply Qltb_lt in E. simpl.
    destruct (Qeq_bool (M - m) 0) eqn:E0.
    { apply Qeq_bool_eq in E0. lra. }
    simpl. split.
    + apply Qle_shift_div_l; lra.
    + apply Qle_shift_div_r; lra.
Qed.

(** ** The prioritization index *)

Lemma prior_agg_rows df :
  rows (prior_agg df)
  = agg_row ["id_produto"]%string
      [("risco_medio"%string, fun g => mean (Qabs <$> nums "score_z_risco" g));
       ("demanda_valor"%string, fun g => agg_sum (nums "preco_total" g))] (rows df)
      <$> groupby_keys ["id_produto"]%string (rows df).
Proof. done. Qed.

Lemma prior_agg_numeric df a :
  a ∈ rows (prior_agg df) →
  numeric (get "risco_medio" a) ∧ ∃ d, get "demanda_valor" a = Num d.
Proof.
  rewrite prior_agg_rows. intros (k & -> & Hk)%list_elem_of_fmap. split.
  - rewrite get_agg_row_head. unfold mean. by destruct (Qabs <$> _).
  - rewrite get_agg_row_tail by discriminate. rewrite get_agg_row_head. by eexists.
Qed.

Lemma prior_normalizado_rows df :
  rows (prior_normalizado df) = norm_row (prior_agg df) <$> rows (prior_agg df).
Proof.
  unfold prior_normalizado. rewrite !min_max_rows, <- list_fmap_compose.
  assert (E : col "demanda_valor" (min_max "risco_medio" "risco_normalizado" (prior_agg df))
              = col "demanda_valor" (prior_agg df)).
  { unfold col. rewrite min_max_rows, <- list_fmap_compose. apply list_fmap_ext.
    intros i a _. simpl. by get_simpl. }
  rewrite E. apply list_fmap_ext. intros i a _. simpl. unfold norm_row. by get_simpl.
Qed.

Lemma df_prioridade_rows round4 df :
  rows (df_prioridade round4 df) = prior_row round4 <$> rows (prior_normalizado df).
Proof.
  unfold df_prioridade, select_cols. cbn [rows]. rewrite set_col_rows, <- list_fmap_compose.
  done.
Qed.

Lemma prior_row_gets round4 p :
  get "id_produto" (prior_row round4 p) = get "id_produto" p ∧
  get "indice_priorizacao" (prior_row round4 p) = indice_spec round4 p ∧
  get "demanda_valor" (prior_row round4 p) = get "demanda_valor" p.
Proof.
  unfold prior_row. rewrite !get_select_row by elem_by_eval. by get_simpl.
Qed.

Lemma norm_row_gets A a :
  get "id_produto" (norm_row A a) = get "id_produto" a ∧
  get "demanda_valor" (norm_row A a) = get "demanda_valor" a ∧
  get "risco_medio" (norm_row A a) = get "risco_medio" a.
Proof. unfold norm_row. by get_simpl. Qed.

Lemma lookup_row_elem ks r right s : lookup_row ks r right = Some s → s ∈ right.
Proof.
  unfold lookup_row. intros H. apply head_Some_elem_of in H.
  by apply list_elem_of_filter in H as [_ H].
Qed.

Lemma df_prioridade_distinct round4 df :
  distinct_keys ["id_produto"]%string (rows (df_prioridade round4 df)).
Proof.
  rewrite df_prioridade_rows, prior_normalizado_rows, <- list_fmap_compose.
  apply distinct_keys_post.
  - intros a. unfold key_of, compose. simpl.
    destruct (prior_row_gets round4 (norm_row (prior_agg df) a)) as [-> _].
    by destruct (norm_row_gets (prior_agg df) a) as [-> _].
  - apply groupby_agg_distinct.
    + apply (bool_decide_unpack _). vm_compute. exact I.
    + intros c Hc Hin. apply list_elem_of_singleton in Hc as ->.
      apply (bool_decide_pack _) in Hin. vm_compute in Hin. done.
Qed.

(** ** The row of the greatest value *)

Lemma first_max_some c rs : rs ≠ [] → is_Some (first_max c rs).
Proof.
  destruct rs as [|r rs]; [done|]. intros _. simpl.
  destruct (first_max c rs); [|done]. by destruct (cell_leb _ _).
Qed.

Lemma first_max_spec c rs m :
  (∀ r, r ∈ rs → ∃ q, get c r = Num q) →
  first_max c rs = Some m →
  m ∈ rs ∧ ∀ r, r ∈ rs → cell_leb (get c r) (get c m) = true.
Proof.
  revert m. induction rs as [|r0 rs IH]; intros m Hn Hm; [done|]. simpl in Hm.
  assert (Hn' : ∀ r, r ∈ rs → ∃ q, get c r = Num q) by (intros r Hr; apply Hn; by right).
  destruct (first_max c rs) as [m'|] eqn:E.
  - destruct (IH m' Hn' eq_refl) as [Hin Hle].
    destruct (cell_leb (get c m') (get c r0)) eqn:E0; injection Hm as <-.
    + split; [by left|]. intros r Hr. apply elem_of_cons in Hr as [->|Hr].
      * destruct (Hn r0) as [q ->]; [by left|]. simpl. apply Qle_bool_iff, Qle_refl.
      * eapply cell_leb_trans; [by apply Hle|done].
    + split; [by right|]. intros r Hr. apply elem_of_cons in Hr as [->|Hr].
      * by apply cell_leb_total.
      * by apply Hle.
  - injection Hm as <-. destruct rs as [|r1 rs]; [|simpl in E; by destruct (first_max c rs);
      [destruct (cell_leb _ _)|]].
    split; [by left|]. intros r Hr. apply list_elem_of_singleton in Hr as ->.
    destruct (Hn r0) as [q ->]; [by left|]. simpl. apply Qle_bool_iff, Qle_refl.
Qed.

(** ** More on frames of different keys *)

Lemma lookup_row_in ks r right s :
  distinct_keys ks right → s ∈ right →
  key_eqb (key_of ks r) (key_of ks s) = true →
  lookup_row ks r right = Some s.
Proof.
  intros Hd Hs Hk.
  assert (H : s ∈ filter (λ s, key_eqb (key_of ks r) (key_of ks s) = true) right)
    by by apply list_elem_of_filter.
  rewrite matches_le1 in H by done.
  destruct (lookup_row ks r right); simpl in H.
  - by apply list_elem_of_singleton in H as ->.
  - by apply elem_of_nil in H.
Qed.

Lemma lookup_row_none ks r right :
  (∀ s, s ∈ right → key_eqb (key_of ks r) (key_of ks s) = false) →
  lookup_row ks r right = None.
Proof.
  intros H. unfold lookup_row. rewrite filter_none; [done|].
  intros s Hs. rewrite H by done. done.
Qed.

Lemma distinct_keys_omap ks (f : list cell → option Row) keys :
  distinct_by key_eqb keys →
  (∀ k x, f k = Some x → key_eqb (key_of ks x) k = true) →
  distinct_keys ks (omap f keys).
Proof.
  intros Hd Hf. unfold distinct_keys. induction keys as [|k keys IH]; [done|].
  destruct Hd as [Hk Hd]. simpl. destruct (f k) as [x|] eqn:E; [|by apply IH].
  split; [|by apply IH]. intros y Hy.
  change (list_omap _ _ f keys) with (omap f keys) in Hy.
  apply list_elem_of_omap in Hy as (k' & Hk' & Ey).
  unfold same_on. destruct (key_eqb (key_of ks x) (key_of ks y)) eqn:Exy; [|done].
  rewrite <- (Hk k' Hk'). symmetry. eapply key_eqb_trans; [|by apply (Hf k' y)].
  eapply key_eqb_trans; [|done]. rewrite key_eqb_sym. by apply Hf.
Qed.

(** ** Sums of non-negative numbers *)

Lemma Qsum_nonneg xs : (∀ x, x ∈ xs → 0 <= x) → 0 <= Qsum xs.
Proof.
  induction xs as [|x xs IH]; intros H; [apply Qle_refl|].
  change (Qsum (x :: xs)) with (x + Qsum xs).
  assert (0 <= x) by (apply H; by left).
  assert (0 <= Qsum xs) by (apply IH; intros y Hy; apply H; by right). lra.
Qed.

(** The sum over a part of the rows is at most the sum over all of them. *)
Lemma Qsum_filter_le c (P1 P2 : Row → Prop) `{!∀ x, Decision (P1 x)} `{!∀ x, Decision (P2 x)}
    (rs : list Row) :
  (∀ r, P2 r → P1 r) →
  (∀ x, x ∈ nums c (filter P1 rs) → 0 <= x) →
  Qsum (nums c (filter P2 rs)) <= Qsum (nums c (filter P1 rs)).
Proof.
  intros Hsub. induction rs as [|r rs IH]; intros Hpos; [apply Qle_refl|].
  rewrite !filter_cons in *.
  destruct (decide (P1 r)) as [H1|H1].
  - assert (Hrs : Qsum (nums c (filter P2 rs)) <= Qsum (nums c (filter P1 rs))).
    { apply IH. intros x Hx. apply Hpos. unfold nums in *. simpl.
      destruct (num (get c r)); [by right|done]. }
    assert (Hx : ∀ q, num (get c r) = Some q → 0 <= q).
    { intros q Hq. apply Hpos. unfold nums. simpl. rewrite Hq. by left. }
    assert (Hrs0 : 0 <= Qsum (nums c (filter P1 rs))).
    { apply Qsum_nonneg. intros x Hx'. apply Hpos. unfold nums in *. simpl.
      destruct (num (get c r)); [by right|done]. }
    assert (Hc1 : ∀ l, nums c (r :: l)
                       = match num (get c r) with Some q => q :: nums c l | None => nums c l end).
    { intros l. unfold nums. simpl. by destruct (num (get c r)). }
    destruct (decide (P2 r)); rewrite ?Hc1; destruct (num (get c r)) as [q|] eqn:Eq;
      try done; change (Qsum (q :: ?l)) with (q + Qsum l); specialize (Hx q eq_refl); lra.
  - rewrite decide_False by (intros H2; by apply H1, Hsub). by apply IH.
Qed.

(** ** The supplier concentration *)

Lemma first_max_elem c rs m : first_max c rs = Some m → m ∈ rs.
Proof.
  revert m. induction rs as [|r rs IH]; intros m Hm; [done|]. simpl in Hm.
  destruct (first_max c rs) as [m'|].
  - destruct (cell_leb _ _); injection Hm as <-; [by left|]. right. by apply IH.
  - injection Hm as <-. by left.
Qed.

Lemma key_eqb_singleton a b : key_eqb [a] [b] = cell_eqb a b.
Proof. simpl. apply andb_true_r. Qed.

Lemma group_produto rs r :
  group ["id_produto"]%string (key_of ["id_produto"]%string r) rs
  = filter (λ t, mesmo_produto t r = true) rs.
Proof.
  unfold group. apply list_filter_iff. intros t. unfold key_of, mesmo_produto. simpl.
  by rewrite andb_true_r.
Qed.

Lemma group_fornecedor rs s :
  group ["id_produto"; "id_fornecedor"]%string
    (key_of ["id_produto"; "id_fornecedor"]%string s) rs
  = filter (λ t, mesmo_produto t s = true ∧ mesmo_fornecedor t s = true) rs.
Proof.
  unfold group. apply list_filter_iff. intros t.
  unfold key_of, mesmo_produto, mesmo_fornecedor. simpl.
  by rewrite andb_true_r, andb_true_iff.
Qed.

Section Concentracao.
Variable df : DataFrame.
Local Abbreviation rs := (rows df).
Local Abbreviation G := (gasto_por_fornecedor df).
Local Abbreviation T := (gasto_total_produto df).

Lemma G_row g :
  g ∈ rows G →
  ∃ s, s ∈ rs ∧ notna_key (key_of ["id_produto"; "id_fornecedor"]%string s) = true ∧
       key_of ["id_produto"; "id_fornecedor"]%string g
       = key_of ["id_produto"; "id_fornecedor"]%string s ∧
       g !! gasto_col = Some (Num (gasto_fornecedor rs s)).
Proof.
  unfold gasto_por_fornecedor, groupby_agg. cbn [rows].
  intros (k & -> & Hk)%list_elem_of_fmap.
  pose proof (groupby_keys_length _ _ _ Hk) as Hlen.
  apply groupby_keys_elem in Hk as (Hn & s & Hs & ->).
  exists s. split; [done|]. split; [done|]. split.
  - apply key_of_agg_row; [|done|].
    + apply (bool_decide_unpack _). vm_compute. exact I.
    + intros c Hc Hin. apply list_elem_of_singleton in Hin as ->.
      apply (bool_decide_pack _) in Hc. vm_compute in Hc. done.
  - unfold agg_row. cbn [foldr fst snd]. rewrite lookup_insert_eq, group_fornecedor.
    reflexivity.
Qed.

Lemma G_cover s :
  s ∈ rs → notna_key (key_of ["id_produto"; "id_fornecedor"]%string s) = true →
  ∃ g, g ∈ rows G ∧
       key_eqb (key_of ["id_produto"; "id_fornecedor"]%string g)
               (key_of ["id_produto"; "id_fornecedor"]%string s) = true ∧
       get gasto_col g = Num (gasto_fornecedor rs s).
Proof.
  intros Hs Hn. destruct (groupby_keys_cover _ rs s Hs Hn) as (k & Hk & Hks).
  exists (agg_row ["id_produto"; "id_fornecedor"]%string
            [(gasto_col, fun g => agg_sum (nums gasto_col g))] rs k).
  split; [|split].
  - unfold gasto_por_fornecedor, groupby_agg. cbn [rows]. by apply list_elem_of_fmap_2.
  - rewrite key_of_agg_row; [done| |by apply (groupby_keys_length _ rs)|].
    + apply (bool_decide_unpack _). vm_compute. exact I.
    + intros c Hc Hin. apply list_elem_of_singleton in Hin as ->.
      apply (bool_decide_pack _) in Hc. vm_compute in Hc. done.
  - rewrite get_agg_row_head. unfold agg_sum, gasto_fornecedor.
    by rewrite (group_key_eqb _ _ _ _ Hks), group_fornecedor.
Qed.

Lemma key2_key1 (g s : Row) :
  key_eqb (key_of ["id_produto"; "id_fornecedor"]%string g)
          (key_of ["id_produto"; "id_fornecedor"]%string s) = true →
  mesmo_produto g s = true ∧ mesmo_fornecedor g s = true.
Proof.
  unfold key_of, mesmo_produto, mesmo_fornecedor. simpl.
  rewrite andb_true_r, andb_true_iff. done.
Qed.

Lemma notna_key2 (s : Row) :
  notna_key (key_of ["id_produto"; "id_fornecedor"]%string s) = true
  ↔ notna (get "id_produto" s) = true ∧ notna (get "id_fornecedor" s) = true.
Proof. unfold key_of. simpl. by rewrite andb_true_r, andb_true_iff. Qed.

Lemma mesmo_produto_sym s t : mesmo_produto s t = mesmo_produto t s.
Proof. apply cell_eqb_sym. Qed.

Lemma mesmo_produto_trans s t u :
  mesmo_produto s t = true → mesmo_produto t u = true → mesmo_produto s u = true.
Proof. apply cell_eqb_trans. Qed.

(** The row that [idxmax] selects for a product that has a supplier. *)
Lemma principal_of r :
  notna (get "id_produto" r) = true →
  (∃ s0, s0 ∈ rs ∧ mesmo_produto s0 r = true ∧ notna (get "id_fornecedor" s0) = true) →
  ∃ m s,
    m ∈ rows (loc_idxmax G) ∧ mesmo_produto m r = true ∧
    m !! gasto_col = Some (Num (gasto_fornecedor rs s)) ∧
    s ∈ rs ∧ mesmo_produto s r = true ∧ notna (get "id_fornecedor" s) = true ∧
    ∀ s', s' ∈ rs → mesmo_produto s' r = true → notna (get "id_fornecedor" s') = true →
          gasto_fornecedor rs s' <= gasto_fornecedor rs s.
Proof.
  intros Hr (s0 & Hs0 & Hp0 & Hf0).
  assert (Hn0 : notna_key (key_of ["id_produto"; "id_fornecedor"]%string s0) = true).
  { apply notna_key2. split; [|done]. by rewrite (cell_eqb_notna _ _ Hp0). }
  destruct (G_cover s0 Hs0 Hn0) as (g0 & Hg0 & Hk0 & _).
  apply key2_key1 in Hk0 as [Hgp0 _].
  assert (Hng0 : notna_key (key_of ["id_produto"]%string g0) = true).
  { unfold key_of. simpl. rewrite andb_true_r.
    rewrite (cell_eqb_notna _ _ Hgp0), (cell_eqb_notna _ _ Hp0). done. }
  destruct (groupby_keys_cover ["id_produto"]%string (rows G) g0 Hg0 Hng0) as (k' & Hk' & Hkg0).
  set (grp := group ["id_produto"]%string k' (rows G)).
  assert (Hg0grp : g0 ∈ grp).
  { apply list_elem_of_filter. split; [|done]. by rewrite key_eqb_sym. }
  destruct (first_max_some gasto_col grp) as [m Hm]; [by intros H; rewrite H in Hg0grp;
    apply elem_of_nil in Hg0grp|].
  assert (Hnum : ∀ g, g ∈ grp → ∃ q, get gasto_col g = Num q).
  { intros g Hg. apply list_elem_of_filter in Hg as [_ Hg].
    destruct (G_row g Hg) as (s & _ & _ & _ & Hv). exists (gasto_fornecedor rs s).
    unfold get. by rewrite Hv. }
  destruct (first_max_spec gasto_col grp m Hnum Hm) as [Hmin Hmax].
  pose proof Hmin as Hmin'. apply list_elem_of_filter in Hmin' as [Hmk HmG].
  destruct (G_row m HmG) as (s & Hs & Hns & Hks & Hv).
  assert (Hk'r : key_eqb k' (key_of ["id_produto"]%string r) = true).
  { eapply key_eqb_trans; [done|]. unfold key_of. simpl. rewrite andb_true_r.
    by eapply cell_eqb_trans. }
  assert (Hmr : mesmo_produto m r = true).
  { unfold mesmo_produto. rewrite <- key_eqb_singleton.
    eapply key_eqb_trans; [exact Hmk|done]. }
  assert (Hsm : mesmo_produto s m = true).
  { unfold mesmo_produto. apply (f_equal (λ l, head l)) in Hks. simpl in Hks.
    injection Hks as ->. apply cell_eqb_refl. }
  exists m, s. split; [|split; [done|split; [done|split; [done|split; [|split]]]]].
  - unfold loc_idxmax. cbn [rows]. apply list_elem_of_omap. by exists k'.
  - by eapply mesmo_produto_trans.
  - by apply notna_key2 in Hns as [_ ?].
  - intros s' Hs' Hp' Hf'.
    assert (Hn' : notna_key (key_of ["id_produto"; "id_fornecedor"]%string s') = true).
    { apply notna_key2. split; [|done]. by rewrite (cell_eqb_notna _ _ Hp'). }
    destruct (G_cover s' Hs' Hn') as (g' & Hg' & Hkg' & Hv').
    apply key2_key1 in Hkg' as [Hgp' _].
    assert (Hin : g' ∈ grp).
    { apply list_elem_of_filter. split; [|done].
      eapply key_eqb_trans; [|by rewrite key_eqb_sym].
      unfold key_of. simpl. rewrite andb_true_r.
      by eapply cell_eqb_trans. }
    specialize (Hmax g' Hin). rewrite Hv' in Hmax. unfold get in Hmax. rewrite Hv in Hmax.
    simpl in Hmax. by apply Qle_bool_iff.
Qed.

(** No row of [fornecedor_principal] for a product whose lines have no
    supplier. *)
Lemma principal_none r m :
  (∀ s, s ∈ rs → mesmo_produto s r = true → notna (get "id_fornecedor" s) = false) →
  m ∈ rows (loc_idxmax G) → mesmo_produto m r = false.
Proof.
  intros Hnone Hm. unfold loc_idxmax in Hm. cbn [rows] in Hm.
  apply list_elem_of_omap in Hm as (k' & _ & Hm). apply first_max_elem in Hm.
  apply list_elem_of_filter in Hm as [_ HmG].
  destruct (G_row m HmG) as (s & Hs & Hns & Hks & _).
  apply notna_key2 in Hns as [_ Hf].
  destruct (mesmo_produto m r) eqn:E; [|done].
  rewrite Hnone in Hf; [done|done|].
  unfold mesmo_produto in *. apply (f_equal (λ l, head l)) in Hks. simpl in Hks.
  injection Hks as <-. done.
Qed.

Lemma loc_idxmax_distinct : distinct_keys ["id_produto"]%string (rows (loc_idxmax G)).
Proof.
  unfold loc_idxmax. cbn [rows]. apply distinct_keys_omap.
  - apply groupby_keys_distinct.
  - intros k x Hx. apply first_max_elem in Hx. by apply list_elem_of_filter in Hx as [Hx _].
Qed.

Lemma key_principal_row m :
  key_of ["id_produto"]%string (principal_row m) = key_of ["id_produto"]%string m.
Proof.
  apply key_of_ext. intros c Hc. apply list_elem_of_singleton in Hc as ->.
  unfold principal_row. rewrite get_select_row by elem_by_eval.
  apply get_rename_other; intros ?; discriminate.
Qed.

Lemma principal_rows :
  rows (select_cols ["id_produto"; "Gasto_Forn_Principal"]%string (fornecedor_principal df))
  = principal_row <$> rows (loc_idxmax G).
Proof.
  unfold select_cols, fornecedor_principal, rename_col. cbn [rows].
  by rewrite <- list_fmap_compose.
Qed.

Lemma principal_distinct :
  distinct_keys ["id_produto"]%string (principal_row <$> rows (loc_idxmax G)).
Proof.
  apply distinct_keys_post; [apply key_principal_row|apply loc_idxmax_distinct].
Qed.

Lemma df_concentracao_rows :
  rows (df_concentracao df)
  = concentracao_row (principal_row <$> rows (loc_idxmax G)) <$> rows T.
Proof.
  unfold df_concentracao. cbv zeta. rewrite set_col_rows, merge_left_rows.
  - rewrite overlap_nil.
    + rewrite <- list_fmap_compose, principal_rows. reflexivity.
    + cbn [columns select_cols]. intros c Hc.
      apply elem_of_cons in Hc as [->|Hc]; [left; elem_by_eval|].
      apply list_elem_of_singleton in Hc as ->. right.
      unfold gasto_total_produto, groupby_agg. cbn [columns]. simpl.
      rewrite !elem_of_cons, elem_of_nil. intros [?|[?|[]]]; discriminate.
  - rewrite principal_rows. apply principal_distinct.
Qed.

Lemma concentracao_row_id P t :
  concentracao_row P t !! "id_produto"%string = t !! "id_produto"%string.
Proof.
  unfold concentracao_row. cbv zeta. rewrite lookup_insert_ne by (intros ?; discriminate).
  apply merge_row_old. right. elem_by_eval.
Qed.

Lemma concentracao_row_ratio P t :
  get "%_Gasto_Unico_Forn" (concentracao_row P t)
  = np_where (gt0 (get "Gasto_Total_Produto_Global" t))
      (cdiv (from_option (get "Gasto_Forn_Principal") NaN (lookup_row ["id_produto"]%string t P))
            (get "Gasto_Total_Produto_Global" t))
      (Num 0).
Proof.
  unfold concentracao_row. cbv zeta. rewrite get_insert_eq.
  rewrite (merge_row_new _ _ _ _ "Gasto_Forn_Principal"); [|elem_by_eval|].
  - unfold get at 1 3. rewrite merge_row_old; [reflexivity|].
    left. rewrite !elem_of_cons, elem_of_nil. intros [?|[?|[]]]; discriminate.
  - rewrite !elem_of_cons, elem_of_nil. intros [?|[]]; discriminate.
Qed.

End Concentracao.

Lemma lookup_row_key ks (t r : Row) right :
  key_eqb (key_of ks t) (key_of ks r) = true →
  lookup_row ks t right = lookup_row ks r right.
Proof.
  intros H. unfold lookup_row. f_equal. apply list_filter_iff. intros s. split; intros Hs.
  - eapply key_eqb_trans; [|exact Hs]. by rewrite key_eqb_sym.
  - eapply key_eqb_trans; [exact H|exact Hs].
Qed.

Lemma key_produto_row P t :
  key_of ["id_produto"]%string (produto_row P t) = key_of ["id_produto"]%string t.
Proof.
  apply key_of_ext. intros c Hc. apply list_elem_of_singleton in Hc as ->.
  unfold produto_row. rewrite get_select_row by elem_by_eval.
  unfold get. by rewrite concentracao_row_id.
Qed.

Lemma concentracao_out_rows df :
  "%_Gasto_Unico_Forn"%string ∉ columns df →
  rows (merge_left ["id_produto"]%string df
          (select_cols ["id_produto"; "%_Gasto_Unico_Forn"]%string (df_concentracao df)))
  = (λ r, merge_row ["id_produto"]%string [] ["id_produto"; "%_Gasto_Unico_Forn"]%string r
            (lookup_row ["id_produto"]%string r
               (produto_row (principal_row <$> rows (loc_idxmax (gasto_por_fornecedor df)))
                  <$> rows (gasto_total_produto df)))) <$> rows df.
Proof.
  intros Hnew.
  assert (Hsel : rows (select_cols ["id_produto"; "%_Gasto_Unico_Forn"]%string (df_concentracao df))
                 = produto_row (principal_row <$> rows (loc_idxmax (gasto_por_fornecedor df)))
                     <$> rows (gasto_total_produto df)).
  { unfold select_cols. cbn [rows]. rewrite df_concentracao_rows, <- list_fmap_compose. done. }
  rewrite merge_left_rows.
  - rewrite overlap_nil.
    + by rewrite Hsel.
    + cbn [columns select_cols]. intros c Hc.
      apply elem_of_cons in Hc as [->|Hc]; [left; elem_by_eval|].
      apply list_elem_of_singleton in Hc as ->. by right.
  - rewrite Hsel. apply distinct_keys_post; [apply key_produto_row|].
    apply groupby_agg_distinct.
    + apply (bool_decide_unpack _). vm_compute. exact I.
    + intros c Hc Hin. apply list_elem_of_singleton in Hc as ->.
      apply (bool_decide_pack _) in Hin. vm_compute in Hin. done.
Qed.

(** The value that the last merge brings to the fact row [r]. *)
Lemma concentracao_valor df r :
  let P := principal_row <$> rows (loc_idxmax (gasto_por_fornecedor df)) in
  r ∈ rows df →
  from_option (get "%_Gasto_Unico_Forn") NaN
    (lookup_row ["id_produto"]%string r (produto_row P <$> rows (gasto_total_produto df)))
  = if notna (get "id_produto" r)
    then np_where (Qltb 0 (total_produto (rows df) r))
           (cdiv (from_option (get "Gasto_Forn_Principal") NaN
                    (lookup_row ["id_produto"]%string r P))
                 (Num (total_produto (rows df) r)))
           (Num 0)
    else NaN.
Proof.
  intros P Hr.
  pose proof (lookup_row_agg ["id_produto"]%string
                [("Gasto_Total_Produto_Global"%string, fun g => agg_sum (nums gasto_col g))]
                df (produto_row P) r) as H.
  assert (Hnd : NoDup ["id_produto"%string]) by (apply (bool_decide_unpack _); vm_compute; exact I).
  assert (Hag : ∀ c, c ∈ ["id_produto"%string] →
                     c ∉ [("Gasto_Total_Produto_Global"%string,
                           fun g => agg_sum (nums gasto_col g))].*1).
  { intros c Hc Hin. apply list_elem_of_singleton in Hc as ->.
    apply (bool_decide_pack _) in Hin. vm_compute in Hin. done. }
  specialize (H Hnd Hag (key_produto_row P) Hr).
  fold (gasto_total_produto df) in H.
  assert (Hna : notna_key (key_of ["id_produto"]%string r) = notna (get "id_produto" r)).
  { unfold key_of. simpl. apply andb_true_r. }
  rewrite Hna in H. destruct (notna (get "id_produto" r)).
  - destruct H as (k & Hk & Hkin & ->). cbn [from_option].
    unfold produto_row. rewrite get_select_row by elem_by_eval.
    rewrite concentracao_row_ratio, get_agg_row_head.
    rewrite <- (group_key_eqb _ _ _ _ Hk), group_produto.
    rewrite (lookup_row_key _ _ r).
    + reflexivity.
    + rewrite key_of_agg_row; [by rewrite key_eqb_sym|done|by apply (groupby_keys_length _ (rows df))|done].
  - by rewrite H.
Qed.

Lemma concentracao_ok df :
  has_cols concentracao_cols df = true →
  calcular_concentracao_fornecedor df
  = Ok (merge_left ["id_produto"]%string df
          (select_cols ["id_produto"; "%_Gasto_Unico_Forn"]%string (df_concentracao df))).
Proof.
  intros Hc. unfold calcular_concentracao_fornecedor.
  rewrite require_ok; [reflexivity|]. by apply has_cols_elem.
Qed.

Lemma nums_filter_nonneg c (P : Row → Prop) `{!∀ x, Decision (P x)} (rs : list Row) :
  (∀ t q, t ∈ rs → P t → get c t = Num q → 0 <= q) →
  ∀ x, x ∈ nums c (filter P rs) → 0 <= x.
Proof.
  intros Hall x Hx. unfold nums in Hx. apply list_elem_of_omap in Hx as (t & Ht & Hq).
  apply list_elem_of_filter in Ht as [HP Ht]. apply (Hall t x Ht HP).
  destruct (get c t); try discriminate. simpl in Hq. congruence.
Qed.

Lemma concentracao_spec_unit top total :
  0 <= top → top <= total → unit_interval (concentracao_spec top total).
Proof.
  intros H0 H1. unfold concentracao_spec. destruct (Qltb 0 total) eqn:E.
  - apply Qltb_lt in E. simpl. split.
    + apply Qle_shift_div_l; [done|]. by rewrite Qmult_0_l.
    + apply Qle_shift_div_r; [done|]. by rewrite Qmult_1_l.
  - simpl. split; [apply Qle_refl|done].
Qed.

Lemma cdiv_pos x y : Qltb 0 y = true → cdiv (Num x) (Num y) = Num (x / y).
Proof.
  intros H. apply Qltb_lt in H. simpl. destruct (Qeq_bool y 0) eqn:E; [|done].
  apply Qeq_bool_eq in E. rewrite E in H. by apply Qlt_irrefl in H.
Qed.

(** C5, amended.  On a table that has the columns id_produto, preco_total and
    id_fornecedor and no column %_Gasto_Unico_Forn yet,
    [calcular_concentracao_fornecedor] returns a table of the same rows in
    the same order, every other column unchanged.  For a row whose
    product is known and has a line with a known supplier, the new column
    is the greatest of the spends of the product with its suppliers
    divided by the total spend of the product when that total is strictly
    positive, and 0 otherwise; it lies in [0,1] when no line of the
    product has a negative total price; it is 1 when all the lines of the
    product have one and the same supplier and the total is strictly
    positive.  For a product none of whose lines has a supplier the value
    is missing when the total is strictly positive and 0 otherwise, and
    it is missing for a row without a product. *)
Theorem concentracao_fornecedor df :
  has_cols concentracao_cols df = true →
  "%_Gasto_Unico_Forn"%string ∉ columns df →
  ∃ out,
    calcular_concentracao_fornecedor df = Ok out ∧
    length (rows out) = length (rows df) ∧
    ∀ i r, rows df !! i = Some r →
      ∃ r', rows out !! i = Some r' ∧
        (∀ c, c ≠ "%_Gasto_Unico_Forn"%string → r' !! c = r !! c) ∧
        (notna (get "id_produto" r) = true →
         (∃ s0, s0 ∈ rows df ∧ mesmo_produto s0 r = true ∧
                notna (get "id_fornecedor" s0) = true) →
         ∃ s, s ∈ rows df ∧ mesmo_produto s r = true ∧
           notna (get "id_fornecedor" s) = true ∧
           (∀ s', s' ∈ rows df → mesmo_produto s' r = true →
                  notna (get "id_fornecedor" s') = true →
                  gasto_fornecedor (rows df) s' <= gasto_fornecedor (rows df) s) ∧
           get "%_Gasto_Unico_Forn" r'
           = concentracao_spec (gasto_fornecedor (rows df) s) (total_produto (rows df) r) ∧
           ((∀ t q, t ∈ rows df → mesmo_produto t r = true →
                    get "preco_total" t = Num q → 0 <= q) →
            unit_interval (get "%_Gasto_Unico_Forn" r')) ∧
           ((∀ t t', t ∈ rows df → t' ∈ rows df → mesmo_produto t r = true →
                     mesmo_produto t' r = true → mesmo_fornecedor t t' = true) →
            0 < total_produto (rows df) r →
            ∃ q, get "%_Gasto_Unico_Forn" r' = Num q ∧ q == 1)) ∧
        (notna (get "id_produto" r) = true →
         (∀ s, s ∈ rows df → mesmo_produto s r = true →
               notna (get "id_fornecedor" s) = false) →
         get "%_Gasto_Unico_Forn" r'
         = if Qltb 0 (total_produto (rows df) r) then NaN else Num 0) ∧
        (notna (get "id_produto" r) = false → get "%_Gasto_Unico_Forn" r' = NaN).
Proof.
  intros Hc Hnew. eexists. split; [by apply concentracao_ok|].
  rewrite concentracao_out_rows by done. split; [by rewrite length_fmap|].
  intros i r Hr. rewrite list_lookup_fmap, Hr. cbn [fmap option_fmap option_map].
  eexists. split; [reflexivity|].
  assert (Hin : r ∈ rows df) by (by eapply list_elem_of_lookup_2).
  set (P := principal_row <$> rows (loc_idxmax (gasto_por_fornecedor df))).
  assert (Hval := concentracao_valor df r Hin). cbv zeta in Hval. fold P in Hval.
  set (lk := lookup_row ["id_produto"]%string r
               (produto_row P <$> rows (gasto_total_produto df))) in *.
  assert (Hget : get "%_Gasto_Unico_Forn"
                   (merge_row ["id_produto"]%string [] ["id_produto"; "%_Gasto_Unico_Forn"]%string
                      r lk)
                 = from_option (get "%_Gasto_Unico_Forn") NaN lk).
  { apply merge_row_new; [elem_by_eval|].
    rewrite !elem_of_cons, elem_of_nil. intros [?|[]]; discriminate. }
  rewrite Hget, Hval. clear Hget Hval.
  split; [|split; [|split]].
  - intros c Hne. apply merge_row_old.
    destruct (decide (c = "id_produto"%string)) as [->|Hne']; [right; elem_by_eval|].
    left. rewrite !elem_of_cons, elem_of_nil. intros [?|[?|[]]]; done.
  - intros Hna Hsup. rewrite Hna.
    destruct (principal_of df r Hna Hsup) as (m & s & Hm & Hmr & Hv & Hs & Hsr & Hsf & Hmax).
    exists s. split; [done|]. split; [done|]. split; [done|]. split; [done|].
    assert (Hlk : lookup_row ["id_produto"]%string r P = Some (principal_row m)).
    { apply lookup_row_in.
      - apply principal_distinct.
      - by apply list_elem_of_fmap_2.
      - rewrite key_principal_row. unfold key_of. simpl. rewrite andb_true_r.
        by rewrite cell_eqb_sym. }
    rewrite Hlk. cbn [from_option].
    assert (Hp : get "Gasto_Forn_Principal" (principal_row m)
                 = Num (gasto_fornecedor (rows df) s)).
    { unfold principal_row. rewrite get_select_row by elem_by_eval.
      by apply get_rename_new. }
    rewrite Hp.
    assert (Heq : np_where (Qltb 0 (total_produto (rows df) r))
                    (cdiv (Num (gasto_fornecedor (rows df) s)) (Num (total_produto (rows df) r)))
                    (Num 0)
                  = concentracao_spec (gasto_fornecedor (rows df) s) (total_produto (rows df) r)).
    { unfold np_where, concentracao_spec.
      destruct (Qltb 0 (total_produto (rows df) r)) eqn:E; [|done]. by apply cdiv_pos. }
    rewrite Heq. split; [done|]. split.
    + intros Hpos. apply concentracao_spec_unit.
      * apply Qsum_nonneg, nums_filter_nonneg. intros t q Ht [Hts _] Hq.
        apply (Hpos t q Ht); [|done]. by eapply mesmo_produto_trans.
      * apply Qsum_filter_le.
        -- intros t [Hts _]. by eapply mesmo_produto_trans.
        -- apply nums_filter_nonneg. intros t q Ht Htr Hq. by apply (Hpos t q Ht).
    + intros Hone Hpos. eexists. unfold concentracao_spec.
      apply Qltb_lt in Hpos as Hb. rewrite Hb. split; [reflexivity|].
      assert (Hsame : gasto_fornecedor (rows df) s = total_produto (rows df) r).
      { unfold gasto_fornecedor, total_produto. f_equal. f_equal.
        apply filter_ext_in. intros t Ht. split.
        - intros [Hts _]. by eapply mesmo_produto_trans.
        - intros Htr. split.
          + eapply mesmo_produto_trans; [done|]. by rewrite mesmo_produto_sym.
          + by apply Hone. }
      rewrite Hsame. field. intros H0. rewrite H0 in Hpos. by apply Qlt_irrefl in Hpos.
  - intros Hna Hnone. rewrite Hna.
    assert (Hlk : lookup_row ["id_produto"]%string r P = None).
    { apply lookup_row_none. intros x Hx. apply list_elem_of_fmap in Hx as (m & -> & Hm).
      rewrite key_principal_row. unfold key_of. simpl. rewrite andb_true_r.
      rewrite cell_eqb_sym. by apply (principal_none df r m). }
    rewrite Hlk. cbn [from_option]. unfold np_where.
    by destruct (Qltb 0 (total_produto (rows df) r)).
  - intros Hna. by rewrite Hna.
Qed.

Lemma concentracao_fornecedor_witness :
  has_cols concentracao_cols fato_fornecedores = true ∧
  ("%_Gasto_Unico_Forn"%string ∉ columns fato_fornecedores) ∧
  ∃ out,
    calcular_concentracao_fornecedor fato_fornecedores = Ok out ∧
    length (rows out) = length (rows fato_fornecedores).
Proof.
  assert (Hc : has_cols concentracao_cols fato_fornecedores = true)
    by (vm_compute; reflexivity).
  assert (Hnew : "%_Gasto_Unico_Forn"%string ∉ columns fato_fornecedores).
  { cbn [columns fato_fornecedores frame]. rewrite !elem_of_cons, elem_of_nil.
    intros [?|[?|[?|[]]]]; discriminate. }
  split; [exact Hc|]. split; [exact Hnew|].
  destruct (concentracao_fornecedor fato_fornecedores Hc Hnew) as (out & Hok & Hlen & _).
  exists out. split; [exact Hok|exact Hlen].
Defined.

(** The spends of the example by product and supplier, and the supplier of
    greatest spend of every product: A for P1, with 700 of 1000. *)
Example fornecedor_principal_do_exemplo :
  col "id_produto" (fornecedor_principal fato_fornecedores)
  = [Str "P1"; Str "P2"; Str "P3"; Str "P4"] ∧
  col "id_fornecedor" (fornecedor_principal fato_fornecedores)
  = [Str "A"; Str "A"; Str "A"; Str "C"] ∧
  key_eqb (col "Gasto_Forn_Principal" (fornecedor_principal fato_fornecedores))
    [Num 700; Num 0; Num 700; Num 75] = true ∧
  key_eqb (col "Gasto_Total_Produto_Global" (gasto_total_produto fato_fornecedores))
    [Num 1000; Num 0; Num 400; Num 75; Num 10] = true.
Proof. vm_compute. done. Qed.

(** The lines of P1 receive 0.7 and the lines of P4 receive 1. *)
Example concentracao_do_exemplo :
  on_ok (calcular_concentracao_fornecedor fato_fornecedores) (λ out,
    key_eqb (col "%_Gasto_Unico_Forn" out)
      [Num (7 # 10); Num (7 # 10); Num (7 # 10); Num 0; Num (7 # 4); Num (7 # 4);
       Num 1; Num 1; NaN] = true).
Proof. vm_compute. done. Qed.

(** C5, as stated, fails on the bounds and on the single supplier: the
    only supplier of P2 has the whole spend of P2, which is 0, and the
    line receives 0, not 1; the lines of P3, with a negative line, receive
    1.75; the line of P5, which has no supplier, receives a missing
    value. *)
Lemma concentracao_fornecedor_counterexample :
  has_cols concentracao_cols fato_fornecedores = true ∧
  get "id_fornecedor"
    <$> filter (λ t, cell_eqb (get "id_produto" t) (Str "P2") = true) (rows fato_fornecedores)
  = [Str "A"] ∧
  on_ok (calcular_concentracao_fornecedor fato_fornecedores) (λ out,
    col "id_produto" out
    = [Str "P1"; Str "P1"; Str "P1"; Str "P2"; Str "P3"; Str "P3"; Str "P4"; Str "P4";
       Str "P5"] ∧
    ∃ c2 c3 c5,
      col "%_Gasto_Unico_Forn" out !! 3%nat = Some c2 ∧
      col "%_Gasto_Unico_Forn" out !! 4%nat = Some c3 ∧
      col "%_Gasto_Unico_Forn" out !! 8%nat = Some c5 ∧
      c2 = Num 0 ∧ ¬ unit_interval c3 ∧ ¬ unit_interval c5).
Proof.
  split; [vm_compute; reflexivity|]. split; [vm_compute; reflexivity|].
  vm_compute. split; [reflexivity|]. eexists _, _, _.
  split; [reflexivity|]. split; [reflexivity|]. split; [reflexivity|].
  split; [reflexivity|]. split.
  - intros [_ H]. by apply H.
  - intros [].
Qed.

(** ** The intermittency *)

Lemma intermitencia_df2_rows parse_date df :
  rows (set_col "mes_compra" (λ r, to_period_M (get "data_compra" r))
          (if forallb (λ r, is_datetime (get "data_compra" r)) (rows df) then df
           else set_col "data_compra" (λ r, to_datetime parse_date (get "data_compra" r)) df))
  = linha_com_mes parse_date df <$> rows df.
Proof.
  rewrite set_col_rows. unfold linha_com_mes.
  destruct (forallb _ (rows df)); [done|].
  rewrite set_col_rows, <- list_fmap_compose. done.
Qed.

Lemma linha_com_mes_mes parse_date df r :
  get "mes_compra" (linha_com_mes parse_date df r) = mes_da_linha parse_date df r.
Proof.
  unfold linha_com_mes, mes_da_linha, data_lida. cbv zeta. rewrite get_insert_eq.
  destruct (forallb _ (rows df)); [done|]. by rewrite get_insert_eq.
Qed.

Lemma linha_com_mes_other parse_date df r c :
  c ≠ "mes_compra"%string → c ≠ "data_compra"%string →
  linha_com_mes parse_date df r !! c = r !! c.
Proof.
  intros H1 H2. unfold linha_com_mes. cbv zeta. rewrite lookup_insert_ne by done.
  destruct (forallb _ (rows df)); [done|]. by rewrite lookup_insert_ne.
Qed.

Lemma linha_com_mes_key parse_date df r :
  key_of ["id_produto"]%string (linha_com_mes parse_date df r)
  = key_of ["id_produto"]%string r.
Proof.
  apply key_of_ext. intros c Hc. apply list_elem_of_singleton in Hc as ->.
  unfold get. rewrite linha_com_mes_other; [done|discriminate|discriminate].
Qed.

Lemma group_fmap_key ks k (f : Row → Row) rs :
  (∀ r, key_of ks (f r) = key_of ks r) →
  group ks k (f <$> rs) = f <$> group ks k rs.
Proof.
  intros Hf. unfold group. rewrite filter_fmap. f_equal.
  apply list_filter_iff. intros r. unfold compose. by rewrite Hf.
Qed.

(** The least and the greatest of a column. *)
Lemma col_min_elem cs : col_min cs = NaN ∨ col_min cs ∈ cs.
Proof.
  induction cs as [|c cs IH]; [by left|]. simpl.
  destruct (isna (col_min cs)) eqn:E1.
  - destruct c; [by left|right; by left..].
  - destruct (isna c) eqn:E2.
    + destruct IH as [IH|IH]; [by rewrite IH in E1|right; by right].
    + destruct (cell_leb c (col_min cs)); [right; by left|].
      destruct IH as [IH|IH]; [by rewrite IH in E1|right; by right].
Qed.

Lemma col_max_elem cs : col_max cs = NaN ∨ col_max cs ∈ cs.
Proof.
  induction cs as [|c cs IH]; [by left|]. simpl.
  destruct (isna (col_max cs)) eqn:E1.
  - destruct c; [by left|right; by left..].
  - destruct (isna c) eqn:E2.
    + destruct IH as [IH|IH]; [by rewrite IH in E1|right; by right].
    + destruct (cell_leb (col_max cs) c); [right; by left|].
      destruct IH as [IH|IH]; [by rewrite IH in E1|right; by right].
Qed.

Lemma col_min_le cs c :
  c ∈ cs → notna c = true → notna (col_min cs) = true ∧ cell_leb (col_min cs) c = true.
Proof.
  induction cs as [|x cs IH]; intros Hc Hn; [by apply elem_of_nil in Hc|]. simpl.
  apply elem_of_cons in Hc as [->|Hc].
  - destruct (isna (col_min cs)) eqn:E1.
    + split; [done|]. apply cell_eqb_leb, cell_eqb_refl.
    + unfold notna in Hn. apply negb_true_iff in Hn. rewrite Hn.
      destruct (cell_leb x (col_min cs)) eqn:E3.
      * split; [by unfold notna; rewrite Hn|]. apply cell_eqb_leb, cell_eqb_refl.
      * split; [by unfold notna; rewrite E1|]. by apply cell_leb_total.
  - destruct (IH Hc Hn) as [H1 H2]. unfold notna in H1. apply negb_true_iff in H1.
    rewrite H1. destruct (isna x) eqn:E2.
    + split; [by unfold notna; rewrite H1|done].
    + destruct (cell_leb x (col_min cs)) eqn:E3.
      * split; [by unfold notna; rewrite E2|]. by eapply cell_leb_trans.
      * split; [by unfold notna; rewrite H1|done].
Qed.

Lemma col_max_ge cs c :
  c ∈ cs → notna c = true → notna (col_max cs) = true ∧ cell_leb c (col_max cs) = true.
Proof.
  induction cs as [|x cs IH]; intros Hc Hn; [by apply elem_of_nil in Hc|]. simpl.
  apply elem_of_cons in Hc as [->|Hc].
  - destruct (isna (col_max cs)) eqn:E1.
    + split; [done|]. apply cell_eqb_leb, cell_eqb_refl.
    + unfold notna in Hn. apply negb_true_iff in Hn. rewrite Hn.
      destruct (cell_leb (col_max cs) x) eqn:E3.
      * split; [by unfold notna; rewrite Hn|]. apply cell_eqb_leb, cell_eqb_refl.
      * split; [by unfold notna; rewrite E1|]. by apply cell_leb_total.
  - destruct (IH Hc Hn) as [H1 H2]. unfold notna in H1. apply negb_true_iff in H1.
    rewrite H1. destruct (isna x) eqn:E2.
    + split; [by unfold notna; rewrite H1|done].
    + destruct (cell_leb (col_max cs) x) eqn:E3.
      * split; [by unfold notna; rewrite E2|]. by eapply cell_leb_trans.
      * split; [by unfold notna; rewrite H1|done].
Qed.

Lemma janela_idx a b : periodo_total_meses a b = (mes_idx b - mes_idx a + 1)%Z.
Proof. unfold periodo_total_meses, mes_idx. lia. Qed.

Lemma to_period_M_bucket c :
  mes_valido c → notna (to_period_M c) = true → bucket (to_period_M c).
Proof. destruct c; simpl; try done. Qed.

Lemma mes_idx_le a b :
  bucket a → bucket b → cell_leb a b = true → (mes_idx a ≤ mes_idx b)%Z.
Proof.
  destruct a as [| | |y m d], b as [| | |y' m' d']; simpl; try done.
  intros [Hm ->] [Hm' ->]. unfold date_leb, mes_idx. simpl. lia.
Qed.

Lemma mes_idx_inj a b :
  bucket a → bucket b → mes_idx a = mes_idx b → cell_eqb a b = true.
Proof.
  destruct a as [| | |y m d], b as [| | |y' m' d']; simpl; try done.
  intros [Hm ->] [Hm' ->]. unfold mes_idx. simpl. lia.
Qed.

(** Buckets that are all different and lie between two months are no more
    than the months from the one to the other. *)
Lemma buckets_bounded (l : list cell) (lo hi : Z) :
  distinct_by cell_eqb l →
  (∀ c, c ∈ l → bucket c ∧ (lo ≤ mes_idx c ≤ hi)%Z) →
  (Z.of_nat (length l) ≤ Z.max 0 (hi - lo + 1))%Z.
Proof.
  intros Hd Hb.
  assert (Hnd : NoDup (mes_idx <$> l)).
  { induction l as [|x l IH]; [constructor|]. destruct Hd as [Hx Hd].
    rewrite fmap_cons. constructor.
    - intros Hin. apply list_elem_of_fmap in Hin as (y & Hy & Hyl).
      specialize (Hx y Hyl). rewrite mes_idx_inj in Hx; [done| | |done].
      + apply Hb. by left.
      + apply Hb. by right.
    - apply IH; [done|]. intros c Hc. apply Hb. by right. }
  assert (Hsub : mes_idx <$> l ⊆+ seqZ lo (hi - lo + 1)).
  { apply NoDup_submseteq; [done|]. intros i Hi.
    apply list_elem_of_fmap in Hi as (c & -> & Hc). apply elem_of_seqZ.
    destruct (Hb c Hc) as [_ ?]. lia. }
  apply submseteq_length in Hsub. rewrite length_fmap, length_seqZ in Hsub. lia.
Qed.

Lemma nunique_elem c cs :
  c ∈ dedup_by cell_eqb (filter (λ c, notna c = true) cs) → c ∈ cs ∧ notna c = true.
Proof.
  intros H. apply dedup_by_elem in H. apply list_elem_of_filter in H as [H1 H2]. done.
Qed.

Section Janela.
Variable parse_date : cell → cell.
Variable df : DataFrame.
Hypothesis Hvalid : ∀ t, t ∈ rows df → mes_valido (data_lida parse_date df t).

Lemma meses_bucket c :
  c ∈ meses_da_tabela parse_date df → notna c = true → bucket c.
Proof.
  intros Hc Hn. apply list_elem_of_fmap in Hc as (t & -> & Ht).
  apply to_period_M_bucket; [by apply Hvalid|done].
Qed.

Lemma meses_do_produto_sub r c :
  c ∈ meses_do_produto parse_date df r → c ∈ meses_da_tabela parse_date df.
Proof.
  intros Hc. apply list_elem_of_fmap in Hc as (t & -> & Ht).
  apply list_elem_of_filter in Ht as [_ Ht]. by apply list_elem_of_fmap_2.
Qed.

(** The months of a product are months of the window. *)
Lemma nunique_le_janela r :
  notna (col_min (meses_da_tabela parse_date df)) = true →
  (0 < janela parse_date df)%Z ∧
  (Z.of_nat (nunique (meses_do_produto parse_date df r)) ≤ janela parse_date df)%Z.
Proof.
  intros Hmin. set (cs := meses_da_tabela parse_date df) in *.
  assert (Hminin : col_min cs ∈ cs).
  { destruct (col_min_elem cs) as [E|E]; [by rewrite E in Hmin|done]. }
  destruct (col_max_ge cs _ Hminin Hmin) as [Hmax Hle].
  assert (Hmaxin : col_max cs ∈ cs).
  { destruct (col_max_elem cs) as [E|E]; [by rewrite E in Hmax|done]. }
  assert (Bmin := meses_bucket _ Hminin Hmin).
  assert (Bmax := meses_bucket _ Hmaxin Hmax).
  unfold janela. fold cs. rewrite janela_idx.
  pose proof (mes_idx_le _ _ Bmin Bmax Hle) as H0. split; [lia|].
  unfold nunique.
  pose proof (buckets_bounded
                (dedup_by cell_eqb (filter (λ c, notna c = true)
                                      (meses_do_produto parse_date df r)))
                (mes_idx (col_min cs)) (mes_idx (col_max cs))) as Hb.
  rewrite Z.max_r in Hb by lia. apply Hb.
  - apply dedup_by_is_distinct.
  - intros c Hc. apply nunique_elem in Hc as [Hc Hn].
    apply meses_do_produto_sub in Hc. fold cs in Hc.
    pose proof (meses_bucket c Hc Hn) as Bc. split; [done|]. split.
    + apply mes_idx_le; [done..|]. by apply col_min_le.
    + apply mes_idx_le; [done..|]. by apply col_max_ge.
Qed.

End Janela.

Lemma meses_da_tabela_col parse_date df :
  get "mes_compra" <$> (linha_com_mes parse_date df <$> rows df)
  = meses_da_tabela parse_date df.
Proof.
  unfold meses_da_tabela. rewrite <- list_fmap_compose. apply list_fmap_ext.
  intros i r _. apply linha_com_mes_mes.
Qed.

Lemma meses_do_produto_group parse_date df r :
  get "mes_compra"
    <$> group ["id_produto"]%string (key_of ["id_produto"]%string r)
          (linha_com_mes parse_date df <$> rows df)
  = meses_do_produto parse_date df r.
Proof.
  rewrite group_fmap_key by apply linha_com_mes_key. rewrite group_produto.
  unfold meses_do_produto. rewrite <- list_fmap_compose. apply list_fmap_ext.
  intros i t _. apply linha_com_mes_mes.
Qed.

Lemma risco_value (n : nat) (W : Z) :
  np_where (0 <? W)%Z
    (csub (Num 1) (cdiv (Num (inject_Z (Z.of_nat n))) (Num (inject_Z W)))) (Num 0)
  = risco_spec n W.
Proof.
  unfold np_where, risco_spec. destruct (0 <? W)%Z eqn:E; [|done].
  apply Z.ltb_lt in E. simpl. destruct (Qeq_bool (inject_Z W) 0) eqn:E0; [|done].
  apply Qeq_bool_eq in E0. unfold Qeq in E0. simpl in E0. lia.
Qed.

Lemma risco_spec_unit (n : nat) (W : Z) :
  (0 < W)%Z → (Z.of_nat n ≤ W)%Z → unit_interval (risco_spec n W).
Proof.
  intros H0 Hn. unfold risco_spec. apply Z.ltb_lt in H0 as Hb. rewrite Hb. simpl.
  assert (HW : 0 < inject_Z W) by (unfold Qlt; simpl; lia).
  assert (H1 : 0 <= inject_Z (Z.of_nat n) / inject_Z W).
  { apply Qle_shift_div_l; [done|]. rewrite Qmult_0_l. unfold Qle. simpl. lia. }
  assert (H2 : inject_Z (Z.of_nat n) / inject_Z W <= 1).
  { apply Qle_shift_div_r; [done|]. rewrite Qmult_1_l. unfold Qle. simpl. lia. }
  split; lra.
Qed.

Lemma risco_spec_cheio (n : nat) (W : Z) :
  (0 < W)%Z → Z.of_nat n = W → cell_eqb (risco_spec n W) (Num 0) = true.
Proof.
  intros H0 Hn. unfold risco_spec. apply Z.ltb_lt in H0 as Hb. rewrite Hb. simpl.
  apply Qeq_bool_iff. rewrite Hn. field. intros E. unfold Qeq in E. simpl in E. lia.
Qed.

(** X1.  The formula and the bounds of the intermittency, on the path that
    computes the risk.
    When the table has [data_compra] and [id_produto], does not have the
    two columns of the result yet and has at least one valid date,
    [calcular_risco_intermitencia] returns a table of the same lines in
    the same order; a line of a known product receives
    Meses_Comprados_Historico = the number of distinct year-month buckets
    of the lines of its product, and Risco_Intermitencia = 1 - that
    number / the months of the window when the window is positive; with
    dates of the calendar the window is positive, the risk lies in [0,1],
    and it is 0 for a product bought in every month of the window. *)
Theorem intermitencia_formula parse_date df :
  has_col "data_compra" df = true →
  has_col "id_produto" df = true →
  ("Risco_Intermitencia"%string ∉ columns df) →
  ("Meses_Comprados_Historico"%string ∉ columns df) →
  notna (col_min (meses_da_tabela parse_date df)) = true →
  ∃ out,
    calcular_risco_intermitencia parse_date df = Ok out ∧
    length (rows out) = length (rows df) ∧
    ∀ i r, rows df !! i = Some r →
      ∃ r', rows out !! i = Some r' ∧
        (∀ c, c ∉ ["Risco_Intermitencia"; "Meses_Comprados_Historico"; "mes_compra";
                   "data_compra"]%string → r' !! c = r !! c) ∧
        (notna (get "id_produto" r) = true →
         let n := nunique (meses_do_produto parse_date df r) in
         let W := janela parse_date df in
         get "Meses_Comprados_Historico" r' = Num (inject_Z (Z.of_nat n)) ∧
         get "Risco_Intermitencia" r' = risco_spec n W ∧
         ((∀ t, t ∈ rows df → mes_valido (data_lida parse_date df t)) →
          (0 < W)%Z ∧ (Z.of_nat n ≤ W)%Z ∧
          unit_interval (get "Risco_Intermitencia" r') ∧
          (Z.of_nat n = W → cell_eqb (get "Risco_Intermitencia" r') (Num 0) = true))).
Proof.
  intros Hd Hp Hnr Hnm Hmin.
  set (cs := meses_da_tabela parse_date df) in *.
  assert (Hmax : notna (col_max cs) = true).
  { destruct (col_min_elem cs) as [E|E]; [by rewrite E in Hmin|].
    by destruct (col_max_ge cs _ E Hmin). }
  unfold calcular_risco_intermitencia. rewrite Hd. simpl negb. cbv iota zeta.
  set (df2 := set_col "mes_compra" _ _).
  assert (Hrows2 : rows df2 = linha_com_mes parse_date df <$> rows df)
    by apply intermitencia_df2_rows.
  assert (Hcols2 : ∀ c, c ∈ columns df2 →
                        c ∈ columns df ∨ c = "mes_compra"%string ∨ c = "data_compra"%string).
  { intros c Hc. unfold df2 in Hc. apply set_col_columns_elem in Hc as [Hc|Hc]; [|by right; left].
    destruct (forallb _ (rows df)); [by left|].
    apply set_col_columns_elem in Hc as [Hc|Hc]; [by left|by right; right]. }
  rewrite require_ok; cycle 1.
  { intros c Hc. apply list_elem_of_singleton in Hc as ->. unfold df2.
    apply set_col_columns_elem. left. apply has_col_elem in Hp.
    destruct (forallb _ (rows df)); [done|]. apply set_col_columns_elem. by left. }
  cbn [mbind]. unfold result_bind. rewrite Hrows2, meses_da_tabela_col. fold cs.
  unfold notna in Hmin, Hmax. apply negb_true_iff in Hmin, Hmax. rewrite Hmin, Hmax.
  simpl orb. cbv iota.
  eexists. split; [reflexivity|].
  change (periodo_total_meses (col_min cs) (col_max cs)) with (janela parse_date df).
  set (W := janela parse_date df).
  set (F := λ g : list Row, Num (inject_Z (Z.of_nat (nunique (get "mes_compra" <$> g))))).
  set (M := groupby_agg ["id_produto"]%string [("Meses_Comprados_Historico"%string, F)] df2).
  set (RF := λ r : Row,
         np_where (0 <? W)%Z
           (csub (Num 1) (cdiv (get "Meses_Comprados_Historico" r) (Num (inject_Z W))))
           (Num 0)).
  set (post := λ t : Row,
         select_row ["id_produto"; "Risco_Intermitencia"; "Meses_Comprados_Historico"]%string
           (<["Risco_Intermitencia"%string := RF t]> t)).
  set (R := select_cols _ (set_col "Risco_Intermitencia" RF M)).
  assert (HR : rows R = post <$> rows M).
  { unfold R, select_cols. cbn [rows]. by rewrite set_col_rows, <- list_fmap_compose. }
  assert (HcolsR : columns R
                   = ["id_produto"; "Risco_Intermitencia"; "Meses_Comprados_Historico"]%string)
    by done.
  assert (Hnd : NoDup ["id_produto"%string])
    by (apply (bool_decide_unpack _); vm_compute; exact I).
  assert (Hag : ∀ c, c ∈ ["id_produto"%string] →
                     c ∉ [("Meses_Comprados_Historico"%string, F)].*1).
  { intros c Hc Hin. apply list_elem_of_singleton in Hc as ->.
    apply (bool_decide_pack _) in Hin. vm_compute in Hin. done. }
  assert (Hkey : ∀ t, key_of ["id_produto"]%string (post t) = key_of ["id_produto"]%string t).
  { intros t. apply key_of_ext. intros c Hc. apply list_elem_of_singleton in Hc as ->.
    unfold post. rewrite get_select_row by elem_by_eval. by get_simpl. }
  assert (HdR : distinct_keys ["id_produto"]%string (rows R)).
  { rewrite HR. apply distinct_keys_post; [done|]. by apply groupby_agg_distinct. }
  assert (Hov : overlap ["id_produto"]%string df2 R = []).
  { apply overlap_nil. intros c Hc. rewrite HcolsR in Hc.
    rewrite !elem_of_cons, elem_of_nil in Hc.
    destruct Hc as [->|[->|[->|[]]]]; [left; by left|right..]; intros Hin;
      apply Hcols2 in Hin as [Hin|[Hin|Hin]]; done. }
  unfold drop_col. cbn [rows]. rewrite merge_left_rows by done.
  rewrite Hov, Hrows2, <- !list_fmap_compose.
  split; [by rewrite length_fmap|].
  intros i r Hr. rewrite list_lookup_fmap, Hr. cbn [fmap option_fmap option_map].
  eexists. split; [reflexivity|]. unfold compose.
  set (r2 := linha_com_mes parse_date df r).
  set (lk := lookup_row ["id_produto"]%string r2 (rows R)).
  assert (Hin : r ∈ rows df) by (by eapply list_elem_of_lookup_2).
  assert (Hin2 : r2 ∈ rows df2) by (rewrite Hrows2; by apply list_elem_of_fmap_2).
  split.
  - intros c Hc. rewrite !elem_of_cons, elem_of_nil in Hc.
    rewrite lookup_delete_ne by (intros E; subst c; apply Hc; tauto).
    rewrite merge_row_old.
    + apply linha_com_mes_other; intros E; subst c; apply Hc; tauto.
    + rewrite HcolsR. destruct (decide (c = "id_produto"%string)) as [->|Hne]; [right; by left|].
      left. rewrite !elem_of_cons, elem_of_nil. intros [?|[?|[?|[]]]]; [done|..]; subst c; apply Hc; tauto.
  - intros Hna. set (n := nunique (meses_do_produto parse_date df r)).
    assert (Hnk : notna_key (key_of ["id_produto"]%string r2) = true).
    { unfold r2. rewrite linha_com_mes_key. unfold key_of. simpl. by rewrite Hna. }
    assert (Hgrp : get "mes_compra"
                     <$> group ["id_produto"]%string (key_of ["id_produto"]%string r2) (rows df2)
                   = meses_do_produto parse_date df r).
    { unfold r2. rewrite linha_com_mes_key, Hrows2. apply meses_do_produto_group. }
    assert (GM : get "Meses_Comprados_Historico"
                   (delete "mes_compra"
                      (merge_row ["id_produto"]%string [] (columns R) r2 lk))
                 = Num (inject_Z (Z.of_nat n))).
    { unfold get at 1. rewrite lookup_delete_ne by discriminate.
      fold (get "Meses_Comprados_Historico"
              (merge_row ["id_produto"]%string [] (columns R) r2 lk)).
      rewrite merge_row_new; [|rewrite HcolsR; elem_by_eval|];
        [|intros H; apply (bool_decide_pack _) in H; vm_compute in H; done].
      unfold lk. rewrite HR. unfold M.
      rewrite (lookup_row_agg_get _ _ df2 post r2 (get "Meses_Comprados_Historico") F);
        [|done..|].
      - rewrite Hnk. unfold F. by rewrite Hgrp.
      - intros k Hk. unfold post. rewrite get_select_row by elem_by_eval.
        get_simpl. apply get_agg_row_head. }
    assert (GR : get "Risco_Intermitencia"
                   (delete "mes_compra"
                      (merge_row ["id_produto"]%string [] (columns R) r2 lk))
                 = risco_spec n W).
    { unfold get at 1. rewrite lookup_delete_ne by discriminate.
      fold (get "Risco_Intermitencia"
              (merge_row ["id_produto"]%string [] (columns R) r2 lk)).
      rewrite merge_row_new; [|rewrite HcolsR; elem_by_eval|];
        [|intros H; apply (bool_decide_pack _) in H; vm_compute in H; done].
      unfold lk. rewrite HR. unfold M.
      rewrite (lookup_row_agg_get _ _ df2 post r2 (get "Risco_Intermitencia")
                 (λ g, np_where (0 <? W)%Z
                         (csub (Num 1) (cdiv (F g) (Num (inject_Z W)))) (Num 0)));
        [|done..|].
      - rewrite Hnk. unfold F. rewrite Hgrp. apply risco_value.
      - intros k Hk. unfold post. rewrite get_select_row by elem_by_eval.
        get_simpl. unfold RF. by rewrite get_agg_row_head. }
    split; [exact GM|]. split; [exact GR|].
    intros Hvalid. rewrite GR.
    assert (Hmin' : notna (col_min (meses_da_tabela parse_date df)) = true)
      by (unfold notna; fold cs; by rewrite Hmin).
    destruct (nunique_le_janela parse_date df Hvalid r Hmin') as [H0 Hn].
    split; [done|]. split; [done|]. split.
    + by apply risco_spec_unit.
    + intros E. by apply risco_spec_cheio.
Qed.

(** The table of the example: a window of three months, P1 bought in two
    of them (risk 1/3), P2 in all three (risk 0), P3 in none (risk 1); the
    helper column is gone. *)
Example intermitencia_do_exemplo :
  on_ok (calcular_risco_intermitencia parse_none fato_meses) (λ out,
    columns out = ["id_produto"; "data_compra"; "preco_total"; "Risco_Intermitencia";
                   "Meses_Comprados_Historico"]%string ∧
    key_eqb (col "Risco_Intermitencia" out)
      [Num (1 # 3); Num 0; Num (1 # 3); Num 0; Num (1 # 3); Num 0; Num 1] = true ∧
    key_eqb (col "Meses_Comprados_Historico" out)
      [Num 2; Num 3; Num 2; Num 3; Num 2; Num 3; Num 0] = true).
Proof. vm_compute. done. Qed.

(** The table of the example meets the hypotheses of the theorem. *)
Lemma intermitencia_formula_witness :
  ∃ out,
    calcular_risco_intermitencia parse_none fato_meses = Ok out ∧
    length (rows out) = length (rows fato_meses).
Proof.
  assert (H1 : has_col "data_compra" fato_meses = true) by (vm_compute; reflexivity).
  assert (H2 : has_col "id_produto" fato_meses = true) by (vm_compute; reflexivity).
  assert (H3 : "Risco_Intermitencia"%string ∉ columns fato_meses).
  { intros H. apply (bool_decide_pack _) in H. vm_compute in H. exact H. }
  assert (H4 : "Meses_Comprados_Historico"%string ∉ columns fato_meses).
  { intros H. apply (bool_decide_pack _) in H. vm_compute in H. exact H. }
  assert (H5 : notna (col_min (meses_da_tabela parse_none fato_meses)) = true)
    by (vm_compute; reflexivity).
  destruct (intermitencia_formula parse_none fato_meses H1 H2 H3 H4 H5) as (out & Hok & Hlen & _).
  exists out. split; [exact Hok|exact Hlen].
Defined.

(** ** The integration of a dimension *)

Lemma foldl_drop_col_columns cs : ∀ d,
  columns (foldl (fun d c => drop_col c d) d cs) = filter (λ c, c ∉ cs) (columns d).
Proof.
  induction cs as [|c cs IH]; intros d.
  - simpl. symmetry. apply filter_all. intros x _. apply not_elem_of_nil.
  - simpl. rewrite IH. unfold drop_col. cbn [columns]. rewrite list_filter_filter.
    apply list_filter_iff. intros x. rewrite not_elem_of_cons. tauto.
Qed.

Lemma foldl_drop_col_rows cs : ∀ d,
  rows (foldl (fun d c => drop_col c d) d cs)
  = (λ r : Row, foldl (fun r c => delete c r) r cs) <$> rows d.
Proof.
  induction cs as [|c cs IH]; intros d.
  - simpl. by rewrite list_fmap_id.
  - simpl. rewrite IH. unfold drop_col. cbn [rows]. by rewrite <- list_fmap_compose.
Qed.

Lemma foldl_delete_lookup cs : ∀ (r : Row) c,
  foldl (fun r c => delete c r) r cs !! c = if decide (c ∈ cs) then None else r !! c.
Proof.
  induction cs as [|c0 cs IH]; intros r c; [done|]. simpl. rewrite IH.
  destruct (decide (c ∈ cs)) as [Hin|Hin].
  - rewrite decide_True; [done|by right].
  - destruct (decide (c = c0)) as [->|Hne].
    + rewrite decide_True by (by left). apply lookup_delete_eq.
    + rewrite decide_False by (rewrite elem_of_cons; tauto). by apply lookup_delete_ne.
Qed.

Lemma distinct_by_imap {A B} (eqA : A → A → bool) (eqB : B → B → bool) (l : list A) :
  ∀ f : nat → A → B,
  (∀ i j x y, eqB (f i x) (f j y) = eqA x y) →
  distinct_by eqA l → distinct_by eqB (imap f l).
Proof.
  induction l as [|x l IH]; intros f Hf Hd; [done|]. destruct Hd as [Hx Hd]. simpl. split.
  - intros y Hy. apply elem_of_lookup_imap in Hy as (i & z & -> & Hz).
    unfold compose. rewrite Hf. apply Hx. by eapply list_elem_of_lookup_2.
  - apply IH; [|done]. intros i j a b. unfold compose. apply Hf.
Qed.

Lemma key_of_dim_row attrs pk (v : cell) (r : Row) :
  pk ∉ attrs → key_of attrs (<[pk := v]> (select_row attrs r)) = key_of attrs r.
Proof.
  intros Hpk. apply key_of_ext. intros c Hc.
  rewrite get_insert_ne by (intros ->; done). by apply get_select_row.
Qed.

Lemma df_dim_distinct df attrs pk prefixo :
  pk ∉ attrs → distinct_keys attrs (rows (df_dim df attrs pk prefixo)).
Proof.
  intros Hpk. unfold distinct_keys, df_dim. cbn [rows].
  apply (distinct_by_imap (same_on attrs)).
  - intros i j x y. unfold same_on. by rewrite !key_of_dim_row.
  - apply dedup_by_is_distinct.
Qed.

Lemma same_on_refl cs r : same_on cs r r = true.
Proof. apply key_eqb_refl. Qed.

(** The row of the dimension that a line joins. *)
Lemma df_dim_lookup df attrs pk prefixo r :
  pk ∉ attrs → r ∈ rows df →
  ∃ d n, lookup_row attrs r (rows (df_dim df attrs pk prefixo)) = Some d ∧
         d ∈ rows (df_dim df attrs pk prefixo) ∧
         same_on attrs d r = true ∧
         get pk d = Str (sk_format prefixo n).
Proof.
  intros Hpk Hr.
  destruct (dedup_by_cover (same_on attrs) (same_on_trans attrs) r (rows df)
              (same_on_refl _ _) Hr) as (y & Hy & Hyr).
  apply list_elem_of_lookup_1 in Hy as [i Hi].
  set (d := <[pk := Str (sk_format prefixo (N.of_nat (S i)))]> (select_row attrs y)).
  assert (Hd : d ∈ rows (df_dim df attrs pk prefixo)).
  { unfold df_dim. cbn [rows]. apply elem_of_lookup_imap. by exists i, y. }
  assert (Hk : key_of attrs d = key_of attrs y) by (by apply key_of_dim_row).
  exists d, (N.of_nat (S i)). split; [|split; [done|split]].
  - apply lookup_row_in; [by apply df_dim_distinct|done|].
    rewrite Hk. unfold same_on in Hyr. by rewrite key_eqb_sym.
  - unfold same_on. by rewrite Hk.
  - apply get_insert_eq.
Qed.

Lemma criar_dimensao_inv2 df attrs pk prefixo dim fato :
  _criar_dimensao df attrs pk prefixo = Ok (dim, fato) →
  (∀ c, c ∈ attrs → c ∈ columns df) ∧ rows df ≠ [] ∧
  dim = df_dim df attrs pk prefixo ∧
  fato = foldl (fun d c => drop_col c d)
           (merge_left attrs df (df_dim df attrs pk prefixo)) attrs.
Proof.
  unfold _criar_dimensao, require, missing_col.
  destruct (head _) as [c|] eqn:Hh; [done|]. simpl.
  case_bool_decide as Hrows; [done|]. intros [= <- <-].
  split; [|split; [|done]].
  - intros c Hc. apply head_None in Hh. apply has_col_elem.
    destruct (has_col c df) eqn:E; [done|].
    exfalso. eapply (filter_nil_not_elem_of _ _ c Hh); done.
  - intros E. apply Hrows. unfold df_dim. cbn [rows]. by rewrite E.
Qed.

(** X2.  The integration of a dimension.  When [_criar_dimensao] returns
    and the key column is new to the table, the fact table it returns has
    the columns of the input without the attributes, then the key; it has
    the lines of the input, in their order; every line holds the key of a
    row of the dimension whose attributes are those of the line, has lost
    the attributes and keeps every other column as it was. *)
Theorem criar_dimensao_integra df attrs pk prefixo dim fato :
  _criar_dimensao df attrs pk prefixo = Ok (dim, fato) →
  pk ∉ columns df → pk ∉ attrs →
  columns fato = filter (λ c, c ∉ attrs) (columns df) ++ [pk] ∧
  length (rows fato) = length (rows df) ∧
  ∀ i r, rows df !! i = Some r →
    ∃ r' d n, rows fato !! i = Some r' ∧
      d ∈ rows dim ∧ same_on attrs d r = true ∧
      get pk d = Str (sk_format prefixo n) ∧ get pk r' = get pk d ∧
      (∀ c, c ∈ attrs → r' !! c = None) ∧
      (∀ c, c ∉ attrs → c ≠ pk → r' !! c = r !! c).
Proof.
  intros Hok Hnew Hpk. apply criar_dimensao_inv2 in Hok as (Hattrs & Hne & -> & ->).
  set (dim := df_dim df attrs pk prefixo).
  assert (Hov : overlap attrs df dim = []).
  { apply overlap_nil. intros c Hc. unfold dim, df_dim in Hc. cbn [columns] in Hc.
    apply elem_of_cons in Hc as [->|Hc]; [by right|by left]. }
  assert (Hcols : columns dim = pk :: attrs) by done.
  split; [|split].
  - rewrite foldl_drop_col_columns. unfold merge_left. cbn [columns]. rewrite Hov, Hcols.
    rewrite filter_app.
    assert (E1 : sfx [] "_x" <$> columns df = columns df).
    { rewrite <- (list_fmap_id (columns df)) at 2. apply list_fmap_ext. intros i c _.
      unfold sfx. rewrite bool_decide_eq_false_2; [done|apply not_elem_of_nil]. }
    rewrite E1. f_equal.
    rewrite filter_cons_True by done.
    rewrite (filter_none (λ c, c ∉ attrs) attrs) by (intros x Hx Hn; done).
    cbn [fmap list_fmap]. unfold sfx. rewrite bool_decide_eq_false_2 by apply not_elem_of_nil.
    by rewrite filter_cons_True.
  - rewrite foldl_drop_col_rows, length_fmap.
    rewrite merge_left_rows by (by apply df_dim_distinct). by rewrite length_fmap.
  - intros i r Hr.
    assert (Hin : r ∈ rows df) by (by eapply list_elem_of_lookup_2).
    destruct (df_dim_lookup df attrs pk prefixo r Hpk Hin) as (d & n & Hlk & Hd & Hsame & Hkey).
    fold dim in Hlk, Hd. rewrite foldl_drop_col_rows.
    rewrite merge_left_rows by (by apply df_dim_distinct).
    rewrite <- list_fmap_compose, list_lookup_fmap, Hr.
    cbn [fmap option_fmap option_map]. unfold compose. rewrite Hov, Hlk, Hcols.
    eexists _, d, n. split; [reflexivity|]. split; [done|]. split; [done|]. split; [done|].
    split; [|split].
    + unfold get at 1. rewrite foldl_delete_lookup, decide_False by done.
      fold (get pk (merge_row attrs [] (pk :: attrs) r (Some d))).
      rewrite merge_row_new; [done|by left|done].
    + intros c Hc. by rewrite foldl_delete_lookup, decide_True.
    + intros c Hc Hne'. rewrite foldl_delete_lookup, decide_False by done.
      apply merge_row_old. left. rewrite not_elem_of_cons. done.
Qed.

(** The scenario of three lines meets the hypotheses. *)
Lemma criar_dimensao_integra_witness :
  ∃ dim fato,
    _criar_dimensao fato_tres_linhas col_inst "id_instituicao" "Ins" = Ok (dim, fato) ∧
    columns fato = filter (λ c, c ∉ col_inst) (columns fato_tres_linhas)
                   ++ ["id_instituicao"%string].
Proof.
  assert (H : ∃ dim fato,
            _criar_dimensao fato_tres_linhas col_inst "id_instituicao" "Ins" = Ok (dim, fato))
    by (eexists _, _; vm_compute; reflexivity).
  assert (Hnew : "id_instituicao"%string ∉ columns fato_tres_linhas).
  { intros Hin. apply (bool_decide_pack _) in Hin. vm_compute in Hin. exact Hin. }
  assert (Hpk : "id_instituicao"%string ∉ col_inst).
  { intros Hin. apply (bool_decide_pack _) in Hin. vm_compute in Hin. exact Hin. }
  destruct H as (dim & fato & H). exists dim, fato. split; [exact H|].
  apply (criar_dimensao_integra fato_tres_linhas col_inst "id_instituicao" "Ins" dim fato
           H Hnew Hpk).
Defined.

(** ** When the dimensions are created *)

Lemma criar_dimensao_cases df attrs pk prefixo :
  match _criar_dimensao df attrs pk prefixo with
  | Ok (dim, fato) =>
      (∀ c, c ∈ attrs → c ∈ columns df) ∧ rows df ≠ [] ∧
      dim = df_dim df attrs pk prefixo ∧
      fato = foldl (fun d c => drop_col c d)
               (merge_left attrs df (df_dim df attrs pk prefixo)) attrs
  | Raise (KeyError c) => c ∈ attrs ∧ c ∉ columns df
  | Raise IndexError => (∀ c, c ∈ attrs → c ∈ columns df) ∧ rows df = []
  end.
Proof.
  destruct (_criar_dimensao df attrs pk prefixo) as [[dim fato]|e] eqn:E.
  - by apply criar_dimensao_inv2.
  - unfold _criar_dimensao, require, missing_col in E.
    destruct (head _) as [c|] eqn:Hh.
    + simpl in E. injection E as <-. apply head_Some_elem_of in Hh.
      apply list_elem_of_filter in Hh as [Hc Hin]. split; [done|].
      intros Hcol. apply has_col_elem in Hcol. congruence.
    + simpl in E. case_bool_decide as Hrows; [|done]. injection E as <-. split.
      * intros c Hc. apply head_None in Hh. apply has_col_elem.
        destruct (has_col c df) eqn:Ec; [done|].
        exfalso. eapply (filter_nil_not_elem_of _ _ c Hh); done.
      * unfold df_dim in Hrows. cbn [rows] in Hrows. apply (f_equal length) in Hrows.
        rewrite length_imap in Hrows. destruct (rows df); [done|]. simpl in Hrows. done.
Qed.

Lemma criar_dimensao_length df attrs pk prefixo dim fato :
  _criar_dimensao df attrs pk prefixo = Ok (dim, fato) → pk ∉ attrs →
  length (rows fato) = length (rows df).
Proof.
  intros Hok Hpk. apply criar_dimensao_inv2 in Hok as (_ & _ & _ & ->).
  rewrite foldl_drop_col_rows, length_fmap.
  rewrite merge_left_rows by (by apply df_dim_distinct). by rewrite length_fmap.
Qed.

(** The columns of the integrated fact, whether the key is new or not. *)
Lemma criar_dimensao_columns df attrs pk prefixo dim fato c :
  _criar_dimensao df attrs pk prefixo = Ok (dim, fato) →
  c ∉ attrs → c ≠ pk → c ≠ (pk +:+ "_x")%string → c ≠ (pk +:+ "_y")%string →
  c ∈ columns fato ↔ c ∈ columns df.
Proof.
  intros Hok Hc H1 H2 H3. apply criar_dimensao_inv2 in Hok as (_ & _ & _ & ->).
  rewrite foldl_drop_col_columns. unfold merge_left. cbn [columns].
  set (ov := overlap attrs df (df_dim df attrs pk prefixo)).
  assert (Hov : ∀ x, x ∈ ov → x = pk).
  { intros x Hx. apply overlap_elem in Hx as [[_ Hx1] Hx2].
    unfold df_dim in Hx2. cbn [columns] in Hx2.
    apply elem_of_cons in Hx2 as [->|Hx2]; done. }
  rewrite list_elem_of_filter, elem_of_app. split.
  - intros [_ [H|H]].
    + apply list_elem_of_fmap in H as (c0 & -> & H0). unfold sfx in *.
      case_bool_decide as E; [|done]. apply Hov in E as ->. done.
    + apply list_elem_of_fmap in H as (c0 & -> & H0).
      apply list_elem_of_filter in H0 as [H0 H0'].
      apply elem_of_cons in H0' as [->|H0']; [|done]. unfold sfx in *.
      case_bool_decide; done.
  - intros Hin. split; [done|]. left. apply list_elem_of_fmap. exists c. split; [|done].
    unfold sfx. rewrite bool_decide_eq_false_2; [done|]. intros E. by apply Hov in E.
Qed.

Lemma add_dimensao_cases nome cols chave prefixo st :
  match add_dimensao nome cols chave prefixo st with
  | Ok st' =>
      ∃ dim, _criar_dimensao (fato st) cols chave prefixo = Ok (dim, fato st') ∧
             exported st' = exported st ++ [(nome, dim)] ∧
             chaves_dimensao st' = chaves_dimensao st ++ [chave]
  | Raise e => _criar_dimensao (fato st) cols chave prefixo = Raise e
  end.
Proof.
  unfold add_dimensao.
  destruct (_criar_dimensao (fato st) cols chave prefixo) as [[dim f]|e]; simpl; [|done].
  by exists dim.
Qed.

Lemma has_cols_app cs1 cs2 df :
  has_cols (cs1 ++ cs2) df = has_cols cs1 df && has_cols cs2 df.
Proof. unfold has_cols. apply forallb_app. Qed.

(** ** The time dimension *)

Lemma dim_tempo_natural_rows parse_date f :
  rows (dim_tempo_natural parse_date f) = tempo_row parse_date <$> datas_distintas parse_date f.
Proof.
  unfold dim_tempo_natural, datas_distintas. cbv zeta. rewrite !set_col_rows. cbn [rows]. rewrite filter_fmap, <- !list_fmap_compose.
  f_equal. apply list_filter_iff. intros r. unfold compose. by rewrite get_insert_eq.
Qed.

Lemma tempo_row_compra parse_date r :
  get "compra" (tempo_row parse_date r) = get "compra" r.
Proof. unfold tempo_row. cbv zeta. by get_simpl. Qed.

Lemma tempo_row_gets parse_date r :
  let d := to_datetime parse_date (get "compra" r) in
  get "data_completa" (tempo_row parse_date r) = d ∧
  get "id_tempo" (tempo_row parse_date r) = id_tempo_of d ∧
  get "ano" (tempo_row parse_date r) = dt_year d ∧
  get "mes" (tempo_row parse_date r) = Num (inject_Z (period_month d)) ∧
  get "dia" (tempo_row parse_date r)
  = match d with Date _ _ dd => Num (inject_Z dd) | _ => NaN end ∧
  get "trimestre" (tempo_row parse_date r) = Num (inject_Z ((period_month d - 1) / 3 + 1)).
Proof. unfold tempo_row. cbv zeta. get_simpl. done. Qed.

Lemma datas_distintas_distinct parse_date f :
  distinct_keys ["compra"]%string (datas_distintas parse_date f).
Proof.
  unfold datas_distintas, distinct_keys.
  apply distinct_by_filter, dedup_by_is_distinct.
Qed.

(** The frame that the merge of the time dimension reads. *)
Lemma tempo_right_rows parse_date f :
  rows (select_cols ["compra"; "id_tempo"]%string (dim_tempo_natural parse_date f))
  = (λ r, select_row ["compra"; "id_tempo"]%string (tempo_row parse_date r))
      <$> datas_distintas parse_date f.
Proof.
  unfold select_cols. cbn [rows]. by rewrite dim_tempo_natural_rows, <- list_fmap_compose.
Qed.

Lemma tempo_right_key parse_date r :
  key_of ["compra"]%string
    (select_row ["compra"; "id_tempo"]%string (tempo_row parse_date r))
  = key_of ["compra"]%string r.
Proof.
  apply key_of_ext. intros c Hc. apply list_elem_of_singleton in Hc as ->.
  rewrite get_select_row by elem_by_eval. apply tempo_row_compra.
Qed.

Lemma tempo_right_distinct parse_date f :
  distinct_keys ["compra"]%string
    (rows (select_cols ["compra"; "id_tempo"]%string (dim_tempo_natural parse_date f))).
Proof.
  rewrite tempo_right_rows. apply distinct_keys_post; [apply tempo_right_key|].
  apply datas_distintas_distinct.
Qed.

Lemma rename_col_rows c c' df : rows (rename_col c c' df) = rename_in_row c c' <$> rows df.
Proof. done. Qed.

Lemma add_tempo_length parse_date st :
  length (rows (fato (add_tempo parse_date st))) = length (rows (fato st)).
Proof.
  unfold add_tempo. destruct (negb (has_col "compra" (fato st))).
  - cbn [fato]. by rewrite rename_col_rows, length_fmap.
  - cbv zeta. case_bool_decide; cbn [fato]; rewrite !rename_col_rows, !length_fmap;
      (rewrite merge_left_rows by apply tempo_right_distinct); by rewrite length_fmap.
Qed.

Lemma ordenar_colunas_rows chaves f :
  length (rows (ordenar_colunas chaves f)) = length (rows f).
Proof. unfold ordenar_colunas, select_cols. cbn [rows]. by rewrite length_fmap. Qed.

Lemma has_cols_stage df attrs pk prefixo dim fato cs :
  _criar_dimensao df attrs pk prefixo = Ok (dim, fato) →
  (∀ c, c ∈ cs → (c ∉ attrs) ∧ c ≠ pk ∧ c ≠ (pk +:+ "_x")%string ∧ c ≠ (pk +:+ "_y")%string) →
  has_cols cs fato = has_cols cs df.
Proof.
  intros Hok Hcs. apply eq_true_iff_eq. rewrite !has_cols_elem.
  split; intros H c Hc; destruct (Hcs c Hc) as (H1 & H2 & H3 & H4);
    [apply (criar_dimensao_columns df attrs pk prefixo dim fato c Hok H1 H2 H3 H4)
    |apply (criar_dimensao_columns df attrs pk prefixo dim fato c Hok H1 H2 H3 H4)];
    by apply H.
Qed.

Lemma missing_col_Some cs df c :
  missing_col cs df = Some c → c ∈ cs ∧ c ∉ columns df.
Proof.
  unfold missing_col. intros H. apply head_Some_elem_of in H.
  apply list_elem_of_filter in H as [H1 H2]. split; [done|].
  intros Hin. apply has_col_elem in Hin. congruence.
Qed.

Ltac fresh_names :=
  intros c Hc; rewrite !elem_of_cons, elem_of_nil in Hc;
  repeat (destruct Hc as [->|Hc]; [repeat split; first [discriminate | (intros Hin; apply (bool_decide_pack _) in Hin; vm_compute in Hin; exact Hin)]|]);
  destruct Hc.

(** X3.  On a table that has no column whose name is one of the five
    keys with a merge suffix, [criar_e_integrar_dimensoes] returns exactly
    when the table has at least one line and the attribute columns of the
    institution and of the product; the fact table then has the lines of
    the input, one for one.  It raises KeyError when one of these eight
    columns is missing, and IndexError, at the example key that its log
    message reads, when the table has the columns of the institution and
    no line.  Missing columns of the supplier or of the manufacturer, and
    a missing or unusable [compra], raise nothing. *)
Theorem dimensoes_retorna_ou_levanta parse_date df :
  (∀ c, c ∈ ["id_instituicao_x"; "id_instituicao_y"; "id_produto_x"; "id_produto_y";
             "id_fornecedor_x"; "id_fornecedor_y"; "id_fabricante_x"; "id_fabricante_y";
             "id_tempo_x"; "id_tempo_y"]%string → c ∉ columns df) →
  match criar_e_integrar_dimensoes parse_date df with
  | Ok (dims, fato) =>
      rows df ≠ [] ∧ has_cols (col_inst ++ col_prod) df = true ∧
      length (rows fato) = length (rows df)
  | Raise (KeyError c) =>
      (c ∉ columns df) ∧
      (c ∈ col_inst ∨ (c ∈ col_prod ∧ has_cols col_inst df = true ∧ rows df ≠ []))
  | Raise IndexError => rows df = [] ∧ has_cols col_inst df = true
  end.
Proof.
  intros _. unfold criar_e_integrar_dimensoes. cbv zeta.
  set (st0 := {| exported := []; chaves_dimensao := ["id_pedido"%string]; fato := df |}).
  pose proof (add_dimensao_cases "instituicao" col_inst "id_instituicao" "Ins" st0) as H1.
  destruct (add_dimensao "instituicao" col_inst "id_instituicao" "Ins" st0) as [st1|e1].
  2:{ cbn [mbind result_bind]. pose proof (criar_dimensao_cases df col_inst "id_instituicao" "Ins") as Hc.
      cbn [fato st0] in H1. rewrite H1 in Hc. destruct e1 as [c|].
      - destruct Hc as [Hc1 Hc2]. split; [done|by left].
      - destruct Hc as [Hc1 Hc2]. split; [done|]. by apply has_cols_elem. }
  cbn [mbind result_bind]. destruct H1 as (dim1 & Hok1 & _ & _). cbn [fato st0] in Hok1.
  pose proof (criar_dimensao_inv2 _ _ _ _ _ _ Hok1) as (Hc1 & Hne1 & _ & _).
  assert (Hl1 : length (rows (fato st1)) = length (rows df)).
  { apply (criar_dimensao_length _ _ _ _ _ _ Hok1).
    intros Hin. apply (bool_decide_pack _) in Hin. vm_compute in Hin. exact Hin. }
  assert (Hp1 : has_cols col_prod (fato st1) = has_cols col_prod df).
  { apply (has_cols_stage _ _ _ _ _ _ _ Hok1). unfold col_prod. fresh_names. }
  pose proof (add_dimensao_cases "produto" col_prod "id_produto" "Pro" st1) as H2.
  destruct (add_dimensao "produto" col_prod "id_produto" "Pro" st1) as [st2|e2].
  2:{ cbn [mbind result_bind].
      pose proof (criar_dimensao_cases (fato st1) col_prod "id_produto" "Pro") as Hc.
      rewrite H2 in Hc. destruct e2 as [c|].
      - destruct Hc as [Hc2 Hc3]. split.
        + intros Hin. apply Hc3.
          apply (criar_dimensao_columns _ _ _ _ _ _ c Hok1); [..|done];
            revert Hc2; unfold col_prod; rewrite !elem_of_cons, elem_of_nil;
            intros [->|[->|[->|[->|[]]]]]; first [discriminate | (intros Hin'; apply (bool_decide_pack _) in Hin'; vm_compute in Hin'; exact Hin')].
        + right. split; [done|]. split; [by apply has_cols_elem|done].
      - destruct Hc as [_ Hc]. rewrite Hc in Hl1. destruct (rows df); done. }
  cbn [mbind result_bind]. destruct H2 as (dim2 & Hok2 & _ & _).
  pose proof (criar_dimensao_inv2 _ _ _ _ _ _ Hok2) as (Hc2 & _ & _ & _).
  assert (Hl2 : length (rows (fato st2)) = length (rows df)).
  { rewrite <- Hl1. apply (criar_dimensao_length _ _ _ _ _ _ Hok2).
    intros Hin. apply (bool_decide_pack _) in Hin. vm_compute in Hin. exact Hin. }
  assert (Hne2 : rows (fato st2) ≠ []).
  { intros E. rewrite E in Hl2. destruct (rows df); done. }
  (* the supplier *)
  assert (H3 : ∃ st3, (if has_cols col_forn (fato st2)
                       then add_dimensao "fornecedor" col_forn "id_fornecedor" "For" st2
                       else Ok st2) = Ok st3
                      ∧ length (rows (fato st3)) = length (rows df)).
  { destruct (has_cols col_forn (fato st2)) eqn:Ef; [|by exists st2].
    pose proof (add_dimensao_cases "fornecedor" col_forn "id_fornecedor" "For" st2) as H3.
    pose proof (criar_dimensao_cases (fato st2) col_forn "id_fornecedor" "For") as Hc.
    destruct (add_dimensao "fornecedor" col_forn "id_fornecedor" "For" st2) as [st3|e3].
    - exists st3. split; [done|]. destruct H3 as (dim3 & Hok3 & _). rewrite <- Hl2.
      apply (criar_dimensao_length _ _ _ _ _ _ Hok3).
      intros Hin. apply (bool_decide_pack _) in Hin. vm_compute in Hin. exact Hin.
    - rewrite H3 in Hc. destruct e3 as [c|].
      + destruct Hc as [Hc3 Hc4]. exfalso. apply Hc4. by apply (has_cols_elem col_forn).
      + by destruct Hc as [_ Hc]. }
  destruct H3 as (st3 & -> & Hl3). cbn [mbind result_bind].
  assert (Hne3 : rows (fato st3) ≠ []).
  { intros E. rewrite E in Hl3. destruct (rows df); done. }
  assert (H4 : ∃ st4, (if has_cols col_fabr (fato st3)
                       then add_dimensao "fabricante" col_fabr "id_fabricante" "Fab" st3
                       else Ok st3) = Ok st4
                      ∧ length (rows (fato st4)) = length (rows df)).
  { destruct (has_cols col_fabr (fato st3)) eqn:Ef; [|by exists st3].
    pose proof (add_dimensao_cases "fabricante" col_fabr "id_fabricante" "Fab" st3) as H4.
    pose proof (criar_dimensao_cases (fato st3) col_fabr "id_fabricante" "Fab") as Hc.
    destruct (add_dimensao "fabricante" col_fabr "id_fabricante" "Fab" st3) as [st4|e4].
    - exists st4. split; [done|]. destruct H4 as (dim4 & Hok4 & _). rewrite <- Hl3.
      apply (criar_dimensao_length _ _ _ _ _ _ Hok4).
      intros Hin. apply (bool_decide_pack _) in Hin. vm_compute in Hin. exact Hin.
    - rewrite H4 in Hc. destruct e4 as [c|].
      + destruct Hc as [Hc3 Hc4]. exfalso. apply Hc4. by apply (has_cols_elem col_fabr).
      + by destruct Hc as [_ Hc]. }
  destruct H4 as (st4 & -> & Hl4). cbn [mbind result_bind].
  split; [done|]. split.
  - rewrite has_cols_app, andb_true_iff. split; [by apply has_cols_elem|].
    rewrite <- Hp1. by apply has_cols_elem.
  - by rewrite ordenar_colunas_rows, add_tempo_length.
Qed.

Lemma dimensoes_retorna_ou_levanta_witness :
  (∀ c, c ∈ ["id_instituicao_x"; "id_instituicao_y"; "id_produto_x"; "id_produto_y";
             "id_fornecedor_x"; "id_fornecedor_y"; "id_fabricante_x"; "id_fabricante_y";
             "id_tempo_x"; "id_tempo_y"]%string → c ∉ columns consolidado_completo) ∧
  match criar_e_integrar_dimensoes parse_none consolidado_completo with
  | Ok (dims, fato) =>
      rows consolidado_completo ≠ [] ∧
      has_cols (col_inst ++ col_prod) consolidado_completo = true ∧
      length (rows fato) = length (rows consolidado_completo)
  | Raise (KeyError c) =>
      (c ∉ columns consolidado_completo) ∧
      (c ∈ col_inst ∨
       (c ∈ col_prod ∧ has_cols col_inst consolidado_completo = true ∧
        rows consolidado_completo ≠ []))
  | Raise IndexError =>
      rows consolidado_completo = [] ∧ has_cols col_inst consolidado_completo = true
  end.
Proof.
  assert (H : ∀ c, c ∈ ["id_instituicao_x"; "id_instituicao_y"; "id_produto_x";
                        "id_produto_y"; "id_fornecedor_x"; "id_fornecedor_y";
                        "id_fabricante_x"; "id_fabricante_y"; "id_tempo_x";
                        "id_tempo_y"]%string → c ∉ columns consolidado_completo).
  { apply Forall_forall, (bool_decide_unpack _). vm_compute. exact I. }
  split; [exact H|].
  exact (dimensoes_retorna_ou_levanta parse_none consolidado_completo H).
Defined.

(** The complete table of the examples goes through: five dimensions are
    exported and the fact keeps its lines. *)
Example dimensoes_do_exemplo :
  match criar_e_integrar_dimensoes parse_none consolidado_completo with
  | Ok (dims, fato) =>
      dims.*1 = ["instituicao"; "produto"; "fornecedor"; "fabricante"; "tempo"]%string ∧
      length (rows fato) = length (rows consolidado_completo)
  | Raise _ => False
  end.
Proof. vm_compute. done. Qed.

Lemma cell_eqb_datetime a b :
  cell_eqb a b = true → is_datetime b = true → a = b.
Proof.
  destruct a as [| | |y m d], b as [| | |y' m' d']; simpl; try done.
  rewrite !andb_true_iff, !Z.eqb_eq. intros [[-> ->] ->] _. done.
Qed.

Lemma to_datetime_id parse_date c : is_datetime c = true → to_datetime parse_date c = c.
Proof. intros H. unfold to_datetime. by rewrite H. Qed.

Lemma sfx_nil s (l : list string) : sfx [] s <$> l = l.
Proof.
  rewrite <- (list_fmap_id l) at 2. apply list_fmap_ext. intros i c _.
  unfold sfx. rewrite bool_decide_eq_false_2; [done|apply not_elem_of_nil].
Qed.

Section Tempo.
Variable parse_date : cell → cell.
Variable f : DataFrame.
Hypothesis Hdt : ∀ r, r ∈ rows f → is_datetime (get "compra" r) = true.

Lemma datas_distintas_datetime x :
  x ∈ datas_distintas parse_date f →
  is_datetime (get "compra" x) = true ∧ notna (get "compra" x) = true.
Proof.
  intros Hx. unfold datas_distintas in Hx. apply list_elem_of_filter in Hx as [Hn Hx].
  apply dedup_by_elem in Hx. apply list_elem_of_fmap in Hx as (r & -> & Hr).
  rewrite get_select_row in * by elem_by_eval. specialize (Hdt r Hr).
  split; [done|]. by rewrite to_datetime_id in Hn.
Qed.

(** The distinct date of a line that has one. *)
Lemma datas_distintas_cover r :
  r ∈ rows f → notna (get "compra" r) = true →
  ∃ y, y ∈ datas_distintas parse_date f ∧ get "compra" y = get "compra" r.
Proof.
  intros Hr Hn.
  assert (Hs : select_row ["compra"]%string r ∈ select_row ["compra"]%string <$> rows f)
    by (by apply list_elem_of_fmap_2).
  destruct (dedup_by_cover (same_on ["compra"]%string) (same_on_trans _) _ _
              (same_on_refl _ _) Hs) as (y & Hy & Hyr).
  assert (E : get "compra" y = get "compra" r).
  { unfold same_on, key_of in Hyr. simpl in Hyr. rewrite andb_true_r in Hyr.
    rewrite (get_select_row ["compra"]%string r) in Hyr by elem_by_eval.
    apply cell_eqb_datetime; [done|by apply Hdt]. }
  exists y. split; [|done]. unfold datas_distintas. apply list_elem_of_filter. split; [|done].
  rewrite E, to_datetime_id by (by apply Hdt). done.
Qed.

(** The key of time that the merge brings to a line. *)
Lemma tempo_lookup r :
  r ∈ rows f →
  from_option (get "id_tempo") NaN
    (lookup_row ["compra"]%string r
       (rows (select_cols ["compra"; "id_tempo"]%string (dim_tempo_natural parse_date f))))
  = id_tempo_of (get "compra" r).
Proof.
  intros Hr. destruct (notna (get "compra" r)) eqn:En.
  - destruct (datas_distintas_cover r Hr En) as (y & Hy & E).
    rewrite (lookup_row_in _ _ _
               (select_row ["compra"; "id_tempo"]%string (tempo_row parse_date y))).
    + cbn [from_option]. rewrite get_select_row by elem_by_eval.
      destruct (tempo_row_gets parse_date y) as (_ & -> & _).
      rewrite E, to_datetime_id by (by apply Hdt). done.
    + apply tempo_right_distinct.
    + rewrite tempo_right_rows.
      by apply (list_elem_of_fmap_2
                  (λ r, select_row ["compra"; "id_tempo"]%string (tempo_row parse_date r))).
    + rewrite tempo_right_key. unfold key_of. simpl. rewrite E, andb_true_r.
      apply cell_eqb_refl.
  - rewrite lookup_row_none.
    + destruct (get "compra" r); done.
    + intros s Hs. rewrite tempo_right_rows in Hs.
      apply list_elem_of_fmap in Hs as (x & -> & Hx). rewrite tempo_right_key.
      apply datas_distintas_datetime in Hx as [_ Hx]. unfold key_of. simpl.
      rewrite andb_true_r. destruct (get "compra" r), (get "compra" x); done.
Qed.

End Tempo.

Lemma mk_row_is_Some cs vs c :
  length cs = length vs → is_Some (mk_row cs vs !! c) ↔ c ∈ cs.
Proof.
  intros Hl. unfold mk_row. rewrite <- not_eq_None_Some, <- not_elem_of_list_to_map.
  rewrite fst_zip by lia. split; [apply dec_stable|by intros ? ?].
Qed.

Lemma frame_bem_formada cs vss :
  (∀ vs, vs ∈ vss → length cs = length vs) → bem_formada (frame cs vss).
Proof.
  intros Hl r Hr c. unfold frame in *. cbn [rows columns] in *.
  apply list_elem_of_fmap in Hr as (vs & -> & Hvs). by apply mk_row_is_Some, Hl.
Qed.

Lemma distinct_by_ext_in {A} (e1 e2 : A → A → bool) l :
  (∀ x y, x ∈ l → y ∈ l → e1 x y = e2 x y) → distinct_by e1 l → distinct_by e2 l.
Proof.
  induction l as [|a l IH]; intros He Hd; [done|]. destruct Hd as [Ha Hd]. split.
  - intros y Hy. rewrite <- He; [by apply Ha|by left|by right].
  - apply IH; [|done]. intros x y Hx Hy. apply He; by right.
Qed.

(** X4.  The time dimension.  When the table has [compra], a column of
    dates or missing values with at least one date, and has neither
    [id_tempo] nor [data_compra], the time dimension is exported and
    [id_tempo] joins the keys; a row of the dimension holds a date, its
    key year * 10000 + month * 100 + day, its year, month, day and
    quarter (month - 1) div 3 + 1; every date of the table has its row
    and no two rows hold the same date; the fact keeps its lines in
    order, [compra] is renamed [data_compra], and a line receives the key
    of its date, a missing key when it has no date; the other columns
    are unchanged. *)
Theorem tempo_integra parse_date st :
  bem_formada (fato st) →
  has_col "compra" (fato st) = true →
  ("id_tempo"%string ∉ columns (fato st)) →
  ("data_compra"%string ∉ columns (fato st)) →
  (∀ r, r ∈ rows (fato st) → is_datetime (get "compra" r) = true) →
  (∃ r, r ∈ rows (fato st) ∧ notna (get "compra" r) = true) →
  let st' := add_tempo parse_date st in
  chaves_dimensao st' = chaves_dimensao st ++ ["id_tempo"%string] ∧
  (∃ dim,
     exported st' = exported st ++ [("tempo"%string, dim)] ∧
     columns dim = ["id_tempo"; "data_completa"; "ano"; "mes"; "dia"; "trimestre"]%string ∧
     (∀ d, d ∈ rows dim →
        ∃ y m dd, get "data_completa" d = Date y m dd ∧
          get "id_tempo" d = Num (inject_Z (y * 10000 + m * 100 + dd)) ∧
          get "ano" d = Num (inject_Z y) ∧ get "mes" d = Num (inject_Z m) ∧
          get "dia" d = Num (inject_Z dd) ∧
          get "trimestre" d = Num (inject_Z ((m - 1) / 3 + 1))) ∧
     (∀ r, r ∈ rows (fato st) → notna (get "compra" r) = true →
        ∃ d, d ∈ rows dim ∧ get "data_completa" d = get "compra" r) ∧
     distinct_by (λ d e, cell_eqb (get "data_completa" d) (get "data_completa" e))
       (rows dim)) ∧
  columns (fato st')
  = (renomear "compra" "data_compra" <$> columns (fato st)) ++ ["id_tempo"%string] ∧
  length (rows (fato st')) = length (rows (fato st)) ∧
  ∀ i r, rows (fato st) !! i = Some r →
    ∃ r', rows (fato st') !! i = Some r' ∧
      get "id_tempo" r' = id_tempo_of (get "compra" r) ∧
      get "data_compra" r' = get "compra" r ∧
      r' !! "compra"%string = None ∧
      ∀ c, c ≠ "id_tempo"%string → c ≠ "compra"%string → c ≠ "data_compra"%string →
           r' !! c = r !! c.
Proof.
  intros Hwf Hc Hnt Hnd Hdt (r0 & Hr0 & Hn0) st'.
  set (f := fato st) in *.
  set (nat_ := dim_tempo_natural parse_date f).
  set (R := select_cols ["compra"; "id_tempo"]%string nat_).
  assert (Hdim : rows (select_cols ["id_tempo"; "data_completa"; "ano"; "mes"; "dia";
                                    "trimestre"]%string nat_)
                 = (λ x, select_row ["id_tempo"; "data_completa"; "ano"; "mes"; "dia";
                                     "trimestre"]%string (tempo_row parse_date x))
                     <$> datas_distintas parse_date f).
  { unfold select_cols. cbn [rows]. unfold nat_.
    by rewrite dim_tempo_natural_rows, <- list_fmap_compose. }
  assert (Hnonempty : rows (select_cols ["id_tempo"; "data_completa"; "ano"; "mes"; "dia";
                                         "trimestre"]%string nat_) ≠ []).
  { rewrite Hdim. destruct (datas_distintas_cover parse_date f Hdt r0 Hr0 Hn0) as (y & Hy & _).
    intros E. apply fmap_nil_inv in E. rewrite E in Hy. by apply elem_of_nil in Hy. }
  assert (Hst' : st' = {| exported := exported st ++ [("tempo"%string,
                            select_cols ["id_tempo"; "data_completa"; "ano"; "mes"; "dia";
                                         "trimestre"]%string nat_)];
                          chaves_dimensao := chaves_dimensao st ++ ["id_tempo"%string];
                          fato := rename_col "compra" "data_compra"
                                    (merge_left ["compra"]%string f R) |}).
  { unfold st', add_tempo. fold f. rewrite Hc. simpl negb. cbv iota zeta. fold nat_.
    by rewrite bool_decide_eq_false_2. }
  rewrite Hst'. cbn [exported chaves_dimensao fato].
  assert (Hov : overlap ["compra"]%string f R = []).
  { apply overlap_nil. intros c Hc'. change (columns R) with ["compra"; "id_tempo"]%string in Hc'.
    rewrite !elem_of_cons, elem_of_nil in Hc'. destruct Hc' as [->|[->|[]]]; [left; by left|by right]. }
  assert (Hrows : rows (rename_col "compra" "data_compra" (merge_left ["compra"]%string f R))
                  = (λ r, rename_in_row "compra" "data_compra"
                            (merge_row ["compra"]%string [] ["compra"; "id_tempo"]%string r
                               (lookup_row ["compra"]%string r (rows R))))
                      <$> rows f).
  { rewrite rename_col_rows, merge_left_rows by apply tempo_right_distinct.
    by rewrite Hov, <- list_fmap_compose. }
  split; [done|]. split; [|split; [|split]].
  - eexists. split; [reflexivity|]. split; [done|]. rewrite Hdim. split; [|split].
    + intros d Hd. apply list_elem_of_fmap in Hd as (x & -> & Hx).
      destruct (datas_distintas_datetime parse_date f Hdt x Hx) as [Hx1 Hx2].
      destruct (tempo_row_gets parse_date x) as (G1 & G2 & G3 & G4 & G5 & G6).
      rewrite !get_select_row by elem_by_eval.
      rewrite G1, G2, G3, G4, G5, G6, to_datetime_id by done.
      destruct (get "compra" x) as [| | |y m dd]; try done. by exists y, m, dd.
    + intros r Hr Hn. destruct (datas_distintas_cover parse_date f Hdt r Hr Hn) as (y & Hy & E).
      eexists. split.
      * apply (list_elem_of_fmap_2
                 (λ x, select_row ["id_tempo"; "data_completa"; "ano"; "mes"; "dia";
                                   "trimestre"]%string (tempo_row parse_date x))). exact Hy.
      * rewrite get_select_row by elem_by_eval.
        destruct (tempo_row_gets parse_date y) as (-> & _).
        rewrite E, to_datetime_id; [done|by apply Hdt].
    + apply distinct_by_fmap.
      eapply distinct_by_ext_in; [|apply (datas_distintas_distinct parse_date f)].
      intros x y Hx Hy. cbv beta. unfold same_on, key_of. cbn [fmap list_fmap key_eqb].
      rewrite andb_true_r.
      rewrite !get_select_row by elem_by_eval.
      destruct (tempo_row_gets parse_date x) as (-> & _).
      destruct (tempo_row_gets parse_date y) as (-> & _).
      apply (datas_distintas_datetime parse_date f Hdt) in Hx as [Hx _].
      apply (datas_distintas_datetime parse_date f Hdt) in Hy as [Hy _].
      by rewrite !to_datetime_id.
  - unfold rename_col, merge_left. cbn [columns]. rewrite Hov, !sfx_nil, fmap_app.
    change (columns R) with ["compra"; "id_tempo"]%string. done.
  - by rewrite Hrows, length_fmap.
  - intros i r Hr. rewrite Hrows, list_lookup_fmap, Hr. cbn [fmap option_fmap option_map].
    eexists. split; [reflexivity|].
    assert (Hin : r ∈ rows f) by (by eapply list_elem_of_lookup_2).
    set (lk := lookup_row ["compra"]%string r (rows R)).
    set (r1 := merge_row ["compra"]%string [] ["compra"; "id_tempo"]%string r lk).
    assert (G1 : get "id_tempo" r1 = id_tempo_of (get "compra" r)).
    { unfold r1. rewrite merge_row_new; [|elem_by_eval|];
        [|intros H; apply (bool_decide_pack _) in H; vm_compute in H; done].
      by apply tempo_lookup. }
    assert (G2 : ∀ c, c ≠ "id_tempo"%string → r1 !! c = r !! c).
    { intros c Hne. apply merge_row_old.
      destruct (decide (c = "compra"%string)) as [->|Hne']; [right; by left|].
      left. rewrite !elem_of_cons, elem_of_nil. intros [?|[?|[]]]; done. }
    destruct (proj2 (Hwf r Hin "compra"%string)) as [v Hv]; [by apply has_col_elem|].
    assert (Hdc : r !! "data_compra"%string = None).
    { apply eq_None_not_Some. intros H. by apply (Hwf r Hin) in H. }
    unfold rename_in_row. rewrite G2, Hv by discriminate.
    split; [|split; [|split]].
    + unfold get. rewrite lookup_insert_ne, lookup_delete_ne by discriminate. apply G1.
    + rewrite get_insert_eq. unfold get. by rewrite Hv.
    + rewrite lookup_insert_ne by discriminate. apply lookup_delete_eq.
    + intros c H1 H2 H3. rewrite lookup_insert_ne, lookup_delete_ne by done. by apply G2.
Qed.

(** The table of four lines meets the hypotheses. *)
Lemma tempo_integra_witness :
  chaves_dimensao (add_tempo parse_none estado_datas) = ["id_pedido"; "id_tempo"]%string ∧
  ∃ dim, exported (add_tempo parse_none estado_datas) = [("tempo"%string, dim)].
Proof.
  assert (H1 : bem_formada (fato estado_datas)).
  { apply frame_bem_formada. apply Forall_forall.
    apply (bool_decide_unpack _). vm_compute. exact I. }
  assert (H2 : has_col "compra" (fato estado_datas) = true) by (vm_compute; reflexivity).
  assert (H3 : "id_tempo"%string ∉ columns (fato estado_datas)).
  { intros H. apply (bool_decide_pack _) in H. vm_compute in H. exact H. }
  assert (H4 : "data_compra"%string ∉ columns (fato estado_datas)).
  { intros H. apply (bool_decide_pack _) in H. vm_compute in H. exact H. }
  assert (H5 : ∀ r, r ∈ rows (fato estado_datas) → is_datetime (get "compra" r) = true).
  { apply Forall_forall. apply (bool_decide_unpack _). vm_compute. exact I. }
  assert (H6 : ∃ r, r ∈ rows (fato estado_datas) ∧ notna (get "compra" r) = true).
  { exists (mk_row ["id_pedido"; "compra"; "preco_total"]%string
              [Str "a"; Date 2023 1 5; Num 20]).
    split; [by left|vm_compute; reflexivity]. }
  destruct (tempo_integra parse_none estado_datas H1 H2 H3 H4 H5 H6)
    as (Hk & (dim & Hd & _) & _).
  split; [exact Hk|]. exists dim. exact Hd.
Defined.

(** The keys of the example: 20230105 twice, 20241130 and none. *)
Example tempo_do_exemplo :
  key_eqb (col "id_tempo" (fato (add_tempo parse_none estado_datas)))
    [Num 20230105; Num 20241130; Num 20230105; NaN] = true ∧
  columns (fato (add_tempo parse_none estado_datas))
  = ["id_pedido"; "data_compra"; "preco_total"; "id_tempo"]%string.
Proof. vm_compute. done. Qed.

(** ** The columns along [criar_e_integrar_dimensoes] *)

Lemma criar_dimensao_sem_atributos df attrs pk prefixo dim fato c :
  _criar_dimensao df attrs pk prefixo = Ok (dim, fato) → c ∈ attrs → c ∉ columns fato.
Proof.
  intros Hok Hc. apply criar_dimensao_inv2 in Hok as (_ & _ & _ & ->).
  rewrite foldl_drop_col_columns, list_elem_of_filter. tauto.
Qed.

Lemma rename_col_columns_elem a b df c :
  c ∈ columns (rename_col a b df) → c = b ∨ c ∈ columns df.
Proof.
  unfold rename_col. cbn [columns]. intros H. apply list_elem_of_fmap in H as (x & -> & Hx).
  destruct (String.eqb x a); [by left|by right].
Qed.

Lemma merge_left_columns_elem ks left right c :
  c ∈ columns (merge_left ks left right) →
  c ∈ columns left ∨ c ∈ columns right ∨
  ∃ c0, c0 ∈ columns right ∧ (c = (c0 +:+ "_x")%string ∨ c = (c0 +:+ "_y")%string).
Proof.
  unfold merge_left. cbn [columns]. rewrite elem_of_app.
  intros [H|H]; apply list_elem_of_fmap in H as (x & -> & Hx); unfold sfx; case_bool_decide as E.
  - apply overlap_elem in E as [_ E]. right. right. exists x. split; [done|by left].
  - by left.
  - apply overlap_elem in E as [_ E]. right. right. exists x. split; [done|by right].
  - apply list_elem_of_filter in Hx as [_ Hx]. right. by left.
Qed.

Lemma add_tempo_columns_elem parse_date st c :
  c ∈ columns (fato (add_tempo parse_date st)) →
  c ∈ columns (fato st)
  ∨ c ∈ ["compra"; "data_compra"; "id_tempo"; "compra_x"; "compra_y"; "id_tempo_x";
         "id_tempo_y"]%string.
Proof.
  assert (Hm : ∀ c, c ∈ columns (merge_left ["compra"]%string (fato st)
                                    (select_cols ["compra"; "id_tempo"]%string
                                       (dim_tempo_natural parse_date (fato st)))) →
               c ∈ columns (fato st)
               ∨ c ∈ ["compra"; "data_compra"; "id_tempo"; "compra_x"; "compra_y"; "id_tempo_x";
                      "id_tempo_y"]%string).
  { intros x Hx. apply merge_left_columns_elem in Hx as [Hx|[Hx|(c0 & Hc0 & Hx)]]; [by left|..];
      cbn [columns select_cols] in *; right;
      rewrite !elem_of_cons, elem_of_nil in *.
    - destruct Hx as [->|[->|[]]]; tauto.
    - destruct Hc0 as [->|[->|[]]]; destruct Hx as [->| ->]; simpl; tauto. }
  unfold add_tempo. destruct (negb (has_col "compra" (fato st))).
  - cbn [fato]. intros H. apply rename_col_columns_elem in H as [->|H]; [right; elem_by_eval|by left].
  - cbv zeta. case_bool_decide as Hemp; cbn [fato]; intros Hin.
    + apply rename_col_columns_elem in Hin as [->|Hin]; [right; elem_by_eval|].
      apply rename_col_columns_elem in Hin as [->|Hin]; [right; elem_by_eval|]. by apply Hm.
    + apply rename_col_columns_elem in Hin as [->|Hin]; [right; elem_by_eval|]. by apply Hm.
Qed.

Lemma ordenar_colunas_columns_elem chaves f c :
  c ∈ columns (ordenar_colunas chaves f) → c ∈ columns f.
Proof.
  unfold ordenar_colunas, select_cols. cbn [columns]. rewrite !elem_of_app.
  intros [H|[H|H]]; apply list_elem_of_filter in H; tauto.
Qed.

(** A column that no stage of the function makes: it is in the fact that
    is returned only if each stage received it. *)
Lemma dimensoes_stage_sem c nome cols chave prefixo st st' :
  add_dimensao nome cols chave prefixo st = Ok st' →
  c ≠ chave → c ≠ (chave +:+ "_x")%string → c ≠ (chave +:+ "_y")%string →
  c ∉ columns (fato st) → c ∉ columns (fato st').
Proof.
  intros Hok H1 H2 H3 Hc Hin.
  pose proof (add_dimensao_cases nome cols chave prefixo st) as H. rewrite Hok in H.
  destruct H as (dim & Hd & _).
  destruct (decide (c ∈ cols)) as [Hcols|Hcols].
  - by apply (criar_dimensao_sem_atributos _ _ _ _ _ _ c Hd).
  - by apply (criar_dimensao_columns _ _ _ _ _ _ c Hd Hcols H1 H2 H3) in Hin.
Qed.

(** X5.  In the fact table that [criar_e_integrar_dimensoes] returns the
    column [codigo_br] is gone, consumed by the product dimension: the
    z-score stage that [main] runs next finds its columns missing and
    returns the table as it is. *)
Theorem zscore_depois_das_dimensoes Qsqrt parse_date df dims df_fato :
  criar_e_integrar_dimensoes parse_date df = Ok (dims, df_fato) →
  ("codigo_br"%string ∉ columns df_fato) ∧ calcular_zscore_risco Qsqrt df_fato = df_fato.
Proof.
  intros Hok.
  assert (Hno : "codigo_br"%string ∉ columns df_fato).
  { unfold criar_e_integrar_dimensoes in Hok. cbv zeta in Hok.
    set (st0 := {| exported := []; chaves_dimensao := ["id_pedido"%string]; fato := df |}) in *.
    destruct (add_dimensao "instituicao" col_inst "id_instituicao" "Ins" st0)
      as [st1|] eqn:E1; [|done].
    cbn [mbind result_bind] in Hok.
    destruct (add_dimensao "produto" col_prod "id_produto" "Pro" st1) as [st2|] eqn:E2; [|done].
    cbn [mbind result_bind] in Hok.
    assert (H2 : "codigo_br"%string ∉ columns (fato st2)).
    { pose proof (add_dimensao_cases "produto" col_prod "id_produto" "Pro" st1) as H.
      rewrite E2 in H. destruct H as (dim & Hd & _).
      apply (criar_dimensao_sem_atributos _ _ _ _ _ _ _ Hd). elem_by_eval. }
    destruct (if has_cols col_forn (fato st2)
              then add_dimensao "fornecedor" col_forn "id_fornecedor" "For" st2
              else Ok st2) as [st3|] eqn:E3; [|done].
    cbn [mbind result_bind] in Hok.
    assert (H3 : "codigo_br"%string ∉ columns (fato st3)).
    { destruct (has_cols col_forn (fato st2)); [|by injection E3 as <-].
      by apply (dimensoes_stage_sem _ _ _ _ _ _ _ E3). }
    destruct (if has_cols col_fabr (fato st3)
              then add_dimensao "fabricante" col_fabr "id_fabricante" "Fab" st3
              else Ok st3) as [st4|] eqn:E4; [|done].
    cbn [mbind result_bind] in Hok.
    assert (H4 : "codigo_br"%string ∉ columns (fato st4)).
    { destruct (has_cols col_fabr (fato st3)); [|by injection E4 as <-].
      by apply (dimensoes_stage_sem _ _ _ _ _ _ _ E4). }
    injection Hok as _ <-. intros Hin. apply ordenar_colunas_columns_elem in Hin.
    apply add_tempo_columns_elem in Hin as [Hin|Hin]; [done|].
    apply (bool_decide_pack _) in Hin. vm_compute in Hin. exact Hin. }
  split; [done|]. apply zscore_guard. unfold zscore_cols, has_cols. simpl.
  apply not_true_iff_false. intros H. apply andb_true_iff in H as [_ H].
  apply andb_true_iff in H as [H _]. by apply has_col_elem in H.
Qed.

(** The table without supplier columns goes through the dimensions. *)
Lemma zscore_depois_das_dimensoes_witness :
  ∃ dims fato,
    criar_e_integrar_dimensoes parse_none consolidado_sem_fornecedor = Ok (dims, fato) ∧
    calcular_zscore_risco Qsqrt12 fato = fato.
Proof.
  assert (H : ∃ dims fato,
            criar_e_integrar_dimensoes parse_none consolidado_sem_fornecedor = Ok (dims, fato))
    by (eexists _, _; vm_compute; reflexivity).
  destruct H as (dims & fato & H). exists dims, fato. split; [exact H|].
  apply (zscore_depois_das_dimensoes Qsqrt12 parse_none consolidado_sem_fornecedor dims fato H).
Defined.

(** ** The z-score applied twice *)

Lemma frame_eq (a b : DataFrame) : columns a = columns b → rows a = rows b → a = b.
Proof. destruct a, b. simpl. by intros -> ->. Qed.

Lemma set_col_columns_has c f df : has_col c df = true → columns (set_col c f df) = columns df.
Proof. intros H. unfold set_col. cbn [columns]. by rewrite H. Qed.

Lemma zscore_columns_elem Qsqrt df c :
  has_cols zscore_cols df = true →
  c ∈ columns (calcular_zscore_risco Qsqrt df) ↔ c ∈ columns df ∨ c ∈ zscore_written.
Proof.
  intros Hc. unfold calcular_zscore_risco. rewrite Hc. cbv zeta. simpl negb. cbv iota.
  rewrite !set_col_columns_elem. unfold zscore_written.
  rewrite !elem_of_cons, elem_of_nil. tauto.
Qed.

Lemma zscore_columns_twice Qsqrt df :
  (∀ c, c ∈ zscore_written → c ∈ columns df) →
  columns (calcular_zscore_risco Qsqrt df) = columns df.
Proof.
  intros Hw. unfold calcular_zscore_risco. destruct (negb (has_cols zscore_cols df)); [done|].
  cbv zeta.
  assert (H : ∀ c, c ∈ zscore_written → has_col c df = true)
    by (intros c Hc; by apply has_col_elem, Hw).
  repeat (rewrite set_col_columns_has;
          [|repeat apply has_col_set_col; apply H; elem_by_eval]).
  done.
Qed.

Lemma zscore_row_zkey Qsqrt rs r : zkey (zscore_row Qsqrt rs r) = zkey r.
Proof.
  unfold zkey, get. rewrite !zscore_row_frame; [done|..];
    intros H; apply (bool_decide_pack _) in H; vm_compute in H; exact H.
Qed.

Lemma zscore_row_pmp Qsqrt rs r : pmp_individual (zscore_row Qsqrt rs r) = pmp_individual r.
Proof.
  unfold pmp_individual, get. rewrite !zscore_row_frame; [done|..];
    intros H; apply (bool_decide_pack _) in H; vm_compute in H; exact H.
Qed.

Lemma zgroup_pmp_twice Qsqrt rs r :
  zgroup_pmp (zscore_row Qsqrt rs <$> rs) (zscore_row Qsqrt rs r) = zgroup_pmp rs r.
Proof.
  unfold zgroup_pmp, zgroup. rewrite filter_fmap, omap_fmap'.
  rewrite (list_filter_iff _ (fun s => key_eqb (zkey s) (zkey r) = true))
    by (intros s; unfold compose; by rewrite !zscore_row_zkey).
  apply omap_ext_fun. intros s. unfold compose. by rewrite zscore_row_pmp.
Qed.

Lemma zscore_row_twice Qsqrt rs r :
  zscore_row Qsqrt (zscore_row Qsqrt rs <$> rs) (zscore_row Qsqrt rs r)
  = zscore_row Qsqrt rs r.
Proof.
  set (Z := zscore_row Qsqrt rs).
  assert (Hm : group_mean (Z <$> rs) (Z r) = group_mean rs r).
  { unfold group_mean, Z. by rewrite zscore_row_zkey, zgroup_pmp_twice. }
  assert (Hs : group_std Qsqrt (Z <$> rs) (Z r) = group_std Qsqrt rs r).
  { unfold group_std, Z. by rewrite zscore_row_zkey, zgroup_pmp_twice. }
  assert (Hz : score_z_spec Qsqrt (Z <$> rs) (Z r) = score_z_spec Qsqrt rs r).
  { unfold score_z_spec. rewrite Hm, Hs. unfold Z. by rewrite zscore_row_pmp. }
  assert (Hc : get "compra" (Z r) = get "compra" r).
  { unfold get, Z. rewrite zscore_row_frame; [done|].
    intros H; apply (bool_decide_pack _) in H; vm_compute in H; exact H. }
  assert (Hp : pmp_individual (Z r) = pmp_individual r) by apply zscore_row_pmp.
  unfold zscore_row at 1. cbv zeta. rewrite Hm, Hs, Hz, Hc, Hp.
  apply map_eq. intros c.
  assert (L1 : Z r !! "ano_compra"%string = Some (dt_year (get "compra" r))).
  { unfold Z, zscore_row. cbv zeta. rewrite !lookup_insert_ne by discriminate.
    apply lookup_insert_eq. }
  assert (L2 : Z r !! "pmp_individual"%string = Some (pmp_individual r)).
  { unfold Z, zscore_row. cbv zeta. rewrite !lookup_insert_ne by discriminate.
    apply lookup_insert_eq. }
  assert (L3 : Z r !! "pmp_medio"%string = Some (group_mean rs r)).
  { unfold Z, zscore_row. cbv zeta. rewrite !lookup_insert_ne by discriminate.
    apply lookup_insert_eq. }
  assert (L4 : Z r !! "pmp_desvio_padrao"%string = Some (fillna0 (group_std Qsqrt rs r))).
  { unfold Z, zscore_row. cbv zeta. rewrite !lookup_insert_ne by discriminate.
    apply lookup_insert_eq. }
  assert (L5 : Z r !! "score_z_risco"%string = Some (score_z_spec Qsqrt rs r)).
  { unfold Z, zscore_row. cbv zeta. apply lookup_insert_eq. }
  destruct (decide (c = "score_z_risco"%string)) as [->|N5];
    [by rewrite lookup_insert_eq, L5|].
  rewrite !(lookup_insert_ne _ "score_z_risco"%string) by done.
  destruct (decide (c = "pmp_desvio_padrao"%string)) as [->|N4];
    [by rewrite lookup_insert_eq, L4|].
  rewrite !(lookup_insert_ne _ "pmp_desvio_padrao"%string) by done.
  destruct (decide (c = "pmp_medio"%string)) as [->|N3];
    [by rewrite lookup_insert_eq, L3|].
  rewrite !(lookup_insert_ne _ "pmp_medio"%string) by done.
  destruct (decide (c = "pmp_individual"%string)) as [->|N2];
    [by rewrite lookup_insert_eq, L2|].
  rewrite !(lookup_insert_ne _ "pmp_individual"%string) by done.
  destruct (decide (c = "ano_compra"%string)) as [->|N1];
    [by rewrite lookup_insert_eq, L1|].
  by rewrite !(lookup_insert_ne _ "ano_compra"%string) by done.
Qed.

(** X6.  [calcular_zscore_risco] can be run again: applied to a table it
    has returned, it returns that table, columns and values ([gerar_id_pedido]
    runs it, and [main] runs it once more). *)
Theorem zscore_idempotente Qsqrt df :
  calcular_zscore_risco Qsqrt (calcular_zscore_risco Qsqrt df)
  = calcular_zscore_risco Qsqrt df.
Proof.
  destruct (has_cols zscore_cols df) eqn:Hc;
    [|rewrite (zscore_guard Qsqrt df Hc); by apply zscore_guard].
  set (out := calcular_zscore_risco Qsqrt df).
  assert (Hc' : has_cols zscore_cols out = true).
  { apply has_cols_elem. intros c Hin. apply zscore_columns_elem; [done|]. left.
    by apply (has_cols_elem zscore_cols df). }
  apply frame_eq.
  - apply zscore_columns_twice. intros c Hin. apply zscore_columns_elem; [done|by right].
  - rewrite (zscore_rows Qsqrt out Hc'). unfold out. rewrite (zscore_rows Qsqrt df Hc).
    rewrite <- list_fmap_compose. apply list_fmap_ext. intros i r _. unfold compose.
    apply zscore_row_twice.
Qed.

(** ** The columns of [gerar_id_pedido] *)

Lemma dropar_columns cs : ∀ df c,
  c ∈ columns (foldl (fun d c => if has_col c d then drop_col c d else d) df cs)
  ↔ c ∈ columns df ∧ c ∉ cs.
Proof.
  induction cs as [|c0 cs IH]; intros df c.
  - simpl. split; [intros H; split; [done|apply not_elem_of_nil]|tauto].
  - simpl. rewrite IH, not_elem_of_cons. destruct (has_col c0 df) eqn:E.
    + unfold drop_col. cbn [columns]. rewrite list_elem_of_filter. tauto.
    + split; [|tauto]. intros [H1 H2]. split; [done|]. split; [|done].
      intros ->. apply has_col_elem in H1. congruence.
Qed.

Lemma id_pedido_hashed_columns py_str df c :
  c ∈ columns (id_pedido_hashed py_str df)
  ↔ (c ∈ columns df ∨ (has_cols colunas_hash df = true ∧ c = "id_pedido"%string))
    ∧ c ∉ colunas_para_dropar.
Proof.
  unfold id_pedido_hashed. cbv zeta. rewrite dropar_columns.
  destruct (has_cols colunas_hash df).
  - rewrite set_col_columns_elem. tauto.
  - split; [tauto|]. intros [[H|[H _]] H']; [done|done].
Qed.

Lemma has_cols_hashed py_str df cs :
  (∀ c, c ∈ cs → c ∉ colunas_para_dropar) → (∀ c, c ∈ cs → c ≠ "id_pedido"%string) →
  has_cols cs (id_pedido_hashed py_str df) = has_cols cs df.
Proof.
  intros H1 H2. apply eq_true_iff_eq. rewrite !has_cols_elem. split; intros H c Hc.
  - specialize (H c Hc). apply id_pedido_hashed_columns in H as [[H|[_ H]] _]; [done|].
    by apply H2 in Hc.
  - apply id_pedido_hashed_columns. split; [left; by apply H|by apply H1].
Qed.

Lemma leading_col_elem c0 df c :
  c0 ∈ columns df → c ∈ columns (leading_col c0 df) ↔ c ∈ columns df.
Proof.
  intros H0. unfold leading_col. cbn [columns]. rewrite elem_of_cons, list_elem_of_filter.
  destruct (decide (c = c0)) as [->|Hne]; tauto.
Qed.

(** X7.  The columns that [gerar_id_pedido] returns for a table that is
    not empty: those of the input without unidade_fornecimento_capacidade,
    capacidade and unidade_medida, id_pedido when the eleven columns of the
    hash were there, and the five columns of the z-score when its four
    columns were there.  Three of the eleven columns of the hash never
    come out, so the identifier cannot be computed again from the table
    returned.  No line is lost. *)
Theorem gerar_id_pedido_colunas Qsqrt py_str df :
  df_empty df = false →
  let out := gerar_id_pedido Qsqrt py_str df in
  (∀ c, c ∈ columns out ↔
        (c ∈ columns df ∧ c ∉ colunas_para_dropar)
        ∨ (has_cols colunas_hash df = true ∧ c = "id_pedido"%string)
        ∨ (has_cols zscore_cols df = true ∧ c ∈ zscore_written)) ∧
  has_cols colunas_hash out = false ∧
  length (rows out) = length (rows df).
Proof.
  intros He out.
  set (H := id_pedido_hashed py_str df).
  set (df3 := calcular_zscore_risco Qsqrt H).
  assert (Hz : has_cols zscore_cols H = has_cols zscore_cols df).
  { apply has_cols_hashed; intros c Hc; unfold zscore_cols in Hc;
      rewrite !elem_of_cons, elem_of_nil in Hc;
      destruct Hc as [->|[->|[->|[->|[]]]]]; try discriminate;
      intros Hin; apply (bool_decide_pack _) in Hin; vm_compute in Hin; exact Hin. }
  assert (H3 : ∀ c, c ∈ columns df3 ↔
                    (c ∈ columns df ∧ c ∉ colunas_para_dropar)
                    ∨ (has_cols colunas_hash df = true ∧ c = "id_pedido"%string)
                    ∨ (has_cols zscore_cols df = true ∧ c ∈ zscore_written)).
  { intros c. unfold df3. destruct (has_cols zscore_cols df) eqn:Ez.
    - rewrite zscore_columns_elem by (by rewrite Hz). unfold H.
      rewrite id_pedido_hashed_columns.
      assert (Hid : "id_pedido"%string ∉ colunas_para_dropar).
      { intros Hin. apply (bool_decide_pack _) in Hin. vm_compute in Hin. exact Hin. }
      split; [tauto|]. intros [?|[[? ->]|[_ ?]]]; [tauto|left; tauto|tauto].
    - rewrite zscore_guard by (by rewrite Hz). unfold H. rewrite id_pedido_hashed_columns.
      assert (Hid : "id_pedido"%string ∉ colunas_para_dropar).
      { intros Hin. apply (bool_decide_pack _) in Hin. vm_compute in Hin. exact Hin. }
      split; [tauto|]. intros [?|[[? ->]|[? _]]]; [tauto|tauto|done]. }
  assert (Hout : (∀ c, c ∈ columns out ↔ c ∈ columns df3)
                 ∧ length (rows out) = length (rows df3)).
  { unfold out, gerar_id_pedido. rewrite He. fold H. fold df3.
    set (df4 := if has_col "compra" df3 && has_col "codigo_br" df3
                then sort_values ["compra"; "codigo_br"]%string df3
                else if has_col "compra" df3 then sort_values ["compra"]%string df3 else df3).
    assert (H4 : columns df4 = columns df3 ∧ length (rows df4) = length (rows df3)).
    { unfold df4. destruct (has_col "compra" df3 && has_col "codigo_br" df3);
        [|destruct (has_col "compra" df3)]; unfold sort_values; cbn [columns rows];
        (split; [done|]); try done; by rewrite sort_by_perm. }
    destruct H4 as [H4c H4r].
    destruct (has_col "id_pedido" df4) eqn:Eid.
    - split; [|by rewrite <- H4r]. intros c. rewrite leading_col_elem, H4c; [done|].
      by apply has_col_elem.
    - split; [|done]. intros c. by rewrite H4c. }
  destruct Hout as [Hoc Hor]. split; [|split].
  - intros c. rewrite Hoc. apply H3.
  - apply not_true_iff_false. rewrite has_cols_elem. intros Hall.
    specialize (Hall "capacidade"%string). rewrite Hoc, H3 in Hall.
    destruct Hall as [[_ Hall]|[[_ Hall]|[_ Hall]]]; [elem_by_eval|..].
    + apply Hall. elem_by_eval.
    + discriminate.
    + apply (bool_decide_pack _) in Hall. vm_compute in Hall. exact Hall.
  - rewrite Hor. unfold df3.
    destruct (enriched_rows Qsqrt py_str df) as (Z & HZ & _). fold H in HZ.
    by rewrite HZ, length_fmap.
Qed.

(** The table of one line meets the hypothesis. *)
Lemma gerar_id_pedido_colunas_witness :
  has_cols colunas_hash (gerar_id_pedido Qsqrt12 str_exemplo consolidado_uma_linha) = false.
Proof.
  assert (He : df_empty consolidado_uma_linha = false) by (vm_compute; reflexivity).
  apply (gerar_id_pedido_colunas Qsqrt12 str_exemplo consolidado_uma_linha He).
Defined.

(** ** The prioritization applied once, and once more *)

Lemma require_one_ok c df : c ∈ columns df → require [c] df = Ok tt.
Proof.
  intros H. apply require_ok. intros x Hx. by apply list_elem_of_singleton in Hx as ->.
Qed.

Lemma require_one_raise c df : c ∉ columns df → require [c] df = Raise (KeyError c).
Proof.
  intros H. apply require_missing. unfold missing_col. rewrite filter_cons_True; [done|].
  apply not_true_iff_false. by rewrite has_col_elem.
Qed.

Section Priorizacao.
Variable round4 : Q → Q.
Variable df : DataFrame.
Hypothesis Hc : has_cols prior_cols df = true.

Local Abbreviation P := (df_prioridade round4 df).
Local Abbreviation m := (merge_left ["id_produto"]%string df (df_prioridade round4 df)).

Lemma priorizacao_overlap c :
  c ∈ overlap ["id_produto"]%string df P ↔
  (c = "indice_priorizacao"%string ∨ c = "demanda_valor"%string) ∧ c ∈ columns df.
Proof.
  rewrite overlap_elem.
  change (columns P) with ["id_produto"; "indice_priorizacao"; "demanda_valor"]%string.
  rewrite !elem_of_cons, !elem_of_nil. split.
  - intros [[H1 H2] [->|[->|[->|[]]]]]; [destruct H2; by left|tauto|tauto].
  - intros [[->| ->] H]; (split; [split; [done|]|tauto]);
      intros Hin; apply (bool_decide_pack _) in Hin; vm_compute in Hin; exact Hin.
Qed.

Lemma priorizacao_lost c :
  c ∈ overlap ["id_produto"]%string df P → c ∉ columns m.
Proof.
  intros H0. apply merge_left_overlap_lost; [done|].
  intros c' Hc'. apply priorizacao_overlap in Hc' as [[->| ->] _];
    apply priorizacao_overlap in H0 as [[->| ->] _]; split; discriminate.
Qed.

Lemma priorizacao_kept c :
  (c = "indice_priorizacao"%string ∨ c = "demanda_valor"%string) →
  c ∉ columns df → c ∈ columns m.
Proof.
  intros Hc' Hn. unfold merge_left. cbn [columns]. apply elem_of_app. right.
  apply list_elem_of_fmap. exists c. split.
  - unfold sfx. rewrite bool_decide_eq_false_2; [done|].
    intros H. apply priorizacao_overlap in H as [_ H]. done.
  - change (columns P) with ["id_produto"; "indice_priorizacao"; "demanda_valor"]%string.
    destruct Hc' as [->| ->]; elem_by_eval.
Qed.

Lemma priorizacao_levanta_indice :
  "indice_priorizacao"%string ∈ columns df →
  calcular_indice_priorizacao round4 df = Raise (KeyError "indice_priorizacao").
Proof.
  intros Hin. unfold calcular_indice_priorizacao. rewrite Hc. simpl negb. cbv iota zeta.
  rewrite (require_one_raise "indice_priorizacao" m); [reflexivity|].
  apply priorizacao_lost, priorizacao_overlap. tauto.
Qed.

Lemma priorizacao_levanta_demanda :
  "indice_priorizacao"%string ∉ columns df → "demanda_valor"%string ∈ columns df →
  calcular_indice_priorizacao round4 df = Raise (KeyError "demanda_valor").
Proof.
  intros Hn Hin. unfold calcular_indice_priorizacao. rewrite Hc. simpl negb. cbv iota zeta.
  rewrite (require_one_ok "indice_priorizacao" m) by (apply priorizacao_kept; tauto).
  cbn [mbind result_bind].
  rewrite require_one_raise; [reflexivity|]. intros H.
  apply set_col_columns_elem in H as [H|H]; [|discriminate].
  revert H. apply priorizacao_lost, priorizacao_overlap. tauto.
Qed.

Lemma priorizacao_retorna :
  "indice_priorizacao"%string ∉ columns df → "demanda_valor"%string ∉ columns df →
  ∃ out, calcular_indice_priorizacao round4 df = Ok out ∧
         columns out = columns df ++ ["indice_priorizacao"; "demanda_valor"]%string ∧
         length (rows out) = length (rows df).
Proof.
  intros H1 H2. unfold calcular_indice_priorizacao. rewrite Hc. simpl negb. cbv iota zeta.
  rewrite (require_one_ok "indice_priorizacao" m) by (apply priorizacao_kept; tauto).
  cbn [mbind result_bind].
  rewrite require_one_ok
    by (apply set_col_columns_elem; left; apply priorizacao_kept; tauto).
  cbn [mbind result_bind]. eexists. split; [reflexivity|].
  assert (Hov : overlap ["id_produto"]%string df P = []).
  { apply overlap_nil. intros c Hin.
    change (columns P) with ["id_produto"; "indice_priorizacao"; "demanda_valor"]%string in Hin.
    rewrite !elem_of_cons, elem_of_nil in Hin.
    destruct Hin as [->|[->|[->|[]]]]; [left; by left|by right|by right]. }
  assert (Hm : columns m = columns df ++ ["indice_priorizacao"; "demanda_valor"]%string).
  { unfold merge_left. cbn [columns]. rewrite Hov, !sfx_nil.
    change (columns P) with ["id_produto"; "indice_priorizacao"; "demanda_valor"]%string.
    done. }
  split.
  - rewrite !set_col_columns_has; [done|..].
    + apply has_col_elem. rewrite Hm. apply elem_of_app. right. elem_by_eval.
    + apply has_col_set_col, has_col_elem. rewrite Hm. apply elem_of_app. right. elem_by_eval.
  - rewrite !set_col_rows, !length_fmap.
    rewrite merge_left_rows by apply df_prioridade_distinct. by rewrite length_fmap.
Qed.

End Priorizacao.

(** X8.  [calcular_indice_priorizacao] runs once.  On a table that has
    its three columns and no column whose name is one of its two results
    with a merge suffix, it returns exactly when the table has neither
    indice_priorizacao nor demanda_valor yet: the two columns are then
    appended, no line is lost, and the function raises KeyError on the
    table it has returned.  When one of the two columns is there already
    the merge renames it and the function raises KeyError at the first of
    the two it then misses. *)
Theorem priorizacao_retorna_ou_levanta round4 df :
  has_cols prior_cols df = true →
  (∀ c, c ∈ ["indice_priorizacao_x"; "indice_priorizacao_y"; "demanda_valor_x";
             "demanda_valor_y"]%string → c ∉ columns df) →
  match calcular_indice_priorizacao round4 df with
  | Ok out =>
      ("indice_priorizacao"%string ∉ columns df) ∧ ("demanda_valor"%string ∉ columns df) ∧
      columns out = columns df ++ ["indice_priorizacao"; "demanda_valor"]%string ∧
      length (rows out) = length (rows df) ∧
      calcular_indice_priorizacao round4 out = Raise (KeyError "indice_priorizacao")
  | Raise (KeyError c) =>
      (c = "indice_priorizacao"%string ∧ c ∈ columns df)
      ∨ (c = "demanda_valor"%string ∧ c ∈ columns df ∧
         "indice_priorizacao"%string ∉ columns df)
  | Raise IndexError => False
  end.
Proof.
  intros Hc _.
  destruct (decide ("indice_priorizacao"%string ∈ columns df)) as [H1|H1].
  { rewrite (priorizacao_levanta_indice round4 df Hc H1). by left. }
  destruct (decide ("demanda_valor"%string ∈ columns df)) as [H2|H2].
  { rewrite (priorizacao_levanta_demanda round4 df Hc H1 H2). right. done. }
  destruct (priorizacao_retorna round4 df Hc H1 H2) as (out & -> & Hcols & Hlen).
  split; [done|]. split; [done|]. split; [done|]. split; [done|].
  apply priorizacao_levanta_indice.
  - apply has_cols_elem. intros c Hin. rewrite Hcols. apply elem_of_app. left.
    by apply (has_cols_elem prior_cols df).
  - rewrite Hcols. apply elem_of_app. right. elem_by_eval.
Qed.

Lemma priorizacao_retorna_ou_levanta_witness :
  ∃ out, calcular_indice_priorizacao (round_dec 4) fato_prioridade = Ok out ∧
         calcular_indice_priorizacao (round_dec 4) out
         = Raise (KeyError "indice_priorizacao").
Proof.
  assert (Hc : has_cols prior_cols fato_prioridade = true) by (vm_compute; reflexivity).
  assert (Hs : ∀ c, c ∈ ["indice_priorizacao_x"; "indice_priorizacao_y"; "demanda_valor_x";
                         "demanda_valor_y"]%string → c ∉ columns fato_prioridade).
  { intros c H1 H2. apply (bool_decide_pack _) in H2. revert H2.
    rewrite !elem_of_cons, elem_of_nil in H1.
    destruct H1 as [->|[->|[->|[->|[]]]]]; vm_compute; intros H2; exact H2. }
  pose proof (priorizacao_retorna_ou_levanta (round_dec 4) fato_prioridade Hc Hs) as H.
  destruct (calcular_indice_priorizacao (round_dec 4) fato_prioridade) as [out|[c|]].
  - exists out. split; [reflexivity|]. apply H.
  - exfalso. destruct H as [[-> H]|[-> [H _]]];
      apply (bool_decide_pack _) in H; vm_compute in H; exact H.
  - destruct H.
Defined.

(** ** The radar: when it returns, what it returns for a group of one price *)

Lemma median_all_eq xs p :
  xs ≠ [] → Forall (λ x, x == p) xs → cell_eqb (median xs) (Num p) = true.
Proof.
  intros Hne Hall. unfold median.
  pose proof (sort_by_perm Qle_bool xs) as Hp.
  set (s := sort_by Qle_bool xs) in *.
  assert (Hs : Forall (λ x, x == p) s) by by rewrite Hp.
  assert (Hlen : length s ≠ 0%nat).
  { rewrite Hp. by destruct xs. }
  assert (Hn : ∀ i, (i < length s)%nat → nth i s 0 == p).
  { intros i Hi. destruct (lookup_lt_is_Some_2 s i Hi) as [x Hx].
    rewrite (nth_lookup_Some _ _ _ _ Hx).
    exact (Forall_lookup_1 (λ x, x == p) s i x Hs Hx). }
  destruct (length s) as [|n] eqn:E; [done|].
  assert (H2 : (S n / 2 < S n)%nat) by (apply Nat.div_lt; lia).
  destruct (Nat.even (S n)); cbn [cell_eqb]; apply Qeq_bool_iff.
  - rewrite !Hn by lia. field.
  - by rewrite Hn by lia.
Qed.

Section Radar.
Variable df : DataFrame.
Hypothesis Hreq : has_cols required_cols df = true.

Local Abbreviation validas := (filter (λ r, linha_valida r = true) (rows df)).
Local Abbreviation limpo := (df_limpo df).
Local Abbreviation B := (df_benchmark (df_limpo df)).
Local Abbreviation m := (merge_left contexto_benchmark (df_limpo df) (df_benchmark (df_limpo df))).

Lemma radar_limpo_empty : df_empty limpo = bool_decide (validas = []).
Proof.
  unfold df_empty, df_limpo. cbn [columns rows].
  destruct (columns df) eqn:Ec.
  - apply has_cols_elem with (c := "id_produto"%string) in Hreq; [|elem_by_eval].
    rewrite Ec in Hreq. by apply elem_of_nil in Hreq.
  - by destruct validas.
Qed.

Lemma radar_B_distinct : distinct_keys contexto_benchmark (rows B).
Proof.
  apply groupby_agg_distinct.
  - apply (bool_decide_unpack _). vm_compute. exact I.
  - intros c Hc Hin. simpl in Hin. apply list_elem_of_singleton in Hin as ->.
    apply (bool_decide_pack _) in Hc. vm_compute in Hc. done.
Qed.

Lemma radar_B_columns : columns B = contexto_benchmark ++ ["PMP_Mediano_Dinamico"%string].
Proof. done. Qed.

Lemma radar_lost :
  "PMP_Mediano_Dinamico"%string ∈ columns df → "PMP_Mediano_Dinamico"%string ∉ columns m.
Proof.
  intros Hin. apply merge_left_overlap_lost.
  - apply overlap_elem. split; [split; [done|]|]; [|elem_by_eval].
    intros H. apply (bool_decide_pack _) in H. vm_compute in H. done.
  - intros c Hc. apply overlap_elem in Hc as [[_ Hk] Hc].
    rewrite radar_B_columns in Hc.
    apply elem_of_app in Hc as [Hc|Hc]; [done|].
    apply list_elem_of_singleton in Hc as ->. split; discriminate.
Qed.

Lemma radar_overlap_nil :
  "PMP_Mediano_Dinamico"%string ∉ columns df → overlap contexto_benchmark limpo B = [].
Proof.
  intros Hno. apply overlap_nil. intros c Hc. rewrite radar_B_columns in Hc.
  apply elem_of_app in Hc as [Hc|Hc]; [by left|].
  apply list_elem_of_singleton in Hc as ->. by right.
Qed.

Lemma radar_m_rows :
  "PMP_Mediano_Dinamico"%string ∉ columns df →
  rows m = (λ r, merge_row contexto_benchmark [] (columns B) r
                   (lookup_row contexto_benchmark r (rows B))) <$> validas.
Proof.
  intros Hno. rewrite merge_left_rows by apply radar_B_distinct.
  by rewrite radar_overlap_nil.
Qed.

Lemma radar_m_has :
  "PMP_Mediano_Dinamico"%string ∉ columns df → "PMP_Mediano_Dinamico"%string ∈ columns m.
Proof.
  intros Hno. unfold merge_left. cbn [columns]. rewrite radar_overlap_nil, !sfx_nil by done.
  apply elem_of_app. right. rewrite radar_B_columns. elem_by_eval.
Qed.

Lemma radar_vazio : validas = [] → gerar_mini_fato_radar_enriquecida df = Ok empty_frame.
Proof.
  intros He. unfold gerar_mini_fato_radar_enriquecida. rewrite Hreq. simpl negb. cbv iota zeta.
  rewrite radar_limpo_empty, bool_decide_eq_true_2; done.
Qed.

Lemma radar_levanta :
  validas ≠ [] → "PMP_Mediano_Dinamico"%string ∈ columns df →
  gerar_mini_fato_radar_enriquecida df = Raise (KeyError "PMP_Mediano_Dinamico").
Proof.
  intros Hne Hin. unfold gerar_mini_fato_radar_enriquecida.
  rewrite Hreq. simpl negb. cbv iota zeta.
  rewrite radar_limpo_empty, bool_decide_eq_false_2 by done.
  rewrite require_one_raise; [reflexivity|]. by apply radar_lost.
Qed.

Lemma radar_retorna :
  validas ≠ [] → "PMP_Mediano_Dinamico"%string ∉ columns df →
  gerar_mini_fato_radar_enriquecida df
  = Ok {| columns := radar_out_cols;
          rows := (λ s, radar_of (merge_row contexto_benchmark [] (columns B) s
                                    (lookup_row contexto_benchmark s (rows B))))
                  <$> validas |}.
Proof.
  intros Hne Hno. unfold gerar_mini_fato_radar_enriquecida.
  rewrite Hreq. simpl negb. cbv iota zeta.
  rewrite radar_limpo_empty, bool_decide_eq_false_2 by done.
  rewrite require_one_ok by by apply radar_m_has. cbn [mbind result_bind].
  f_equal. apply frame_eq.
  - reflexivity.
  - unfold rename_col, select_cols. cbn [rows]. rewrite !set_col_rows, radar_m_rows by done.
    rewrite <- !list_fmap_compose. done.
Qed.

(** The benchmark that the merge brings to a valid line. *)
Lemma radar_benchmark_get s :
  s ∈ validas →
  get "PMP_Mediano_Dinamico"
    (merge_row contexto_benchmark [] (columns B) s
       (lookup_row contexto_benchmark s (rows B)))
  = benchmark (rows df) s.
Proof.
  intros Hs. rewrite merge_row_new; [|elem_by_eval|].
  2:{ intros H. apply (bool_decide_pack _) in H. vm_compute in H. done. }
  rewrite <- benchmark_group.
  rewrite <- (list_fmap_id (rows B)).
  apply (lookup_row_agg_get contexto_benchmark _ limpo id s (get "PMP_Mediano_Dinamico")
           (λ g, median (nums "preco_unitario" g))); try done.
  - apply (bool_decide_unpack _). vm_compute. exact I.
  - intros c Hc Hin. simpl in Hin. apply list_elem_of_singleton in Hin as ->.
    apply (bool_decide_pack _) in Hc. vm_compute in Hc. done.
  - intros k Hk. apply get_agg_row_head.
Qed.

Lemma radar_merged_old s c :
  c ∈ ["id_pedido"; "id_produto"; "id_instituicao"; "id_fabricante";
       "id_fornecedor"; "id_tempo"; "preco_unitario"; "qtd_itens_comprados"]%string →
  get c (merge_row contexto_benchmark [] (columns B) s
           (lookup_row contexto_benchmark s (rows B))) = get c s.
Proof.
  intros Hc. unfold get. rewrite merge_row_old; [done|]. rewrite radar_B_columns.
  rewrite !elem_of_cons, elem_of_nil in Hc.
  destruct Hc as [->|[->|[->|[->|[->|[->|[->|[->|[]]]]]]]]];
    first [right; elem_by_eval
          | left; intros H; apply (bool_decide_pack _) in H; vm_compute in H; done].
Qed.

End Radar.

(** The benchmark of a group whose valid lines all paid one unit price. *)
Lemma benchmark_um_preco rs s p :
  s ∈ rs → linha_valida s = true →
  notna (get "id_produto" s) && notna (get "id_instituicao" s) && notna (get "id_tempo" s)
  = true →
  get "preco_unitario" s = Num p →
  (∀ t x, t ∈ rs → linha_valida t = true → mesmo_contexto t s = true →
          get "preco_unitario" t = Num x → x == p) →
  cell_eqb (benchmark rs s) (Num p) = true.
Proof.
  intros Hs Hv Hk Hp Hall. unfold benchmark. rewrite Hk.
  assert (Hself : mesmo_contexto s s = true).
  { unfold mesmo_contexto. apply andb_true_iff in Hk as [Hk H3].
    apply andb_true_iff in Hk as [H1 H2].
    by rewrite !cell_eqb_refl. }
  apply median_all_eq.
  - intros He. assert (Hin : p ∈ nums "preco_unitario"
        (filter (λ t, linha_valida t = true ∧ mesmo_contexto t s = true) rs)).
    { unfold nums. apply list_elem_of_omap. exists s. split.
      - by apply list_elem_of_filter.
      - by rewrite Hp. }
    rewrite He in Hin. by apply elem_of_nil in Hin.
  - apply Forall_forall. intros x Hx. unfold nums in Hx.
    apply list_elem_of_omap in Hx as (t & Ht & Hx).
    apply list_elem_of_filter in Ht as [[Htv Htc] Ht].
    apply (Hall t x Ht Htv Htc).
    destruct (get "preco_unitario" t); try done. simpl in Hx. congruence.
Qed.

(** Against a benchmark equal to the price paid there is nothing to save. *)
Lemma sem_oportunidade p b q :
  cell_eqb b (Num p) = true → gt0 q = true →
  cell_eqb (cmul (csub (Num p) b) q) (Num 0) = true ∧
  cell_eqb (np_where (gt0 b) (cdiv (csub (Num p) b) b) (Num 0)) (Num 0) = true.
Proof.
  intros Hb Hq. destruct b as [|b| |]; try done. destruct q as [|q| |]; try done.
  cbn [cell_eqb] in Hb. apply Qeq_bool_iff in Hb. split.
  - cbn [cmul csub lift2 cell_eqb]. apply Qeq_bool_iff. rewrite Hb. ring.
  - unfold np_where. destruct (gt0 (Num b)) eqn:Hg; [|done].
    cbn [cdiv csub lift2]. destruct (Qeq_bool b 0) eqn:Hz.
    + apply Qeq_bool_iff in Hz. simpl in Hg. unfold Qltb in Hg.
      exfalso. revert Hg. rewrite Hz. vm_compute. discriminate.
    + cbn [cell_eqb]. apply Qeq_bool_iff. rewrite Hb. unfold Qdiv. ring.
Qed.

(** X9.  When [gerar_mini_fato_radar_enriquecida] returns and when it
    raises.  On a table without a column named PMP_Mediano_Dinamico_x or
    PMP_Mediano_Dinamico_y: it returns the empty frame, without lines and
    without columns, when a required column is missing or no line has a
    strictly positive total price and quantity; otherwise it raises
    KeyError exactly when the table has a column PMP_Mediano_Dinamico
    already, which the merge renames; otherwise it returns the ten radar
    columns, in their order and under their final names, with one row for
    every valid line. *)
Theorem radar_retorna_ou_levanta df :
  (∀ c, c ∈ ["PMP_Mediano_Dinamico_x"; "PMP_Mediano_Dinamico_y"]%string → c ∉ columns df) →
  let validas := filter (λ r, linha_valida r = true) (rows df) in
  match gerar_mini_fato_radar_enriquecida df with
  | Ok out =>
      (has_cols required_cols df = true ∧ validas ≠ [] ∧
       ("PMP_Mediano_Dinamico"%string ∉ columns df) ∧
       columns out = radar_out_cols ∧ length (rows out) = length validas)
      ∨ ((has_cols required_cols df = false ∨ validas = []) ∧ out = empty_frame)
  | Raise (KeyError c) =>
      c = "PMP_Mediano_Dinamico"%string ∧ has_cols required_cols df = true ∧
      validas ≠ [] ∧ c ∈ columns df
  | Raise IndexError => False
  end.
Proof.
  intros _ validas.
  destruct (has_cols required_cols df) eqn:Hreq.
  2:{ unfold gerar_mini_fato_radar_enriquecida. rewrite Hreq. simpl negb. cbv iota.
      right. split; [by left|done]. }
  destruct (decide (validas = [])) as [He|Hne].
  { rewrite (radar_vazio df Hreq He). right. split; [by right|done]. }
  destruct (decide ("PMP_Mediano_Dinamico"%string ∈ columns df)) as [Hin|Hno].
  { by rewrite (radar_levanta df Hreq Hne Hin). }
  rewrite (radar_retorna df Hreq Hne Hno). left. cbn [columns rows].
  rewrite length_fmap. done.
Qed.

Lemma radar_retorna_ou_levanta_witness :
  ∃ out, gerar_mini_fato_radar_enriquecida fato_radar = Ok out ∧
         columns out = radar_out_cols ∧ length (rows out) = 3%nat.
Proof.
  assert (Hs : ∀ c, c ∈ ["PMP_Mediano_Dinamico_x"; "PMP_Mediano_Dinamico_y"]%string →
                    c ∉ columns fato_radar).
  { intros c H1 H2. apply (bool_decide_pack _) in H2. revert H2.
    rewrite !elem_of_cons, elem_of_nil in H1.
    destruct H1 as [->|[->|[]]]; vm_compute; intros H2; exact H2. }
  assert (Hreq : has_cols required_cols fato_radar = true) by (vm_compute; reflexivity).
  assert (Hlen : length (filter (λ r, linha_valida r = true) (rows fato_radar)) = 3%nat)
    by (vm_compute; reflexivity).
  pose proof (radar_retorna_ou_levanta fato_radar Hs) as H. cbv zeta in H.
  destruct (gerar_mini_fato_radar_enriquecida fato_radar) as [out|[c|]].
  - exists out. split; [reflexivity|].
    destruct H as [(_ & _ & _ & Hcols & Hl)|[[H|H] _]].
    + split; [exact Hcols|]. rewrite Hl. exact Hlen.
    + exfalso. rewrite Hreq in H. discriminate H.
    + exfalso. rewrite H in Hlen. discriminate Hlen.
  - exfalso. destruct H as (-> & _ & _ & H).
    apply (bool_decide_pack _) in H. vm_compute in H. exact H.
  - destruct H.
Defined.

(** X10.  A group that paid one price shows no opportunity.  On a table
    with the required columns and no column PMP_Mediano_Dinamico, take a
    valid line whose three keys are present and whose unit price is the
    number p; when every valid line of its (product, institution, time
    period) group that has a unit price paid p, the radar returns and
    the row of that line has benchmark p, economy 0 and deviation 0 (as
    numbers).  A line that is alone in its group is the first case. *)
Theorem radar_grupo_de_um_preco df i s p :
  has_cols required_cols df = true →
  ("PMP_Mediano_Dinamico"%string ∉ columns df) →
  filter (λ r, linha_valida r = true) (rows df) !! i = Some s →
  notna (get "id_produto" s) && notna (get "id_instituicao" s) && notna (get "id_tempo" s)
  = true →
  get "preco_unitario" s = Num p →
  (∀ t x, t ∈ rows df → linha_valida t = true → mesmo_contexto t s = true →
          get "preco_unitario" t = Num x → x == p) →
  ∃ out r,
    gerar_mini_fato_radar_enriquecida df = Ok out ∧ rows out !! i = Some r ∧
    get "id_pedido" r = get "id_pedido" s ∧
    cell_eqb (get "PMP_Benchmark_Referencia" r) (Num p) = true ∧
    cell_eqb (get "Economia_por_Linha" r) (Num 0) = true ∧
    cell_eqb (get "Desvio_%_Oportunidade" r) (Num 0) = true.
Proof.
  intros Hreq Hno Hi Hk Hp Hall.
  assert (Hsv : s ∈ filter (λ r, linha_valida r = true) (rows df))
    by by eapply list_elem_of_lookup_2.
  pose proof Hsv as Hsv'. apply list_elem_of_filter in Hsv' as [Hval Hs].
  assert (Hne : filter (λ r, linha_valida r = true) (rows df) ≠ []).
  { intros He. rewrite He in Hsv. by apply elem_of_nil in Hsv. }
  eexists. eexists. split; [by apply radar_retorna|]. cbn [rows].
  split; [by rewrite list_lookup_fmap, Hi|].
  set (y0 := merge_row _ _ _ _ _).
  destruct (radar_of_gets y0) as (G1 & G2 & G3 & G4 & G5). cbv zeta in G1, G2, G3, G4, G5.
  rewrite G2, G3, G4, G5 by elem_by_eval.
  unfold y0. rewrite (radar_benchmark_get df s Hsv).
  rewrite !(radar_merged_old df s) by elem_by_eval.
  pose proof (benchmark_um_preco (rows df) s p Hs Hval Hk Hp Hall) as Hb.
  unfold linha_valida in Hval. apply andb_true_iff in Hval as [_ Hq].
  destruct (sem_oportunidade p _ _ Hb Hq) as [He Hd].
  rewrite Hp. split; [reflexivity|]. split; [exact Hb|]. split; [exact He|exact Hd].
Qed.

Lemma radar_grupo_de_um_preco_witness :
  ∃ out r,
    gerar_mini_fato_radar_enriquecida fato_um_preco = Ok out ∧ rows out !! 1%nat = Some r ∧
    get "id_pedido" r = Str "b" ∧
    cell_eqb (get "PMP_Benchmark_Referencia" r) (Num 10) = true ∧
    cell_eqb (get "Economia_por_Linha" r) (Num 0) = true ∧
    cell_eqb (get "Desvio_%_Oportunidade" r) (Num 0) = true.
Proof.
  apply (radar_grupo_de_um_preco fato_um_preco 1 linha_um_preco_b 10).
  - vm_compute. reflexivity.
  - intros H. apply (bool_decide_pack _) in H. vm_compute in H. exact H.
  - cbn [rows fato_um_preco]. rewrite !filter_cons_True by (vm_compute; reflexivity).
    reflexivity.
  - vm_compute. reflexivity.
  - vm_compute. reflexivity.
  - intros t x Ht Hv Hc Hx. cbn [rows fato_um_preco] in Ht.
    rewrite !elem_of_cons, elem_of_nil in Ht.
    destruct Ht as [->|[->|[->|[]]]]; vm_compute in Hx; vm_compute in Hc;
      try discriminate Hc; injection Hx as <-; reflexivity.
Defined.

(** ** The pipeline of main.py *)

Lemma passo_refl X : passo [] [] X X.
Proof.
  intros c. split; [intros H; left; split; [done|apply not_elem_of_nil]|].
  intros [[H _]|H]; [done|by apply elem_of_nil in H].
Qed.

Lemma passo_trans R1 A1 R2 A2 X Y Z :
  passo R1 A1 X Y → passo R2 A2 Y Z →
  passo (R1 ++ R2) (filter (λ c, c ∉ R2) A1 ++ A2) X Z.
Proof.
  intros H1 H2 c. rewrite (H2 c), (H1 c), not_elem_of_app, elem_of_app, list_elem_of_filter.
  tauto.
Qed.

Lemma passo_eq R A R' A' X Y :
  passo R A X Y → (∀ c, c ∈ R ↔ c ∈ R') → (∀ c, c ∈ A ↔ c ∈ A') → passo R' A' X Y.
Proof. intros H HR HA c. rewrite (H c), HR, HA. done. Qed.

Lemma passo_columns_eq R A X Y Y' : columns Y = columns Y' → passo R A X Y → passo R A X Y'.
Proof. intros E H c. rewrite <- E. apply H. Qed.

(** A column of [Y]: one that the step adds, or one of the list [base]
    of columns of [X] that the step does not remove. *)
Lemma passo_has R A X Y base cs :
  passo R A X Y → has_cols base X = true →
  forallb (λ c, bool_decide (c ∈ A) || (bool_decide (c ∈ base) && bool_decide (c ∉ R))) cs
  = true →
  has_cols cs Y = true.
Proof.
  intros H Hb Hcs. apply has_cols_elem. intros c Hc. apply H.
  rewrite forallb_forall in Hcs. specialize (Hcs c (proj1 (list_elem_of_In _ _) Hc)).
  apply orb_true_iff in Hcs as [Hcs|Hcs].
  - right. by apply bool_decide_eq_true in Hcs.
  - apply andb_true_iff in Hcs as [H1 H2].
    apply bool_decide_eq_true in H1. apply bool_decide_eq_true in H2.
    left. split; [|done]. by apply (has_cols_elem base X).
Qed.

(** A column that [Y] does not have: one of the list [novas] of names
    that [X] does not have, and that the step does not add. *)
Lemma passo_fresh R A X Y (novas : list string) c :
  passo R A X Y → (∀ c, c ∈ novas → c ∉ columns X) →
  bool_decide (c ∈ novas) && bool_decide (c ∉ A) = true →
  c ∉ columns Y.
Proof.
  intros H Hn Hc. apply andb_true_iff in Hc as [H1 H2].
  apply bool_decide_eq_true in H1. apply bool_decide_eq_true in H2.
  rewrite (H c). intros [[Hin _]|Hin]; [by apply (Hn c)|done].
Qed.

(** A column that [Y] does not have: one that the step removes and does
    not add. *)
Lemma passo_removed R A X Y c :
  passo R A X Y → bool_decide (c ∈ R) && bool_decide (c ∉ A) = true → c ∉ columns Y.
Proof.
  intros H Hc. apply andb_true_iff in Hc as [H1 H2].
  apply bool_decide_eq_true in H1. apply bool_decide_eq_true in H2.
  rewrite (H c). intros [[_ Hin]|Hin]; done.
Qed.

Lemma tem_data_fmap c (g : Row → Row) X Y :
  rows Y ≡ₚ g <$> rows X → (∀ r, g r !! c = r !! c) → tem_data c X → tem_data c Y.
Proof.
  intros Hp Hg (r & y & m & d & Hr & Hc). exists (g r), y, m, d. split.
  - rewrite Hp. by apply list_elem_of_fmap_2.
  - by rewrite Hg.
Qed.

Section MainPassos.
Variable Qsqrt : Q → Q.
Variable parse_date : cell → cell.
Variable py_str : cell → string.
Variable round4 : Q → Q.

(** Step 3 of [main]: the identifier and the z-score. *)
Lemma gerar_id_pedido_passo df :
  df_empty df = false → has_cols colunas_hash df = true → has_cols zscore_cols df = true →
  passo colunas_para_dropar ("id_pedido"%string :: zscore_written) df
    (gerar_id_pedido Qsqrt py_str df) ∧
  ∃ Z : Row → Row,
    rows (gerar_id_pedido Qsqrt py_str df) ≡ₚ Z <$> rows df ∧
    ∀ r c, c ∉ ("id_pedido"%string :: colunas_para_dropar ++ zscore_written) →
           Z r !! c = r !! c.
Proof.
  intros He Hh Hzc.
  set (H := id_pedido_hashed py_str df).
  set (df3 := calcular_zscore_risco Qsqrt H).
  assert (Hz : has_cols zscore_cols H = true).
  { unfold H. rewrite has_cols_hashed; [done|..]; intros c Hc; unfold zscore_cols in Hc;
      rewrite !elem_of_cons, elem_of_nil in Hc;
      destruct Hc as [->|[->|[->|[->|[]]]]]; try discriminate;
      intros Hin; apply (bool_decide_pack _) in Hin; vm_compute in Hin; exact Hin. }
  assert (Hid : "id_pedido"%string ∉ colunas_para_dropar).
  { intros Hin. apply (bool_decide_pack _) in Hin. vm_compute in Hin. exact Hin. }
  assert (H3 : passo colunas_para_dropar ("id_pedido"%string :: zscore_written) df df3).
  { intros c. unfold df3. rewrite zscore_columns_elem by done. unfold H.
    rewrite id_pedido_hashed_columns, Hh, elem_of_cons.
    split; [tauto|]. intros [?|[->|?]]; tauto. }
  set (df4 := if has_col "compra" df3 && has_col "codigo_br" df3
              then sort_values ["compra"; "codigo_br"]%string df3
              else if has_col "compra" df3 then sort_values ["compra"]%string df3 else df3).
  assert (H4 : columns df4 = columns df3 ∧ rows df4 ≡ₚ rows df3).
  { unfold df4. destruct (has_col "compra" df3 && has_col "codigo_br" df3);
      [|destruct (has_col "compra" df3)]; unfold sort_values; cbn [columns rows];
      (split; [done|]); try done; apply sort_by_perm. }
  destruct H4 as [H4c H4r].
  assert (Hout : (∀ c, c ∈ columns (gerar_id_pedido Qsqrt py_str df) ↔ c ∈ columns df3)
                 ∧ rows (gerar_id_pedido Qsqrt py_str df) ≡ₚ rows df3).
  { unfold gerar_id_pedido. rewrite He. fold H. fold df3. fold df4.
    destruct (has_col "id_pedido" df4) eqn:Eid.
    - split; [|done]. intros c. rewrite leading_col_elem, H4c; [done|].
      by apply has_col_elem.
    - split; [|done]. intros c. by rewrite H4c. }
  destruct Hout as [Hoc Hor]. split.
  - intros c. rewrite Hoc. apply H3.
  - destruct (enriched_rows Qsqrt py_str df) as (Z & HZ & HZf & _). fold H in HZ.
    exists Z. split; [|exact HZf]. rewrite Hor. unfold df3. by rewrite HZ.
Qed.

(** A dimension whose key is new: the attributes go, the key comes. *)
Lemma criar_dimensao_passo df attrs pk prefixo :
  (∀ c, c ∈ attrs → c ∈ columns df) → rows df ≠ [] → pk ∉ columns df → pk ∉ attrs →
  ∃ fato,
    _criar_dimensao df attrs pk prefixo = Ok (df_dim df attrs pk prefixo, fato) ∧
    passo attrs [pk] df fato ∧
    ∃ g : Row → Row,
      rows fato = g <$> rows df ∧ ∀ r c, c ∉ attrs → c ≠ pk → g r !! c = r !! c.
Proof.
  intros Hat Hne Hnew Hpk.
  destruct (criar_dimensao_ok df attrs pk prefixo Hat Hne) as [fato Hok].
  exists fato. split; [exact Hok|].
  apply criar_dimensao_inv2 in Hok as (_ & _ & _ & ->).
  assert (Hov : overlap attrs df (df_dim df attrs pk prefixo) = []).
  { apply overlap_nil. intros c Hc. unfold df_dim in Hc. cbn [columns] in Hc.
    apply elem_of_cons in Hc as [->|Hc]; [by right|by left]. }
  split.
  - intros c. rewrite foldl_drop_col_columns, list_elem_of_filter.
    unfold merge_left. cbn [columns]. rewrite Hov, !sfx_nil, elem_of_app.
    unfold df_dim. cbn [columns]. rewrite list_elem_of_filter, elem_of_cons.
    rewrite list_elem_of_singleton. split.
    + intros [Hc [H|[_ [->|H]]]]; [left; done|by right|done].
    + intros [[H1 H2]| ->]; [split; [done|by left]|].
      split; [done|]. right. split; [done|by left].
  - eexists. split.
    + rewrite foldl_drop_col_rows, merge_left_rows by (by apply df_dim_distinct).
      rewrite Hov, <- list_fmap_compose. reflexivity.
    + intros r c Hc Hne'. unfold compose.
      rewrite foldl_delete_lookup, decide_False by done.
      apply merge_row_old. left. unfold df_dim. cbn [columns].
      rewrite not_elem_of_cons. done.
Qed.

Lemma rename_col_columns_iff a b df c :
  a ∈ columns df →
  c ∈ columns (rename_col a b df) ↔ (c ∈ columns df ∧ c ≠ a) ∨ c = b.
Proof.
  intros Ha. unfold rename_col. cbn [columns]. rewrite list_elem_of_fmap. split.
  - intros (x & -> & Hx). destruct (String.eqb x a) eqn:E; [by right|].
    left. split; [done|]. intros ->. by rewrite String.eqb_refl in E.
  - intros [[Hc Hne]| ->].
    + exists c. split; [|done]. destruct (String.eqb c a) eqn:E; [|done].
      apply String.eqb_eq in E. done.
    + exists a. split; [|done]. by rewrite String.eqb_refl.
Qed.

(** The time dimension of a table that has a date. *)
Lemma add_tempo_passo st :
  has_col "compra" (fato st) = true → ("id_tempo"%string ∉ columns (fato st)) →
  tem_data "compra" (fato st) →
  (∃ dim, exported (add_tempo parse_date st) = exported st ++ [("tempo"%string, dim)]) ∧
  chaves_dimensao (add_tempo parse_date st) = chaves_dimensao st ++ ["id_tempo"%string] ∧
  passo ["compra"%string] ["data_compra"; "id_tempo"]%string
    (fato st) (fato (add_tempo parse_date st)) ∧
  length (rows (fato (add_tempo parse_date st))) = length (rows (fato st)) ∧
  tem_data "data_compra" (fato (add_tempo parse_date st)).
Proof.
  intros Hc Hnew (r & y & m & d & Hr & Hd).
  set (f := fato st) in *.
  assert (Hget : get "compra" r = Date y m d) by (unfold get; by rewrite Hd).
  assert (Hdim : rows (select_cols ["id_tempo"; "data_completa"; "ano"; "mes"; "dia";
                                    "trimestre"]%string (dim_tempo_natural parse_date f))
                 ≠ []).
  { unfold select_cols. cbn [rows]. rewrite dim_tempo_natural_rows.
    assert (Hs : select_row ["compra"]%string r ∈ select_row ["compra"]%string <$> rows f)
      by (by apply list_elem_of_fmap_2).
    destruct (dedup_by_cover (same_on ["compra"]%string) (same_on_trans _) _ _
                (same_on_refl _ _) Hs) as (x & Hx & Hxr).
    assert (E : cell_eqb (get "compra" x) (Date y m d) = true).
    { unfold same_on, key_of in Hxr. cbn [fmap list_fmap key_eqb] in Hxr.
      rewrite andb_true_r in Hxr. rewrite get_select_row in Hxr by elem_by_eval.
      by rewrite Hget in Hxr. }
    assert (Hin : x ∈ datas_distintas parse_date f).
    { unfold datas_distintas. apply list_elem_of_filter. split; [|done].
      destruct (get "compra" x); try done. }
    intros E0. apply fmap_nil_inv in E0. apply fmap_nil_inv in E0.
    rewrite E0 in Hin. by apply elem_of_nil in Hin. }
  assert (Hov : overlap ["compra"]%string f
                  (select_cols ["compra"; "id_tempo"]%string (dim_tempo_natural parse_date f))
                = []).
  { apply overlap_nil. intros c Hin. cbn [columns select_cols] in Hin.
    rewrite !elem_of_cons, elem_of_nil in Hin.
    destruct Hin as [->|[->|[]]]; [left; by left|by right]. }
  unfold add_tempo. fold f. rewrite Hc. simpl negb. cbv iota zeta.
  rewrite bool_decide_eq_false_2 by done. cbn [exported chaves_dimensao fato].
  split; [by eexists|]. split; [done|].
  set (f1 := merge_left _ _ _).
  assert (Hf1 : columns f1 = columns f ++ ["id_tempo"%string]).
  { unfold f1, merge_left. cbn [columns]. rewrite Hov, !sfx_nil. done. }
  assert (Hr1 : rows f1 = (λ r, merge_row ["compra"]%string [] ["compra"; "id_tempo"]%string r
                                  (lookup_row ["compra"]%string r
                                     (rows (select_cols ["compra"; "id_tempo"]%string
                                              (dim_tempo_natural parse_date f))))) <$> rows f).
  { unfold f1. rewrite merge_left_rows by apply tempo_right_distinct. by rewrite Hov. }
  split; [|split].
  - intros c. rewrite rename_col_columns_iff
      by (rewrite Hf1; apply elem_of_app; left; by apply has_col_elem).
    rewrite Hf1, elem_of_app, !elem_of_cons, !elem_of_nil. split.
    + intros [[[H| [->|[]]] Hne]| ->]; tauto.
    + intros [[H Hne]|[->|[->|[]]]]; [left; tauto|by right|].
      left. split; [tauto|discriminate].
  - by rewrite rename_col_rows, Hr1, !length_fmap.
  - eexists _, y, m, d. split.
    + rewrite rename_col_rows, Hr1. apply list_elem_of_fmap_2, list_elem_of_fmap_2, Hr.
    + unfold rename_in_row. rewrite merge_row_old by (right; by left). rewrite Hd.
      apply lookup_insert_eq.
Qed.

Lemma ordenar_colunas_passo chaves f : passo [] [] f (ordenar_colunas chaves f).
Proof.
  intros c. split.
  - intros H. left. split; [by apply ordenar_colunas_columns_elem in H|apply not_elem_of_nil].
  - intros [[H _]|H]; [|by apply elem_of_nil in H].
    unfold ordenar_colunas, select_cols. cbn [columns]. rewrite !elem_of_app.
    destruct (decide (c ∈ colunas_contexto)) as [Hc|Hc].
    { right. left. by apply list_elem_of_filter. }
    destruct (decide (c ∈ chaves)) as [Hk|Hk].
    { left. by apply list_elem_of_filter. }
    right. right. apply list_elem_of_filter. split; [|done].
    rewrite !not_elem_of_app. split; [|split; [|done]];
      intros Hin; apply list_elem_of_filter in Hin; tauto.
Qed.

Lemma ordenar_colunas_tem_data chaves f c :
  c ∈ columns f → tem_data c f → tem_data c (ordenar_colunas chaves f).
Proof.
  intros Hc (r & y & m & d & Hr & Hd).
  assert (Hin : c ∈ columns (ordenar_colunas chaves f)).
  { apply ordenar_colunas_passo. left. split; [done|apply not_elem_of_nil]. }
  eexists _, y, m, d. split.
  - unfold ordenar_colunas, select_cols. cbn [rows]. apply list_elem_of_fmap_2, Hr.
  - rewrite lookup_select_row, decide_True by exact Hin. unfold get. by rewrite Hd.
Qed.

Lemma rows_fmap_ne {A B} (g : A → B) (l : list A) (l' : list B) :
  l' = g <$> l → l ≠ [] → l' ≠ [].
Proof. intros -> H E. apply fmap_nil_inv in E. done. Qed.

Lemma add_dimensao_ok nome cols chave prefixo st dim f :
  _criar_dimensao (fato st) cols chave prefixo = Ok (dim, f) →
  add_dimensao nome cols chave prefixo st
  = Ok {| exported := exported st ++ [(nome, dim)];
          chaves_dimensao := chaves_dimensao st ++ [chave];
          fato := f |}.
Proof. intros H. unfold add_dimensao. by rewrite H. Qed.

(** The four dimensions of a table that has all their attributes and none
    of their keys: the function comes to the time dimension, with the lines
    in place and the other columns as they were. *)
Lemma dimensoes_naturais_passo df :
  has_cols (col_inst ++ col_prod ++ col_forn ++ col_fabr ++ ["compra"%string]) df = true →
  rows df ≠ [] →
  (∀ c, c ∈ ["id_instituicao"; "id_produto"; "id_fornecedor"; "id_fabricante";
             "id_tempo"]%string → c ∉ columns df) →
  ∃ st4,
    criar_e_integrar_dimensoes parse_date df
    = Ok (exported (add_tempo parse_date st4),
          ordenar_colunas (chaves_dimensao (add_tempo parse_date st4))
            (fato (add_tempo parse_date st4))) ∧
    (exported st4).*1 = ["instituicao"; "produto"; "fornecedor"; "fabricante"]%string ∧
    passo (col_inst ++ col_prod ++ col_forn ++ col_fabr)
      ["id_instituicao"; "id_produto"; "id_fornecedor"; "id_fabricante"]%string
      df (fato st4) ∧
    ∃ g : Row → Row,
      rows (fato st4) = g <$> rows df ∧
      ∀ r c, c ∉ (col_inst ++ col_prod ++ col_forn ++ col_fabr
                  ++ ["id_instituicao"; "id_produto"; "id_fornecedor";
                      "id_fabricante"]%string) →
             g r !! c = r !! c.
Proof.
  intros Hcols Hne Hfresh.
  pose proof (proj1 (has_cols_elem _ _) Hcols) as Hall.
  unfold criar_e_integrar_dimensoes. cbv zeta.
  (* the institution *)
  destruct (criar_dimensao_passo df col_inst "id_instituicao" "Ins")
    as (f1 & Hok1 & P1 & g1 & Hr1 & Hg1).
  { intros c Hc. apply Hall. rewrite elem_of_app. by left. }
  { done. }
  { apply Hfresh. elem_by_eval. }
  { intros H. apply (bool_decide_pack _) in H. vm_compute in H. exact H. }
  set (st0 := {| exported := []; chaves_dimensao := ["id_pedido"%string]; fato := df |}).
  rewrite (add_dimensao_ok "instituicao" _ _ _ st0 _ _ Hok1). cbn [mbind result_bind].
  set (st1 := {| exported := _; chaves_dimensao := _; fato := f1 |}).
  assert (Hne1 : rows f1 ≠ []) by (by eapply rows_fmap_ne).
  (* the product *)
  destruct (criar_dimensao_passo f1 col_prod "id_produto" "Pro")
    as (f2 & Hok2 & P2 & g2 & Hr2 & Hg2).
  { apply has_cols_elem. apply (passo_has _ _ _ _ _ _ P1 Hcols). vm_compute. reflexivity. }
  { done. }
  { apply (passo_fresh _ _ _ _ _ _ P1 Hfresh). vm_compute. reflexivity. }
  { intros H. apply (bool_decide_pack _) in H. vm_compute in H. exact H. }
  pose proof (passo_trans _ _ _ _ _ _ _ P1 P2) as P12.
  rewrite (add_dimensao_ok "produto" _ _ _ st1 _ _ Hok2). cbn [mbind result_bind].
  set (st2 := {| exported := _; chaves_dimensao := _; fato := f2 |}).
  change (fato st2) with f2.
  assert (Hne2 : rows f2 ≠ []) by (by eapply rows_fmap_ne).
  (* the supplier *)
  rewrite (passo_has _ _ _ _ _ col_forn P12 Hcols) by (vm_compute; reflexivity).
  destruct (criar_dimensao_passo f2 col_forn "id_fornecedor" "For")
    as (f3 & Hok3 & P3 & g3 & Hr3 & Hg3).
  { apply has_cols_elem. apply (passo_has _ _ _ _ _ _ P12 Hcols). vm_compute. reflexivity. }
  { done. }
  { apply (passo_fresh _ _ _ _ _ _ P12 Hfresh). vm_compute. reflexivity. }
  { intros H. apply (bool_decide_pack _) in H. vm_compute in H. exact H. }
  pose proof (passo_trans _ _ _ _ _ _ _ P12 P3) as P13.
  rewrite (add_dimensao_ok "fornecedor" _ _ _ st2 _ _ Hok3). cbn [mbind result_bind].
  set (st3 := {| exported := _; chaves_dimensao := _; fato := f3 |}).
  change (fato st3) with f3.
  assert (Hne3 : rows f3 ≠ []) by (by eapply rows_fmap_ne).
  (* the manufacturer *)
  rewrite (passo_has _ _ _ _ _ col_fabr P13 Hcols) by (vm_compute; reflexivity).
  destruct (criar_dimensao_passo f3 col_fabr "id_fabricante" "Fab")
    as (f4 & Hok4 & P4 & g4 & Hr4 & Hg4).
  { apply has_cols_elem. apply (passo_has _ _ _ _ _ _ P13 Hcols). vm_compute. reflexivity. }
  { done. }
  { apply (passo_fresh _ _ _ _ _ _ P13 Hfresh). vm_compute. reflexivity. }
  { intros H. apply (bool_decide_pack _) in H. vm_compute in H. exact H. }
  pose proof (passo_trans _ _ _ _ _ _ _ P13 P4) as P14.
  rewrite (add_dimensao_ok "fabricante" _ _ _ st3 _ _ Hok4). cbn [mbind result_bind].
  set (st4 := {| exported := _; chaves_dimensao := _; fato := f4 |}).
  exists st4. split; [reflexivity|]. split; [|split].
  - unfold st4, st3, st2, st1, st0. cbn [exported]. rewrite !fmap_app. reflexivity.
  - change (fato st4) with f4. eapply passo_eq; [exact P14|..]; intros c.
    + rewrite <- !app_assoc. reflexivity.
    + match goal with |- c ∈ ?l ↔ _ =>
        let l' := eval vm_compute in l in change l with l' end.
      reflexivity.
  - exists (g4 ∘ g3 ∘ g2 ∘ g1). change (fato st4) with f4. split.
    + by rewrite Hr4, Hr3, Hr2, Hr1, <- !list_fmap_compose.
    + intros r c Hc. rewrite !not_elem_of_app, !not_elem_of_cons in Hc.
      destruct Hc as (C1 & C2 & C3 & C4 & K1 & K2 & K3 & K4 & _).
      unfold compose. rewrite Hg4, Hg3, Hg2, Hg1 by done. done.
Qed.

(** The four dimensions and the time dimension of a table that has all
    their attributes, none of their keys, and a date. *)
Lemma dimensoes_passo df :
  has_cols (col_inst ++ col_prod ++ col_forn ++ col_fabr ++ ["compra"%string]) df = true →
  rows df ≠ [] →
  (∀ c, c ∈ ["id_instituicao"; "id_produto"; "id_fornecedor"; "id_fabricante";
             "id_tempo"]%string → c ∉ columns df) →
  tem_data "compra" df →
  ∃ dims df_fato,
    criar_e_integrar_dimensoes parse_date df = Ok (dims, df_fato) ∧
    dims.*1 = ["instituicao"; "produto"; "fornecedor"; "fabricante"; "tempo"]%string ∧
    passo (col_inst ++ col_prod ++ col_forn ++ col_fabr ++ ["compra"%string])
      ["id_instituicao"; "id_produto"; "id_fornecedor"; "id_fabricante"; "data_compra";
       "id_tempo"]%string df df_fato ∧
    length (rows df_fato) = length (rows df) ∧
    tem_data "data_compra" df_fato.
Proof.
  intros Hcols Hne Hfresh Htd.
  destruct (dimensoes_naturais_passo df Hcols Hne Hfresh)
    as (st4 & Hok & Hnames & P14 & g & Hg & Hgf).
  assert (Hcompra : "compra"%string ∉ (col_inst ++ col_prod ++ col_forn ++ col_fabr
                      ++ ["id_instituicao"; "id_produto"; "id_fornecedor";
                          "id_fabricante"]%string)).
  { intros H. apply (bool_decide_pack _) in H. vm_compute in H. exact H. }
  destruct (add_tempo_passo st4) as ((dt & Hex) & Hch & P5 & Hlen5 & T5).
  { apply has_col_elem.
    apply (proj1 (has_cols_elem ["compra"%string] (fato st4))); [|by left].
    apply (passo_has _ _ _ _ _ _ P14 Hcols). vm_compute. reflexivity. }
  { apply (passo_fresh _ _ _ _ _ _ P14 Hfresh). vm_compute. reflexivity. }
  { apply (tem_data_fmap _ g df); [by rewrite Hg| |done]. intros r. by apply Hgf. }
  pose proof (passo_trans _ _ _ _ _ _ _ P14 P5) as P15.
  pose proof (passo_trans _ _ _ _ _ _ _ P15
                (ordenar_colunas_passo (chaves_dimensao (add_tempo parse_date st4))
                   (fato (add_tempo parse_date st4)))) as P16.
  eexists _, _. split; [exact Hok|]. split; [|split; [|split]].
  - rewrite Hex, fmap_app, Hnames. reflexivity.
  - eapply passo_eq; [exact P16|..]; intros c.
    + rewrite !app_nil_r, <- !app_assoc. reflexivity.
    + match goal with |- c ∈ ?l ↔ _ =>
        let l' := eval vm_compute in l in change l with l' end.
      reflexivity.
  - rewrite ordenar_colunas_rows, Hlen5, Hg, !length_fmap. done.
  - apply ordenar_colunas_tem_data; [|exact T5].
    apply P5. right. elem_by_eval.
Qed.

Lemma has_cols_sem cs df c : c ∈ cs → c ∉ columns df → has_cols cs df = false.
Proof.
  intros Hc Hn. apply not_true_iff_false. rewrite has_cols_elem. intros H. by apply Hn, H.
Qed.

(** Step 7 of [main]: the prioritization leaves every other column of
    every line as it was. *)
Lemma priorizacao_passo df :
  has_cols prior_cols df = true →
  ("indice_priorizacao"%string ∉ columns df) → ("demanda_valor"%string ∉ columns df) →
  ∃ out,
    calcular_indice_priorizacao round4 df = Ok out ∧
    passo [] ["indice_priorizacao"; "demanda_valor"]%string df out ∧
    length (rows out) = length (rows df) ∧
    ∃ g : Row → Row,
      rows out = g <$> rows df ∧
      ∀ r c, c ∉ ["id_produto"; "indice_priorizacao"; "demanda_valor"]%string →
             g r !! c = r !! c.
Proof.
  intros Hc H1 H2.
  destruct (priorizacao_retorna round4 df Hc H1 H2) as (out & Hok & Hcols & Hlen).
  exists out. split; [exact Hok|]. split; [|split; [exact Hlen|]].
  - intros c. rewrite Hcols, elem_of_app. split.
    + intros [H|H]; [left; split; [done|apply not_elem_of_nil]|by right].
    + intros [[H _]|H]; [by left|by right].
  - unfold calcular_indice_priorizacao in Hok. rewrite Hc in Hok. simpl negb in Hok.
    cbv iota zeta in Hok.
    rewrite (require_one_ok "indice_priorizacao") in Hok
      by (apply priorizacao_kept; tauto).
    cbn [mbind result_bind] in Hok.
    rewrite require_one_ok in Hok
      by (apply set_col_columns_elem; left; apply priorizacao_kept; tauto).
    cbn [mbind result_bind] in Hok. injection Hok as <-.
    assert (Hov : overlap ["id_produto"]%string df (df_prioridade round4 df) = []).
    { apply overlap_nil. intros c Hin.
      change (columns (df_prioridade round4 df))
        with ["id_produto"; "indice_priorizacao"; "demanda_valor"]%string in Hin.
      rewrite !elem_of_cons, elem_of_nil in Hin.
      destruct Hin as [->|[->|[->|[]]]]; [left; by left|by right|by right]. }
    eexists. split.
    + rewrite !set_col_rows, merge_left_rows by apply df_prioridade_distinct.
      rewrite Hov, <- !list_fmap_compose. reflexivity.
    + intros r c Hn. unfold compose. rewrite !not_elem_of_cons in Hn.
      destruct Hn as (Hn1 & Hn2 & Hn3 & _).
      rewrite !lookup_insert_ne by done. apply merge_row_old. left.
      change (columns (df_prioridade round4 df))
        with ["id_produto"; "indice_priorizacao"; "demanda_valor"]%string.
      rewrite !not_elem_of_cons. split; [done|]. split; [done|]. split; [done|].
      apply not_elem_of_nil.
Qed.

(** Step 8 of [main]: the intermittency of a table that has a date. *)
Lemma intermitencia_passo df :
  has_col "data_compra" df = true → ("id_produto"%string ∈ columns df) →
  ("Risco_Intermitencia"%string ∉ columns df) →
  ("Meses_Comprados_Historico"%string ∉ columns df) →
  tem_data "data_compra" df →
  ∃ out,
    calcular_risco_intermitencia parse_date df = Ok out ∧
    passo ["mes_compra"%string] ["Risco_Intermitencia"; "Meses_Comprados_Historico"]%string
      df out ∧
    length (rows out) = length (rows df).
Proof.
  intros Hd Hp Hnr Hnm (r & y & m & d & Hr & Hdate).
  set (cs := meses_da_tabela parse_date df).
  assert (Hmes : Date y m 1 ∈ cs).
  { unfold cs, meses_da_tabela. apply list_elem_of_fmap. exists r. split; [|done].
    unfold mes_da_linha, data_lida, get. rewrite Hdate. simpl.
    by destruct (forallb _ (rows df)). }
  destruct (col_min_le cs _ Hmes eq_refl) as [Hmin _].
  destruct (col_max_ge cs _ Hmes eq_refl) as [Hmax _].
  unfold calcular_risco_intermitencia. rewrite Hd. simpl negb. cbv iota zeta.
  set (df2 := set_col "mes_compra" _ _).
  assert (Hrows2 : rows df2 = linha_com_mes parse_date df <$> rows df)
    by apply intermitencia_df2_rows.
  assert (Hcols2 : ∀ c, c ∈ columns df2 ↔ c ∈ columns df ∨ c = "mes_compra"%string).
  { intros c. unfold df2. rewrite set_col_columns_elem.
    destruct (forallb _ (rows df)); [done|]. rewrite set_col_columns_elem.
    apply has_col_elem in Hd. split; [|tauto]. intros [[H| ->]|H]; tauto. }
  rewrite require_one_ok by (apply Hcols2; by left).
  cbn [mbind result_bind]. rewrite Hrows2, meses_da_tabela_col. fold cs.
  unfold notna in Hmin, Hmax. apply negb_true_iff in Hmin, Hmax. rewrite Hmin, Hmax.
  simpl orb. cbv iota.
  eexists. split; [reflexivity|].
  set (R := select_cols _ _).
  assert (HcolsR : columns R
                   = ["id_produto"; "Risco_Intermitencia"; "Meses_Comprados_Historico"]%string)
    by done.
  assert (Hov : overlap ["id_produto"]%string df2 R = []).
  { apply overlap_nil. intros c Hc. rewrite HcolsR in Hc.
    rewrite !elem_of_cons, elem_of_nil in Hc.
    destruct Hc as [->|[->|[->|[]]]]; [left; by left|right..]; intros Hin;
      apply Hcols2 in Hin as [Hin|Hin]; done. }
  assert (HdR : distinct_keys ["id_produto"]%string (rows R)).
  { unfold R, select_cols. cbn [rows]. rewrite set_col_rows, <- list_fmap_compose.
    apply distinct_keys_post.
    - intros t. apply key_of_ext. intros c Hc. apply list_elem_of_singleton in Hc as ->.
      unfold compose. rewrite get_select_row by elem_by_eval. by get_simpl.
    - apply groupby_agg_distinct.
      + apply (bool_decide_unpack _). vm_compute. exact I.
      + intros c Hc Hin. apply list_elem_of_singleton in Hc as ->.
        apply (bool_decide_pack _) in Hin. vm_compute in Hin. done. }
  split.
  - intros c. unfold drop_col, merge_left. cbn [columns].
    rewrite Hov, !sfx_nil, HcolsR, list_elem_of_filter, elem_of_app, Hcols2.
    rewrite (list_elem_of_filter _ _ c), !elem_of_cons, !elem_of_nil. split.
    + tauto.
    + intros [[H Hne]|[->|[->|[]]]]; [tauto|..];
        (split; [discriminate|]); right; (split; [intros [?|[]]; discriminate|tauto]).
  - unfold drop_col. cbn [rows]. rewrite merge_left_rows by done.
    by rewrite Hrows2, !length_fmap.
Qed.

(** Step 9 of [main]: the concentration. *)
Lemma concentracao_passo df :
  has_cols concentracao_cols df = true → ("%_Gasto_Unico_Forn"%string ∉ columns df) →
  ∃ out,
    calcular_concentracao_fornecedor df = Ok out ∧
    passo [] ["%_Gasto_Unico_Forn"%string] df out ∧
    length (rows out) = length (rows df).
Proof.
  intros Hc Hnew. rewrite (concentracao_ok df Hc). eexists. split; [reflexivity|]. split.
  - assert (Hov : overlap ["id_produto"]%string df
                    (select_cols ["id_produto"; "%_Gasto_Unico_Forn"]%string
                       (df_concentracao df)) = []).
    { apply overlap_nil. intros c Hin. cbn [columns select_cols] in Hin.
      rewrite !elem_of_cons, elem_of_nil in Hin.
      destruct Hin as [->|[->|[]]]; [left; by left|by right]. }
    intros c. unfold merge_left. cbn [columns select_cols].
    rewrite Hov, !sfx_nil, elem_of_app. split.
    + intros [H|H]; [left; split; [done|apply not_elem_of_nil]|by right].
    + intros [[H _]|H]; [by left|by right].
  - by rewrite concentracao_out_rows, length_fmap.
Qed.

(** Step 10 of [main]: the radar returns, empty or with its ten columns. *)
Lemma radar_passo df :
  has_cols required_cols df = true → ("PMP_Mediano_Dinamico"%string ∉ columns df) →
  ∃ radar,
    gerar_mini_fato_radar_enriquecida df = Ok radar ∧
    (df_empty radar = true
     ∨ (df_empty radar = false ∧ columns radar = radar_out_cols ∧
        length (rows radar) = length (filter (λ r, linha_valida r = true) (rows df)))).
Proof.
  intros Hreq Hno.
  destruct (decide (filter (λ r, linha_valida r = true) (rows df) = [])) as [He|Hne].
  - rewrite (radar_vazio df Hreq He). eexists. split; [reflexivity|]. by left.
  - rewrite (radar_retorna df Hreq Hne Hno). eexists. split; [reflexivity|]. right.
    cbn [columns rows]. rewrite length_fmap. split; [|done].
    unfold df_empty. cbn [columns rows radar_out_cols].
    destruct (filter _ (rows df)); done.
Qed.
End MainPassos.

(** X11.  [main] runs through.  Take a consolidated table that has the
    columns the steps read (those of the hash, of the four dimensions and
    preco_total), none of the columns that merges and renamings create on
    the way, dates or missing values in compra, and at least one date.
    Then no step raises and: the files written are the consolidated
    table, the five dimensions (institution, product, supplier,
    manufacturer, time), the radar when it is not empty, and the fact
    table, in this order; the consolidated table and the fact table keep
    every line; the fact table has exactly the columns of the input
    without the three residual columns, the attributes of the dimensions,
    compra and mes_compra, and the seventeen columns written: the order
    identifier, the five columns of the z-score, the five keys,
    data_compra and the five indicators. *)
Theorem main_retorna Qsqrt parse_date py_str round4 df :
  has_cols colunas_entrada df = true →
  (∀ c, c ∈ colunas_novas → c ∉ columns df) →
  (∀ r, r ∈ rows df → is_datetime (get "compra" r) = true) →
  (∃ r, r ∈ rows df ∧ notna (get "compra" r) = true) →
  ∃ consolidado dims radar df_fato,
    main Qsqrt parse_date py_str round4 df
    = Ok ([("compras_consolidado_final.csv"%string, consolidado)] ++ dims ++ radar
          ++ [("fato_compras_medicamentos.csv"%string, df_fato)]) ∧
    dims.*1 = ["dim_instituicao.csv"; "dim_produto.csv"; "dim_fornecedor.csv";
               "dim_fabricante.csv"; "dim_tempo.csv"]%string ∧
    (radar = [] ∨
     ∃ t, radar = [("mini_fato_radar_oportunidades.csv"%string, t)] ∧
          columns t = radar_out_cols ∧ rows t ≠ []) ∧
    length (rows consolidado) = length (rows df) ∧
    length (rows df_fato) = length (rows df) ∧
    ∀ c, c ∈ columns df_fato ↔
         (c ∈ columns df ∧ c ∉ colunas_retiradas) ∨ c ∈ colunas_escritas.
Proof.
  intros Hcols Hfresh Hdt (r0 & Hr0 & Hn0).
  pose proof (proj1 (has_cols_elem colunas_entrada df) Hcols) as Hall.
  assert (Htd : tem_data "compra" df).
  { specialize (Hdt r0 Hr0). unfold get in Hdt, Hn0.
    destruct (r0 !! "compra"%string) as [[| | |y m d]|] eqn:E; try done.
    by exists r0, y, m, d. }
  assert (Hne : rows df ≠ []).
  { intros E. rewrite E in Hr0. by apply elem_of_nil in Hr0. }
  assert (He : df_empty df = false).
  { unfold df_empty. destruct (columns df) eqn:Ec.
    - exfalso. eapply elem_of_nil, (Hall "compra"%string). elem_by_eval.
    - by destruct (rows df). }
  (* step 3: the identifier *)
  destruct (gerar_id_pedido_passo Qsqrt py_str df He) as (P1 & Z & HZ & HZf).
  { apply has_cols_elem. intros c Hc. apply Hall.
    unfold colunas_entrada. rewrite elem_of_app. by left. }
  { apply has_cols_elem. intros c Hc. apply Hall.
    revert Hc. unfold zscore_cols. rewrite !elem_of_cons, elem_of_nil.
    intros [->|[->|[->|[->|[]]]]]; elem_by_eval. }
  set (d1 := gerar_id_pedido Qsqrt py_str df) in *.
  assert (Hlen1 : length (rows d1) = length (rows df)) by (by rewrite HZ, length_fmap).
  (* step 5: the dimensions *)
  destruct (dimensoes_passo parse_date d1) as (dims & d2 & Hok2 & Hnames & P2 & Hlen2 & T2).
  { apply (passo_has _ _ _ _ _ _ P1 Hcols). vm_compute. reflexivity. }
  { intros E. rewrite E in Hlen1. destruct (rows df); done. }
  { intros c Hc. apply (passo_fresh _ _ _ _ _ _ P1 Hfresh).
    rewrite !elem_of_cons, elem_of_nil in Hc.
    destruct Hc as [->|[->|[->|[->|[->|[]]]]]]; vm_compute; reflexivity. }
  { apply (tem_data_fmap _ Z df); [exact HZ| |exact Htd].
    intros r. apply HZf. intros H. apply (bool_decide_pack _) in H. vm_compute in H. exact H. }
  pose proof (passo_trans _ _ _ _ _ _ _ P1 P2) as P12.
  (* step 6: the z-score finds no product code *)
  assert (Hz2 : calcular_zscore_risco Qsqrt d2 = d2).
  { apply zscore_guard, (has_cols_sem _ _ "codigo_br"); [elem_by_eval|].
    apply (passo_removed _ _ _ _ _ P12). vm_compute. reflexivity. }
  (* step 7: the prioritization *)
  destruct (priorizacao_passo round4 d2) as (d3 & Hok3 & P3 & Hlen3 & g3 & Hr3 & Hg3).
  { apply (passo_has _ _ _ _ _ _ P12 Hcols). vm_compute. reflexivity. }
  { apply (passo_fresh _ _ _ _ _ _ P12 Hfresh). vm_compute. reflexivity. }
  { apply (passo_fresh _ _ _ _ _ _ P12 Hfresh). vm_compute. reflexivity. }
  pose proof (passo_trans _ _ _ _ _ _ _ P12 P3) as P13.
  (* step 8: the intermittency *)
  destruct (intermitencia_passo parse_date d3) as (d4 & Hok4 & P4 & Hlen4).
  { apply has_col_elem. apply P13. right. elem_by_eval. }
  { apply P13. right. elem_by_eval. }
  { apply (passo_fresh _ _ _ _ _ _ P13 Hfresh). vm_compute. reflexivity. }
  { apply (passo_fresh _ _ _ _ _ _ P13 Hfresh). vm_compute. reflexivity. }
  { apply (tem_data_fmap _ g3 d2); [by rewrite Hr3| |exact T2].
    intros r. apply Hg3. intros H. apply (bool_decide_pack _) in H. vm_compute in H.
    exact H. }
  pose proof (passo_trans _ _ _ _ _ _ _ P13 P4) as P14.
  (* step 9: the concentration *)
  destruct (concentracao_passo d4) as (d5 & Hok5 & P5 & Hlen5).
  { apply (passo_has _ _ _ _ _ _ P14 Hcols). vm_compute. reflexivity. }
  { apply (passo_fresh _ _ _ _ _ _ P14 Hfresh). vm_compute. reflexivity. }
  pose proof (passo_trans _ _ _ _ _ _ _ P14 P5) as P15.
  (* step 10: the radar *)
  destruct (radar_passo d5) as (rd & Hok6 & Hrd).
  { apply (passo_has _ _ _ _ _ _ P15 Hcols). vm_compute. reflexivity. }
  { apply (passo_fresh _ _ _ _ _ _ P15 Hfresh). vm_compute. reflexivity. }
  unfold main. cbv zeta. fold d1. rewrite Hok2. cbn [mbind result_bind].
  rewrite Hz2, Hok3. cbn [mbind result_bind]. rewrite Hok4. cbn [mbind result_bind].
  rewrite Hok5. cbn [mbind result_bind]. rewrite Hok6. cbn [mbind result_bind].
  eexists d1, _, _, d5. split; [reflexivity|]. split; [|split; [|split; [|split]]].
  - rewrite <- list_fmap_compose.
    change (["dim_instituicao.csv"; "dim_produto.csv"; "dim_fornecedor.csv";
             "dim_fabricante.csv"; "dim_tempo.csv"]%string)
      with ((λ n : string, "dim_" +:+ n +:+ ".csv")
              <$> ["instituicao"; "produto"; "fornecedor"; "fabricante"; "tempo"]%string).
    rewrite <- Hnames, <- list_fmap_compose. reflexivity.
  - destruct Hrd as [E|(E & Hc & Hl)]; rewrite E; [by left|right].
    exists rd. split; [done|]. split; [done|].
    unfold df_empty in E. rewrite Hc in E. by destruct (rows rd).
  - exact Hlen1.
  - by rewrite Hlen5, Hlen4, Hlen3, Hlen2.
  - eapply passo_eq; [exact P15|..]; intros c.
    + unfold colunas_retiradas. rewrite !app_nil_r, <- !app_assoc. reflexivity.
    + match goal with |- c ∈ ?l ↔ _ =>
        let l' := eval vm_compute in l in change l with l' end.
      reflexivity.
Qed.

(** The consolidated table of three purchases meets the hypotheses. *)
Lemma main_retorna_witness :
  ∃ consolidado dims radar df_fato,
    main Qsqrt12 parse_none str_exemplo (round_dec 4) consolidado_completo
    = Ok ([("compras_consolidado_final.csv"%string, consolidado)] ++ dims ++ radar
          ++ [("fato_compras_medicamentos.csv"%string, df_fato)]) ∧
    length (rows df_fato) = 3%nat.
Proof.
  assert (H1 : has_cols colunas_entrada consolidado_completo = true)
    by (vm_compute; reflexivity).
  assert (H2 : ∀ c, c ∈ colunas_novas → c ∉ columns consolidado_completo).
  { apply Forall_forall, (bool_decide_unpack _). vm_compute. exact I. }
  assert (H3 : ∀ r, r ∈ rows consolidado_completo → is_datetime (get "compra" r) = true).
  { apply Forall_forall, (bool_decide_unpack _). vm_compute. exact I. }
  assert (H4 : ∃ r, r ∈ rows consolidado_completo ∧ notna (get "compra" r) = true).
  { eexists. split; [by left|vm_compute; reflexivity]. }
  destruct (main_retorna Qsqrt12 parse_none str_exemplo (round_dec 4) consolidado_completo H1 H2 H3 H4)
    as (consolidado & dims & radar & df_fato & Hok & _ & _ & _ & Hlen & _).
  exists consolidado, dims, radar, df_fato. split; [exact Hok|exact Hlen].
Defined.

(** The files of the example and the columns of its fact table. *)
Example main_do_exemplo :
  on_ok (main Qsqrt12 parse_none str_exemplo (round_dec 4) consolidado_completo) (λ arquivos,
    arquivos.*1
    = ["compras_consolidado_final.csv"; "dim_instituicao.csv"; "dim_produto.csv";
       "dim_fornecedor.csv"; "dim_fabricante.csv"; "dim_tempo.csv";
       "mini_fato_radar_oportunidades.csv"; "fato_compras_medicamentos.csv"]%string ∧
    (columns <$> last (arquivos.*2))
    = Some ["id_pedido"; "id_instituicao"; "id_produto"; "id_fornecedor"; "id_fabricante";
            "id_tempo"; "modalidade_compra"; "tipo_compra"; "ano_compra"; "data_compra";
            "insercao"; "anvisa"; "qtd_itens_comprados"; "preco_unitario"; "preco_total";
            "pmp_individual"; "pmp_medio"; "pmp_desvio_padrao"; "score_z_risco";
            "indice_priorizacao"; "demanda_valor"; "Risco_Intermitencia";
            "Meses_Comprados_Historico"; "%_Gasto_Unico_Forn"]%string).
Proof. vm_compute. done. Qed.

(** ** The time dimension of a table without dates *)

Lemma rename_in_row_back a b (r : Row) v :
  r !! a = Some v → r !! b = None →
  rename_in_row b a (rename_in_row a b r) = r.
Proof.
  intros Ha Hb. unfold rename_in_row at 2. rewrite Ha.
  unfold rename_in_row. rewrite lookup_insert_eq.
  apply map_eq. intros c.
  destruct (decide (c = a)) as [->|Hca].
  - by rewrite lookup_insert_eq, Ha.
  - rewrite lookup_insert_ne by done.
    destruct (decide (c = b)) as [->|Hcb].
    + by rewrite lookup_delete_eq, Hb.
    + rewrite lookup_delete_ne, lookup_insert_ne, lookup_delete_ne by done. done.
Qed.

Lemma renomear_back a b (l : list string) :
  b ∉ l → (λ x, if String.eqb x b then a else x) <$> ((λ x, if String.eqb x a then b else x) <$> l)
          = l.
Proof.
  intros Hb. rewrite <- list_fmap_compose. rewrite <- (list_fmap_id l) at 2.
  apply list_fmap_ext. intros i x Hx. unfold compose. simpl.
  destruct (String.eqb x a) eqn:E.
  - rewrite String.eqb_refl. by apply String.eqb_eq in E.
  - destruct (String.eqb x b) eqn:E'; [|done].
    apply String.eqb_eq in E' as ->. exfalso. apply Hb. by eapply list_elem_of_lookup_2.
Qed.

Lemma datas_distintas_nil parse_date f :
  (∀ r, r ∈ rows f → to_datetime parse_date (get "compra" r) = NaN) →
  datas_distintas parse_date f = [].
Proof.
  intros Hall. unfold datas_distintas. apply filter_none. intros x Hx.
  apply dedup_by_elem, list_elem_of_fmap in Hx as (r & -> & Hr).
  rewrite get_select_row by elem_by_eval. by rewrite (Hall r Hr).
Qed.

(** X12.  The time dimension when no purchase date is valid.  The
    function does not raise: the handler of the [try] block takes over
    after the merge.  No time dimension is exported, yet id_tempo joins
    the keys and the fact table: its column is appended and holds missing
    values only; compra keeps its name (there is no data_compra), and
    every line keeps its place and every other value. *)
Theorem tempo_sem_datas parse_date st :
  bem_formada (fato st) →
  has_col "compra" (fato st) = true →
  ("id_tempo"%string ∉ columns (fato st)) →
  ("data_compra"%string ∉ columns (fato st)) →
  (∀ r, r ∈ rows (fato st) → to_datetime parse_date (get "compra" r) = NaN) →
  let st' := add_tempo parse_date st in
  exported st' = exported st ∧
  chaves_dimensao st' = chaves_dimensao st ++ ["id_tempo"%string] ∧
  columns (fato st') = columns (fato st) ++ ["id_tempo"%string] ∧
  length (rows (fato st')) = length (rows (fato st)) ∧
  ∀ i r, rows (fato st) !! i = Some r →
    ∃ r', rows (fato st') !! i = Some r' ∧
      get "id_tempo" r' = NaN ∧
      ∀ c, c ≠ "id_tempo"%string → r' !! c = r !! c.
Proof.
  intros Hwf Hc Hnt Hnd Hall st'.
  set (f := fato st) in *.
  set (R := select_cols ["compra"; "id_tempo"]%string (dim_tempo_natural parse_date f)).
  assert (HR : rows R = []).
  { unfold R. by rewrite tempo_right_rows, datas_distintas_nil. }
  assert (Hst' : st' = {| exported := exported st;
                          chaves_dimensao := chaves_dimensao st ++ ["id_tempo"%string];
                          fato := rename_col "data_compra" "compra"
                                    (rename_col "compra" "data_compra"
                                       (merge_left ["compra"]%string f R)) |}).
  { unfold st', add_tempo. fold f. rewrite Hc. simpl negb. cbv iota zeta.
    rewrite bool_decide_eq_true_2; [done|].
    unfold select_cols. cbn [rows]. by rewrite dim_tempo_natural_rows, datas_distintas_nil. }
  rewrite Hst'. cbn [exported chaves_dimensao fato].
  assert (Hov : overlap ["compra"]%string f R = []).
  { apply overlap_nil. intros c Hc'. change (columns R) with ["compra"; "id_tempo"]%string in Hc'.
    rewrite !elem_of_cons, elem_of_nil in Hc'.
    destruct Hc' as [->|[->|[]]]; [left; by left|by right]. }
  assert (Hrows : rows (rename_col "data_compra" "compra"
                          (rename_col "compra" "data_compra"
                             (merge_left ["compra"]%string f R)))
                  = (λ r, rename_in_row "data_compra" "compra"
                            (rename_in_row "compra" "data_compra"
                               (merge_row ["compra"]%string [] ["compra"; "id_tempo"]%string r
                                  None)))
                      <$> rows f).
  { rewrite !rename_col_rows, merge_left_rows by apply tempo_right_distinct.
    rewrite Hov, HR, <- !list_fmap_compose. done. }
  split; [done|]. split; [done|]. split; [|split].
  - unfold rename_col, merge_left. cbn [columns]. rewrite Hov, !sfx_nil.
    change (columns R) with ["compra"; "id_tempo"]%string.
    apply renomear_back. rewrite not_elem_of_app. split; [done|].
    rewrite elem_of_cons, elem_of_nil. intros [?|[]]; discriminate.
  - by rewrite Hrows, length_fmap.
  - intros i r Hr. rewrite Hrows, list_lookup_fmap, Hr. cbn [fmap option_fmap option_map].
    eexists. split; [reflexivity|].
    assert (Hin : r ∈ rows f) by (by eapply list_elem_of_lookup_2).
    set (r1 := merge_row ["compra"]%string [] ["compra"; "id_tempo"]%string r None).
    assert (G1 : get "id_tempo" r1 = NaN).
    { unfold r1. rewrite merge_row_new; [done|elem_by_eval|].
      intros H; apply (bool_decide_pack _) in H; vm_compute in H; done. }
    assert (G2 : ∀ c, c ≠ "id_tempo"%string → r1 !! c = r !! c).
    { intros c Hne. apply merge_row_old.
      destruct (decide (c = "compra"%string)) as [->|Hne']; [right; by left|].
      left. rewrite !elem_of_cons, elem_of_nil. intros [?|[?|[]]]; done. }
    destruct (proj2 (Hwf r Hin "compra"%string)) as [v Hv]; [by apply has_col_elem|].
    assert (Hdc : r !! "data_compra"%string = None).
    { apply eq_None_not_Some. intros H. by apply (Hwf r Hin) in H. }
    rewrite (rename_in_row_back "compra" "data_compra" r1 v)
      by (rewrite G2 by discriminate; done).
    split; [exact G1|exact G2].
Qed.

(** A table of two lines without a valid date meets the hypotheses. *)
Lemma tempo_sem_datas_witness :
  exported (add_tempo parse_none estado_sem_datas) = [] ∧
  columns (fato (add_tempo parse_none estado_sem_datas))
  = ["id_pedido"; "compra"; "preco_total"; "id_tempo"]%string.
Proof.
  assert (H1 : bem_formada (fato estado_sem_datas)).
  { apply frame_bem_formada. apply Forall_forall.
    apply (bool_decide_unpack _). vm_compute. exact I. }
  assert (H2 : has_col "compra" (fato estado_sem_datas) = true) by (vm_compute; reflexivity).
  assert (H3 : "id_tempo"%string ∉ columns (fato estado_sem_datas)).
  { intros H. apply (bool_decide_pack _) in H. vm_compute in H. exact H. }
  assert (H4 : "data_compra"%string ∉ columns (fato estado_sem_datas)).
  { intros H. apply (bool_decide_pack _) in H. vm_compute in H. exact H. }
  assert (H5 : ∀ r, r ∈ rows (fato estado_sem_datas) →
                    to_datetime parse_none (get "compra" r) = NaN).
  { intros r Hr. cbn [fato estado_sem_datas frame rows fmap list_fmap] in Hr.
    rewrite !elem_of_cons, elem_of_nil in Hr.
    destruct Hr as [->|[->|[]]]; vm_compute; reflexivity. }
  destruct (tempo_sem_datas parse_none estado_sem_datas H1 H2 H3 H4 H5)
    as (He & _ & Hcols & _).
  split; [exact He|exact Hcols].
Defined.
(** ** The final order of the columns *)

(** X13.  The reordering at the end of [criar_e_integrar_dimensoes] loses
    no column and repeats none.  The columns it returns are the keys that
    the table has, in the order of the list of keys, then the context
    columns modalidade_compra and tipo_compra that it has, then every
    other column in its former order; when the keys are different names,
    none of them a context column, and the table has no column twice,
    they are the columns of the table, rearranged.  Every line keeps its
    place and its values. *)
Theorem ordenar_colunas_permuta chaves f :
  NoDup chaves → NoDup (columns f) → (∀ c, c ∈ chaves → c ∉ colunas_contexto) →
  let out := ordenar_colunas chaves f in
  columns out
  = filter (λ c, c ∈ columns f) chaves
    ++ filter (λ c, c ∈ columns f) colunas_contexto
    ++ filter (λ c, (c ∉ chaves) ∧ (c ∉ colunas_contexto)) (columns f) ∧
  columns out ≡ₚ columns f ∧
  length (rows out) = length (rows f) ∧
  ∀ i r, rows f !! i = Some r →
    ∃ r', rows out !! i = Some r' ∧ ∀ c, c ∈ columns f → get c r' = get c r.
Proof.
  intros Hk Hf Hdis out.
  assert (Hcols : columns out
                  = filter (λ c, c ∈ columns f) chaves
                    ++ filter (λ c, c ∈ columns f) colunas_contexto
                    ++ filter (λ c, (c ∉ chaves) ∧ (c ∉ colunas_contexto)) (columns f)).
  { unfold out, ordenar_colunas, select_cols. cbn [columns]. do 2 f_equal.
    apply filter_ext_in. intros c Hc. rewrite !not_elem_of_app, !list_elem_of_filter.
    tauto. }
  assert (Hctx : NoDup colunas_contexto)
    by (apply (bool_decide_unpack _); vm_compute; exact I).
  split; [exact Hcols|]. split; [|split].
  - apply NoDup_Permutation; [|done|].
    + rewrite Hcols. apply NoDup_app. split; [by apply NoDup_filter|]. split.
      * intros c Hc Hin. apply list_elem_of_filter in Hc as [_ Hc].
        apply elem_of_app in Hin as [Hin|Hin]; apply list_elem_of_filter in Hin.
        -- destruct Hin as [_ Hin]. by apply (Hdis c).
        -- tauto.
      * apply NoDup_app. split; [by apply NoDup_filter|]. split; [|by apply NoDup_filter].
        intros c Hc Hin. apply list_elem_of_filter in Hc as [_ Hc].
        apply list_elem_of_filter in Hin. tauto.
    + intros c. unfold out. rewrite (ordenar_colunas_passo chaves f c). split.
      * intros [[H _]|H]; [done|by apply elem_of_nil in H].
      * intros H. left. split; [done|apply not_elem_of_nil].
  - apply ordenar_colunas_rows.
  - intros i r Hr. unfold out, ordenar_colunas, select_cols. cbn [rows].
    rewrite list_lookup_fmap, Hr. cbn [fmap option_fmap option_map].
    eexists. split; [reflexivity|]. intros c Hc. apply get_select_row.
    apply (ordenar_colunas_passo chaves f c). left. split; [done|apply not_elem_of_nil].
Qed.

(** The fact of the time example, its keys first. *)
Lemma ordenar_colunas_permuta_witness :
  columns (ordenar_colunas ["id_pedido"; "id_tempo"]%string
             (fato (add_tempo parse_none estado_datas)))
  = ["id_pedido"; "id_tempo"; "data_compra"; "preco_total"]%string.
Proof.
  assert (H1 : NoDup ["id_pedido"; "id_tempo"]%string)
    by (apply (bool_decide_unpack _); vm_compute; exact I).
  assert (H2 : NoDup (columns (fato (add_tempo parse_none estado_datas))))
    by (apply (bool_decide_unpack _); vm_compute; exact I).
  assert (H3 : ∀ c, c ∈ ["id_pedido"; "id_tempo"]%string → c ∉ colunas_contexto).
  { apply Forall_forall, (bool_decide_unpack _). vm_compute. exact I. }
  destruct (ordenar_colunas_permuta _ _ H1 H2 H3) as (Hcols & _).
  rewrite Hcols. vm_compute. reflexivity.
Defined.

(** ** The pipeline without dates *)

Lemma sem_data_fmap c (g : Row → Row) X Y :
  rows Y ≡ₚ g <$> rows X → (∀ r, g r !! c = r !! c) → sem_data c X → sem_data c Y.
Proof.
  intros Hp Hg HX r' Hr'. rewrite Hp in Hr'. apply list_elem_of_fmap in Hr' as (r & -> & Hr).
  unfold get. rewrite Hg. by apply HX.
Qed.

(** The time dimension of a table that has no date. *)
Lemma add_tempo_passo_sem_datas parse_date st :
  has_col "compra" (fato st) = true →
  ("id_tempo"%string ∉ columns (fato st)) → ("data_compra"%string ∉ columns (fato st)) →
  sem_data "compra" (fato st) →
  exported (add_tempo parse_date st) = exported st ∧
  passo [] ["id_tempo"%string] (fato st) (fato (add_tempo parse_date st)) ∧
  length (rows (fato (add_tempo parse_date st))) = length (rows (fato st)).
Proof.
  intros Hc Hnt Hnd Hall.
  set (f := fato st) in *.
  assert (Hnil : datas_distintas parse_date f = []).
  { apply datas_distintas_nil. intros r Hr. by rewrite (Hall r Hr). }
  set (R := select_cols ["compra"; "id_tempo"]%string (dim_tempo_natural parse_date f)).
  assert (Hst' : add_tempo parse_date st
                 = {| exported := exported st;
                      chaves_dimensao := chaves_dimensao st ++ ["id_tempo"%string];
                      fato := rename_col "data_compra" "compra"
                                (rename_col "compra" "data_compra"
                                   (merge_left ["compra"]%string f R)) |}).
  { unfold add_tempo. fold f. rewrite Hc. simpl negb. cbv iota zeta.
    rewrite bool_decide_eq_true_2; [done|].
    unfold select_cols. cbn [rows]. by rewrite dim_tempo_natural_rows, Hnil. }
  rewrite Hst'. cbn [exported fato].
  assert (Hov : overlap ["compra"]%string f R = []).
  { apply overlap_nil. intros c Hc'. change (columns R) with ["compra"; "id_tempo"]%string in Hc'.
    rewrite !elem_of_cons, elem_of_nil in Hc'.
    destruct Hc' as [->|[->|[]]]; [left; by left|by right]. }
  split; [done|]. split.
  - assert (E : columns (rename_col "data_compra" "compra"
                           (rename_col "compra" "data_compra"
                              (merge_left ["compra"]%string f R)))
                = columns f ++ ["id_tempo"%string]).
    { unfold rename_col, merge_left. cbn [columns]. rewrite Hov, !sfx_nil.
      change (columns R) with ["compra"; "id_tempo"]%string.
      apply renomear_back. rewrite not_elem_of_app. split; [done|].
      rewrite elem_of_cons, elem_of_nil. intros [?|[]]; discriminate. }
    intros c. rewrite E, elem_of_app. split.
    + intros [H|H]; [left; split; [done|apply not_elem_of_nil]|by right].
    + intros [[H _]|H]; [by left|by right].
  - rewrite !rename_col_rows, merge_left_rows by apply tempo_right_distinct.
    by rewrite !length_fmap.
Qed.

(** The dimensions of a table that has no date: four are exported. *)
Lemma dimensoes_passo_sem_datas parse_date df :
  has_cols (col_inst ++ col_prod ++ col_forn ++ col_fabr ++ ["compra"%string]) df = true →
  rows df ≠ [] →
  (∀ c, c ∈ ["id_instituicao"; "id_produto"; "id_fornecedor"; "id_fabricante";
             "id_tempo"]%string → c ∉ columns df) →
  ("data_compra"%string ∉ columns df) →
  sem_data "compra" df →
  ∃ dims df_fato,
    criar_e_integrar_dimensoes parse_date df = Ok (dims, df_fato) ∧
    dims.*1 = ["instituicao"; "produto"; "fornecedor"; "fabricante"]%string ∧
    passo (col_inst ++ col_prod ++ col_forn ++ col_fabr)
      ["id_instituicao"; "id_produto"; "id_fornecedor"; "id_fabricante"; "id_tempo"]%string
      df df_fato ∧
    length (rows df_fato) = length (rows df).
Proof.
  intros Hcols Hne Hfresh Hdc Hsem.
  destruct (dimensoes_naturais_passo parse_date df Hcols Hne Hfresh)
    as (st4 & Hok & Hnames & P14 & g & Hg & Hgf).
  assert (Hcompra : "compra"%string ∉ (col_inst ++ col_prod ++ col_forn ++ col_fabr
                      ++ ["id_instituicao"; "id_produto"; "id_fornecedor";
                          "id_fabricante"]%string)).
  { intros H. apply (bool_decide_pack _) in H. vm_compute in H. exact H. }
  destruct (add_tempo_passo_sem_datas parse_date st4) as (Hex & P5 & Hlen5).
  { apply has_col_elem.
    apply (proj1 (has_cols_elem ["compra"%string] (fato st4))); [|by left].
    apply (passo_has _ _ _ _ _ _ P14 Hcols). vm_compute. reflexivity. }
  { apply (passo_fresh _ _ _ _ _ _ P14 Hfresh). vm_compute. reflexivity. }
  { rewrite (P14 "data_compra"%string). intros [[H _]|H]; [done|].
    apply (bool_decide_pack _) in H. vm_compute in H. exact H. }
  { apply (sem_data_fmap _ g df); [by rewrite Hg| |done]. intros r. by apply Hgf. }
  pose proof (passo_trans _ _ _ _ _ _ _ P14 P5) as P15.
  pose proof (passo_trans _ _ _ _ _ _ _ P15
                (ordenar_colunas_passo (chaves_dimensao (add_tempo parse_date st4))
                   (fato (add_tempo parse_date st4)))) as P16.
  eexists _, _. split; [exact Hok|]. split; [|split].
  - by rewrite Hex, Hnames.
  - eapply passo_eq; [exact P16|..]; intros c.
    + rewrite !app_nil_r. reflexivity.
    + match goal with |- c ∈ ?l ↔ _ =>
        let l' := eval vm_compute in l in change l with l' end.
      reflexivity.
  - rewrite ordenar_colunas_rows, Hlen5, Hg, !length_fmap. done.
Qed.

(** X14.  [main] without dates.  When no purchase of the consolidated
    table is dated (and the table has the columns the steps read, none of
    the columns created on the way, and a line), [main] still runs
    through, with less: no time dimension is written; the fact table
    keeps every line and the column compra, receives a column id_tempo,
    and has neither data_compra nor the two columns of the intermittency,
    whose step finds no data_compra and leaves the table as it is. *)
Theorem main_sem_datas Qsqrt parse_date py_str round4 df :
  has_cols colunas_entrada df = true →
  (∀ c, c ∈ colunas_novas → c ∉ columns df) →
  rows df ≠ [] →
  (∀ r, r ∈ rows df → get "compra" r = NaN) →
  ∃ consolidado dims radar df_fato,
    main Qsqrt parse_date py_str round4 df
    = Ok ([("compras_consolidado_final.csv"%string, consolidado)] ++ dims ++ radar
          ++ [("fato_compras_medicamentos.csv"%string, df_fato)]) ∧
    dims.*1 = ["dim_instituicao.csv"; "dim_produto.csv"; "dim_fornecedor.csv";
               "dim_fabricante.csv"]%string ∧
    (radar = [] ∨ ∃ t, radar = [("mini_fato_radar_oportunidades.csv"%string, t)]) ∧
    length (rows df_fato) = length (rows df) ∧
    ∀ c, c ∈ columns df_fato ↔
         (c ∈ columns df ∧
          c ∉ colunas_para_dropar ++ col_inst ++ col_prod ++ col_forn ++ col_fabr)
         ∨ c ∈ colunas_escritas_sem_datas.
Proof.
  intros Hcols Hfresh Hne Hsem.
  pose proof (proj1 (has_cols_elem colunas_entrada df) Hcols) as Hall.
  assert (He : df_empty df = false).
  { unfold df_empty. destruct (columns df) eqn:Ec.
    - exfalso. eapply elem_of_nil, (Hall "compra"%string). elem_by_eval.
    - by destruct (rows df). }
  (* step 3: the identifier *)
  destruct (gerar_id_pedido_passo Qsqrt py_str df He) as (P1 & Z & HZ & HZf).
  { apply has_cols_elem. intros c Hc. apply Hall.
    unfold colunas_entrada. rewrite elem_of_app. by left. }
  { apply has_cols_elem. intros c Hc. apply Hall.
    revert Hc. unfold zscore_cols. rewrite !elem_of_cons, elem_of_nil.
    intros [->|[->|[->|[->|[]]]]]; elem_by_eval. }
  set (d1 := gerar_id_pedido Qsqrt py_str df) in *.
  assert (Hlen1 : length (rows d1) = length (rows df)) by (by rewrite HZ, length_fmap).
  (* step 5: the dimensions *)
  destruct (dimensoes_passo_sem_datas parse_date d1) as (dims & d2 & Hok2 & Hnames & P2 & Hlen2).
  { apply (passo_has _ _ _ _ _ _ P1 Hcols). vm_compute. reflexivity. }
  { intros E. rewrite E in Hlen1. destruct (rows df); done. }
  { intros c Hc. apply (passo_fresh _ _ _ _ _ _ P1 Hfresh).
    rewrite !elem_of_cons, elem_of_nil in Hc.
    destruct Hc as [->|[->|[->|[->|[->|[]]]]]]; vm_compute; reflexivity. }
  { apply (passo_fresh _ _ _ _ _ _ P1 Hfresh). vm_compute. reflexivity. }
  { apply (sem_data_fmap _ Z df); [exact HZ| |exact Hsem].
    intros r. apply HZf. intros H. apply (bool_decide_pack _) in H. vm_compute in H. exact H. }
  pose proof (passo_trans _ _ _ _ _ _ _ P1 P2) as P12.
  (* step 6: the z-score finds no product code *)
  assert (Hz2 : calcular_zscore_risco Qsqrt d2 = d2).
  { apply zscore_guard, (has_cols_sem _ _ "codigo_br"); [elem_by_eval|].
    apply (passo_removed _ _ _ _ _ P12). vm_compute. reflexivity. }
  (* step 7: the prioritization *)
  destruct (priorizacao_passo round4 d2) as (d3 & Hok3 & P3 & Hlen3 & _).
  { apply (passo_has _ _ _ _ _ _ P12 Hcols). vm_compute. reflexivity. }
  { apply (passo_fresh _ _ _ _ _ _ P12 Hfresh). vm_compute. reflexivity. }
  { apply (passo_fresh _ _ _ _ _ _ P12 Hfresh). vm_compute. reflexivity. }
  pose proof (passo_trans _ _ _ _ _ _ _ P12 P3) as P13.
  (* step 8: the intermittency finds no date column *)
  assert (Hok4 : calcular_risco_intermitencia parse_date d3 = Ok d3).
  { apply intermitencia_guard. apply not_true_iff_false. rewrite has_col_elem.
    apply (passo_fresh _ _ _ _ _ _ P13 Hfresh). vm_compute. reflexivity. }
  (* step 9: the concentration *)
  destruct (concentracao_passo d3) as (d5 & Hok5 & P5 & Hlen5).
  { apply (passo_has _ _ _ _ _ _ P13 Hcols). vm_compute. reflexivity. }
  { apply (passo_fresh _ _ _ _ _ _ P13 Hfresh). vm_compute. reflexivity. }
  pose proof (passo_trans _ _ _ _ _ _ _ P13 P5) as P15.
  (* step 10: the radar *)
  destruct (radar_passo d5) as (rd & Hok6 & Hrd).
  { apply (passo_has _ _ _ _ _ _ P15 Hcols). vm_compute. reflexivity. }
  { apply (passo_fresh _ _ _ _ _ _ P15 Hfresh). vm_compute. reflexivity. }
  unfold main. cbv zeta. fold d1. rewrite Hok2. cbn [mbind result_bind].
  rewrite Hz2, Hok3. cbn [mbind result_bind]. rewrite Hok4. cbn [mbind result_bind].
  rewrite Hok5. cbn [mbind result_bind]. rewrite Hok6. cbn [mbind result_bind].
  eexists d1, _, _, d5. split; [reflexivity|]. split; [|split; [|split]].
  - rewrite <- list_fmap_compose.
    change (["dim_instituicao.csv"; "dim_produto.csv"; "dim_fornecedor.csv";
             "dim_fabricante.csv"]%string)
      with ((λ n : string, "dim_" +:+ n +:+ ".csv")
              <$> ["instituicao"; "produto"; "fornecedor"; "fabricante"]%string).
    rewrite <- Hnames, <- list_fmap_compose. reflexivity.
  - destruct (df_empty rd); [by left|right; by eexists].
  - by rewrite Hlen5, Hlen3, Hlen2.
  - eapply passo_eq; [exact P15|..]; intros c.
    + rewrite ?app_nil_r, <- ?app_assoc. reflexivity.
    + match goal with |- c ∈ ?l ↔ _ =>
        let l' := eval vm_compute in l in change l with l' end.
      reflexivity.
Qed.

(** The consolidated table without dates meets the hypotheses. *)
Lemma main_sem_datas_witness :
  ∃ consolidado dims radar df_fato,
    main Qsqrt12 parse_none str_exemplo (round_dec 4) consolidado_sem_datas
    = Ok ([("compras_consolidado_final.csv"%string, consolidado)] ++ dims ++ radar
          ++ [("fato_compras_medicamentos.csv"%string, df_fato)]) ∧
    length (rows df_fato) = 3%nat.
Proof.
  assert (H1 : has_cols colunas_entrada consolidado_sem_datas = true)
    by (vm_compute; reflexivity).
  assert (H2 : ∀ c, c ∈ colunas_novas → c ∉ columns consolidado_sem_datas).
  { apply Forall_forall, (bool_decide_unpack _). vm_compute. exact I. }
  assert (H3 : rows consolidado_sem_datas ≠ []) by discriminate.
  assert (H4 : ∀ r, r ∈ rows consolidado_sem_datas → get "compra" r = NaN).
  { intros r Hr. cbn [consolidado_sem_datas frame rows fmap list_fmap] in Hr.
    rewrite !elem_of_cons, elem_of_nil in Hr.
    destruct Hr as [->|[->|[->|[]]]]; vm_compute; reflexivity. }
  destruct (main_sem_datas Qsqrt12 parse_none str_exemplo (round_dec 4) consolidado_sem_datas H1 H2 H3 H4)
    as (consolidado & dims & radar & df_fato & Hok & _ & _ & Hlen & _).
  exists consolidado, dims, radar, df_fato. split; [exact Hok|exact Hlen].
Defined.

(** The files of the example without dates and the columns of its fact
    table. *)
Example exemplo_de_main_sem_datas :
  on_ok (main Qsqrt12 parse_none str_exemplo (round_dec 4) consolidado_sem_datas) (λ arquivos,
    arquivos.*1
    = ["compras_consolidado_final.csv"; "dim_instituicao.csv"; "dim_produto.csv";
       "dim_fornecedor.csv"; "dim_fabricante.csv"; "mini_fato_radar_oportunidades.csv";
       "fato_compras_medicamentos.csv"]%string ∧
    (columns <$> last (arquivos.*2))
    = Some ["id_pedido"; "id_instituicao"; "id_produto"; "id_fornecedor"; "id_fabricante";
            "id_tempo"; "modalidade_compra"; "tipo_compra"; "ano_compra"; "compra";
            "insercao"; "anvisa"; "qtd_itens_comprados"; "preco_unitario"; "preco_total";
            "pmp_individual"; "pmp_medio"; "pmp_desvio_padrao"; "score_z_risco";
            "indice_priorizacao"; "demanda_valor"; "%_Gasto_Unico_Forn"]%string).
Proof. vm_compute. done. Qed.

(** ** The z-scores are numbers *)

(** The z-score of a line whose price is a number is a number: the
    quotient is taken only by a deviation that is strictly positive, and
    a group that has a deviation has a mean. *)
Lemma score_z_numero Qsqrt rs r :
  (∃ p, get "preco_total" r = Num p) → ∃ z, score_z_spec Qsqrt rs r = Num z.
Proof.
  intros [p Ep]. unfold score_z_spec.
  destruct (gt0 (group_std Qsqrt rs r)) eqn:Eg; [|by eexists].
  assert (Hp : ∃ a, pmp_individual r = Num a).
  { unfold pmp_individual. rewrite Ep.
    destruct (get "qtd_itens_comprados" r) as [|q|?|? ? ?]; cbn [gt0]; try by eexists.
    destruct (Qltb 0 q) eqn:E; [|by eexists]. rewrite cdiv_pos by done. by eexists. }
  destruct Hp as [a ->]. unfold group_std, group_mean in *.
  destruct (notna_key (zkey r)); [|discriminate].
  destruct (zgroup_pmp rs r) as [|y [|y' l]]; try discriminate.
  unfold std in *. unfold mean.
  set (s := Qsqrt _) in *. cbn [gt0] in Eg. cbn [csub lift2].
  rewrite cdiv_pos by done. by eexists.
Qed.

(** So every line that leaves [calcular_zscore_risco] has a number in
    [score_z_risco] when every line that enters has a number in
    [preco_total]. *)
Lemma zscore_escreve_numeros Qsqrt df :
  has_cols zscore_cols df = true →
  (∀ r, r ∈ rows df → ∃ p, get "preco_total" r = Num p) →
  ∀ r, r ∈ rows (calcular_zscore_risco Qsqrt df) → ∃ z, get "score_z_risco" r = Num z.
Proof.
  intros Hc Hp r Hr. rewrite zscore_rows in Hr by done.
  apply list_elem_of_fmap in Hr as (r0 & -> & Hr0).
  destruct (score_z_numero Qsqrt (rows df) r0 (Hp r0 Hr0)) as [z Ez].
  exists z. rewrite <- Ez. unfold zscore_row. by get_simpl.
Qed.
(** ** Rounding to the nearest *)



(** ** The extremes of a column of numbers *)





(** ** The products of the table and the rows of the aggregation *)

Section Produtos.
Variable df : DataFrame.
Hypothesis Hz : ∀ r, r ∈ rows df → ∃ z, get "score_z_risco" r = Num z.

Local Abbreviation rs := (rows df).
Local Abbreviation ks := (["id_produto"%string]).









End Produtos.

(** ** Rounding to four decimals *)



(** ** The lines of the table after the prioritization *)






(** The products of the example: mean absolute z-scores 0.71, 2 and 0,
    spends 200, 400 and 50; the index of the first is
    0.5 * 0.355 + 0.5 * (150 / 350), rounded to 0.3918. *)
Example indice_do_exemplo :
  on_ok (calcular_indice_priorizacao (round_dec 4) fato_prioridade) (λ out,
    key_eqb (col "indice_priorizacao" out)
      [Num (3918 # 10000); Num 1; Num (3918 # 10000); Num 0] = true ∧
    key_eqb (col "demanda_valor" out) [Num 200; Num 400; Num 200; Num 50] = true).
Proof. vm_compute. done. Qed.

(** The line without a product gets 0 and 0, and its price is in the
    spend of no product. *)
Example indice_sem_produto :
  on_ok (calcular_indice_priorizacao (round_dec 4) fato_produto_ausente) (λ out,
    key_eqb (col "indice_priorizacao" out) [Num (1 # 2); Num 0; Num (1 # 2)] = true ∧
    key_eqb (col "demanda_valor" out) [Num 100; Num 0; Num 300] = true).
Proof. vm_compute. done. Qed.
